(* ===== verification/_CoqProject ===== *)
-Q . S2P
Prelude.v
JsValue.v
SearchData.v
Grammar.v
SearchId.v
SearchPage.v
FunctionsC.v
Functions1.v
SearchIndex.v
SearchFiles.v
SearchResults.v
SearchNav.v
