(* ===== verification/Prelude.v ===== *)
(** * A verification development of the CppBenchmark documentation search index

    The repository holds two generated JavaScript files of the CppBenchmark
    documentation site, [src/search/functions_1.js] and
    [src/search/functions_c.js].  Each is one statement [var searchData=[...];]
    whose array lists the member functions of the C++ library whose search
    key begins with one letter ([b] and [r]).  An item has the shape
    [['key',['Name',['href',1,'scope'],['href',1,'scope'],...]]]: the search
    key, the display name, and one link per documented overload (page
    anchor, a numeric flag, the scope shown beside it).  A JavaScript engine
    evaluates the file; a client-side search widget, which is not part of
    the repository, then loads the page of the query's first letter and
    shows the entries whose key matches the query.

    ** Files, in dependency order

    - [Prelude.v] (this file): character classes, shared string and list
      lemmas, the notation [p <<= s] (prefix) in [docsearch_scope], the hint
      databases [docsearch], [docsearch_rw] and [string_norm], the tactics
      [find_in] and [string_eq].
    - [JsValue.v]: how a JavaScript engine reads the literals the files are
      written in.  Values [jsval] (string, number, array), the generator's
      printer [js_print] and its multi-line layout [js_print_layout], the
      skipping of whitespace, line terminators and comments between tokens
      ([skip_blank], a structural mutual fixpoint with [skip_line] and
      [skip_block]), the numbers ([to_double]: a decimal literal denotes the
      nearest double, 53 significant bits, ties to even, [Infinity] from
      [2^1024] on) and the fuel-bounded recursive-descent reader
      [parse_value]/[parse_items].  [js_round v] is the value an engine
      makes of the printed text of [v].
    - [SearchData.v]: the records [Link] and [Entry] an item stands for,
      their encoding [entry_to_js], the widget's decoding by position
      [entry_of_js] ([searchData[i][0]], [searchData[i][1][0]],
      [searchData[i][1][c+1]]), the text the generator writes for a whole
      file [search_file_text], and the reading of a file
      [parse_search_file]: the declaration [var searchData =] with blanks
      around its tokens ([parse_decl]), the array, then only blanks and
      empty statements ([statement_end]).
    - [Grammar.v]: the grammar of layouts [laid_out]/[laid_items] (the
      printed tokens, numerals standing for their doubles, blanks before
      each token, a comma allowed after the last item of an array) and of
      the declaration ([decl_layout]), which the reader recognises exactly.
    - [SearchId.v]: the search id of a name (lower case, characters outside
      [a-z0-9] as [_] and two hex digits) and its prefix-code property.
      Modelled from the specification and the keys: the generator and the
      widget are the documentation tool's code.
    - [SearchPage.v]: the page invariant [page_wf] (strictly increasing
      keys, keys are the search ids of the names, one first letter, link
      targets consistent with scopes) and the interface [SearchPage]
      (letter, entries, proof of [page_wf]) the data files implement and the
      search is proved against; the generator's conventions for links,
      scopes and HTML text ([link_shape], [scope_shape], [html_text]).
    - [FunctionsC.v], [Functions1.v]: each data file verbatim as a string,
      every item as a [Definition] named after its key, the array, and the
      page, whose invariant is checked by evaluation.
    - [SearchIndex.v]: the widget's search ([trim_query], [query_id],
      [row_matches], [search_page], [select_page], [widget_search]), its
      specification [spec_search] over the whole index, and the index of
      the two pages [functions_index].
    - [SearchFiles.v]: the page file the search box loads for a query
      ([results_file]: the position of the query's first letter in the
      tool's list of letters, in hexadecimal, as in [functions_c]), the
      page of that name ([select_file]) and the consistency of an index's
      file names with its letters ([files_consistent]).
    - [SearchResults.v]: the results page the widget fills from a data
      file: every item rendered as a row ([render_entry]: row id
      [SR_<key>], a direct link for one link, a list of children
      otherwise, the target chosen by the flag), the page's state
      [ResultsPage], its operations [results_search] (rows shown by their
      lower-case id without [sr_]) and [results_toggle] (children of one
      row, failing on a missing id), and the step relation [results_step].
    - [SearchNav.v]: the keyboard navigation loops of the results page
      ([nav_next_loop], [nav_prev_loop]: the next or previous shown row,
      [while (1)] loops with fuel).

    ** What the theorems show

    - The data files: reading each file's text as JavaScript gives exactly
      the modelled entries ([functions_c_reads], [functions_1_reads]); each
      text is character for character the generator's printing of its
      entries ([functions_c_text], [functions_1_text]); the keys are
      strictly increasing ([functions_c_sorted], [functions_1_sorted]) and
      begin with the file's letter ([functions_c_letter],
      [functions_1_letter]); every link has the flag [1] and a 32-digit
      anchor in a class page ([functions_c_links], [functions_1_links]);
      scopes follow the generator's convention, a class for a single link
      and [<class>::<name>(<arguments>)] for several ([functions_c_scopes],
      [functions_1_scopes]); names and scopes are HTML text
      ([functions_c_html], [functions_1_html]); no two links share an
      anchor ([functions_index_hrefs_distinct]).
    - The file format: the generator's text for any entries whose strings
      need no escape, followed by blanks and empty statements, is read as
      the same entries with every flag rounded to the nearest double, and
      as nothing when a flag rounds to [Infinity]
      ([parse_search_file_print]), which is the entries themselves when
      every flag is at most [2^53] ([entry_round_exact]); a text is read
      as entries exactly when it is a declaration, a layout of their array
      (string literals in either quote, with their escape sequences) and
      a statement end ([parse_search_file_grammar]).  Underneath, for single values: the
      printed text of a value reads back as [js_round] of it
      ([JsValue.parse_js_print], [JsValue.parse_value_print_all]), and the
      reader accepts exactly the layouts ([Grammar.parse_js_grammar],
      [Grammar.parse_value_grammar]).
    - The search: refinement of the specification by the widget on every
      index of well-formed pages with distinct letters, a blank query
      finding nothing ([widget_search_spec]); the result set of a page
      ([search_page_spec]) and the fact that it is one block of
      consecutive entries of the page ([search_page_contiguous], from
      sorted keys: the strings a prefix begins are an interval of the
      order).
    - The results page: an invariant of every reachable state by rule
      induction on [results_step] ([results_reachable_inv]); the search
      over rendered rows shows exactly the entries [search_page] finds
      ([results_search_shows]) with the right count and [No Matches]
      status ([results_search_nomatches]); every link of an entry is
      offered and opens in the parent frame ([page_row_links]); toggling
      an entry's row flips that row only, thanks to distinct keys
      ([results_toggle_own]), and toggling an unknown id fails
      ([results_toggle_missing]).  End to end, the rows the results frame
      shows for a query, after the widget has chosen the page, are those of
      the specification's search over the whole index ([widget_shown_spec]).
    - Page files: on an index whose files are named after the
      hexadecimal position of their letter, the file-based choice of the
      search box is the letter-based [select_page]
      ([SearchFiles.select_file_page]); this rests on the widget's page
      naming alone and is not a property of the data files.
    - Keyboard navigation: both loops terminate with the fuel given
      ([nav_next_terminates], [nav_prev_terminates]) and find the nearest
      shown row, and the focus lands only on rows of entries the search
      found ([nav_focus_found]).

    ** Fuel and bounds

    [parse_value] takes fuel; [js_need v] (one unit per nesting level and
    per array item) is enough for the text of [v]
    ([parse_value_print_all]), and [js_need v] is at most the length of
    the text ([js_need_le_length]), so [parse_js] and [parse_search_file],
    which give the length of the text plus one, never run out on printed
    values.  The same holds for every layout ([Grammar.laid_need]), so
    that fuel is enough for every text the grammar allows.  More fuel
    never changes a result ([parse_fuel_mono]).  The skipper of blanks is
    structural and needs no fuel.  Numbers: [to_double] keeps
    [double_prec = 53] significant bits of a literal's value, so every
    integer up to [2^53] reads exactly and [9007199254740993] reads as
    [9007199254740992]; a value that rounds to [2^double_emax = 2^1024]
    or more is [Infinity].  (ECMAScript lets an engine round a literal of
    more than 20 significant digits from its first 20 digits; the model
    takes the correctly rounded value, which is what engines compute.)
    The navigation loops need one unit per row they may visit: the rows
    from the start index on for [NavNext], the index plus one for
    [NavPrev].  [hex_string n] gives [hex_string_fuel] the fuel [S n],
    more than the number of digits, and any fuel above [n] gives the same
    numeral ([SearchFiles.hex_fuel]).

    ** Not modelled

    The C++ benchmark library the index documents: its sources are not in
    the repository, only the names and signatures the index lists.  The
    HTML pages the anchors point to, which are not in the repository
    either.  Of the consumer (the documentation tool's search script,
    also not in the repository): the search box's timers and popup window
    and the key dispatch of the keyboard navigation.  Unicode: characters
    are 8-bit [ascii], whitespace and line terminators are the ASCII ones
    and lower case is ASCII lower case, which is exact for the data files,
    all of whose characters are ASCII.  Of JavaScript, the reader covers
    what a data file can hold: string literals in either quote with
    their escape sequences ([\xHH], [\uHHHH] up to code [255], [\0], the
    single-character escapes and line continuations), decimal integer
    literals, arrays (a trailing comma is read, as JavaScript reads it),
    whitespace and comments between tokens, and after the declaration
    only empty statements; the legacy octal escapes ([\1] to [\9] and [\0]
    before a digit), [\u] escapes above [255] or with braces, fractions,
    exponents, hexadecimal literals, the legacy literals with a leading
    zero ([01], [08]), literals that denote [Infinity], holes, operators,
    other statements and other forms of the declaration make it return
    [None].  The JavaScript reading is the
    language's semantics rather than code of the repository and is not in
    the manifest's map; the widget, the results page, the navigation
    loops, the page-file naming and the key encoding are the tool's code,
    modelled from the specification's account of the consumer and marked
    [spec_modelled].

    ** Extent

    Every line of the two data files is modelled and tied to a theorem.
    What remains of the consumer is the key dispatch of the navigation
    ([Nav], [NavChild]: entering and leaving the children of a row,
    returning to the search field), which would make the focus part of
    [ResultsPage]; the consumer is not code of this repository, and the
    development already models as much of it as the data's meaning needs,
    so it is left out. *)

From Stdlib Require Import String Ascii List Bool Lia NArith Sorted.
Import ListNotations.

Declare Scope docsearch_scope.
Delimit Scope docsearch_scope with ds.
Open Scope string_scope.

(** ** Characters *)

Definition squote : ascii := "'"%char.
Definition dquote : ascii := "034"%char.
Definition newline : ascii := "010"%char.

(** JavaScript whitespace and line terminators within ASCII: space, tab,
    vertical tab, form feed, line feed, carriage return. *)
Definition is_ws (c : ascii) : bool :=
  match nat_of_ascii c with
  | 32 | 9 | 10 | 11 | 12 | 13 => true
  | _ => false
  end.

Definition is_digit (c : ascii) : bool :=
  Nat.leb 48 (nat_of_ascii c) && Nat.leb (nat_of_ascii c) 57.

Definition is_lower (c : ascii) : bool :=
  Nat.leb 97 (nat_of_ascii c) && Nat.leb (nat_of_ascii c) 122.

Definition is_upper (c : ascii) : bool :=
  Nat.leb 65 (nat_of_ascii c) && Nat.leb (nat_of_ascii c) 90.

(** The string [String c EmptyString]. *)
Definition str1 (c : ascii) : string := String c EmptyString.

Notation "p '<<=' s" := (String.prefix p s = true)
  (at level 70, no associativity) : docsearch_scope.
Open Scope docsearch_scope.

(** ** Hint database of the development *)

Create HintDb docsearch discriminated.
Create Rewrite HintDb docsearch_rw.
(** Normal form of string concatenations: right-nested, literals opened. *)
Create Rewrite HintDb string_norm.

(** ** Definitions shared by the components *)

(** [strip_prefix p s] is [Some t] exactly when [s = p ++ t]. *)
Fixpoint strip_prefix (p s : string) : option string :=
  match p, s with
  | EmptyString, _ => Some s
  | String c p', String d s' => if Ascii.eqb c d then strip_prefix p' s' else None
  | String _ _, EmptyString => None
  end.

(** All-or-nothing map over a list, the way a decoder reads every item of
    an array or fails. *)
Fixpoint map_option {A B : Type} (f : A -> option B) (l : list A) : option (list B) :=
  match l with
  | [] => Some []
  | x :: l' =>
      match f x, map_option f l' with
      | Some y, Some ys => Some (y :: ys)
      | _, _ => None
      end
  end.

(** Duplicate-free lists, decided with a boolean equality. *)
Fixpoint nodupb {A : Type} (eqb : A -> A -> bool) (l : list A) : bool :=
  match l with
  | [] => true
  | x :: l' => negb (existsb (eqb x) l') && nodupb eqb l'
  end.

(** ** Tactics *)

(** Case analysis on the boolean tests of a goal, closing the cases that
    contradict a hypothesis. *)
(** Prove [In x [a; b; ...]] for a concrete list by finding [x]. *)
Ltac find_in := repeat (first [left; reflexivity | right]).

(** Two concatenations of the same pieces are equal. *)
Ltac string_eq := unfold str1; autorewrite with string_norm; reflexivity.


(** ** Lemmas on characters *)

Lemma ws_not_digit (c : ascii) : is_ws c = true -> is_digit c = false.
Proof.
  unfold is_ws, is_digit. generalize (nat_of_ascii c) as n. intros n H.
  do 34 (destruct n as [|n]; [try discriminate; reflexivity|]). discriminate.
Qed.

(** ** Strings *)

Lemma string_app_assoc (a b c : string) : (a ++ b) ++ c = a ++ (b ++ c).
Proof. induction a as [|x a IH]; simpl; [reflexivity | now rewrite IH]. Qed.

Lemma string_app_nil_r (a : string) : a ++ "" = a.
Proof. induction a as [|x a IH]; simpl; [reflexivity | now rewrite IH]. Qed.

Lemma string_app_length (a b : string) :
  String.length (a ++ b) = (String.length a + String.length b)%nat.
Proof. induction a as [|x a IH]; simpl; [reflexivity | now rewrite IH]. Qed.

#[export] Hint Rewrite string_app_assoc string_app_nil_r string_app_length : docsearch_rw.

Lemma string_app_cons (c : ascii) (a b : string) : String c a ++ b = String c (a ++ b).
Proof. reflexivity. Qed.

Lemma string_app_nil_l (a : string) : "" ++ a = a.
Proof. reflexivity. Qed.

#[export] Hint Rewrite string_app_assoc string_app_cons string_app_nil_l string_app_nil_r : string_norm.

Lemma prefix_app (p s : string) : p <<= p ++ s.
Proof.
  induction p as [|c p IH]; simpl; [now destruct s|].
  destruct (ascii_dec c c); [exact IH | congruence].
Qed.

Lemma prefix_spec (p s : string) : p <<= s <-> exists t, s = p ++ t.
Proof.
  split.
  - revert s; induction p as [|c p IH]; intros [|d s] H; simpl in *.
    + now exists "".
    + now exists (String d s).
    + discriminate.
    + destruct (ascii_dec c d) as [->|]; [|discriminate].
      destruct (IH s H) as [t ->]. now exists t.
  - intros [t ->]. apply prefix_app.
Qed.

Lemma prefix_cons (c d : ascii) (p s : string) :
  String c p <<= String d s <-> c = d /\ p <<= s.
Proof.
  simpl. destruct (ascii_dec c d); split; intros H; try tauto; try discriminate.
Qed.

Lemma prefix_app_inv (p a b : string) : p ++ a <<= p ++ b <-> a <<= b.
Proof.
  induction p as [|c p IH]; simpl; [tauto|].
  destruct (ascii_dec c c); [exact IH | congruence].
Qed.

#[export] Hint Resolve prefix_app : docsearch.

Lemma strip_prefix_app (p s : string) : strip_prefix p (p ++ s) = Some s.
Proof. induction p as [|c p IH]; simpl; [reflexivity|]. now rewrite Ascii.eqb_refl. Qed.

Lemma strip_prefix_Some (p s t : string) : strip_prefix p s = Some t -> s = p ++ t.
Proof.
  revert s; induction p as [|c p IH]; intros [|d s] H; simpl in *;
    try congruence.
  destruct (Ascii.eqb_spec c d) as [->|]; [|discriminate].
  now rewrite (IH s H).
Qed.

#[export] Hint Rewrite strip_prefix_app : docsearch_rw.

(** The order of [String.ltb] is transitive. *)
Lemma string_compare_lt_trans (a b c : string) :
  String.compare a b = Lt -> String.compare b c = Lt -> String.compare a c = Lt.
Proof.
  revert b c. induction a as [|x a IH]; intros [|y b] [|z c] H1 H2;
    simpl in *; try discriminate; auto.
  unfold Ascii.compare in *.
  destruct (N.compare_spec (N_of_ascii x) (N_of_ascii y));
    destruct (N.compare_spec (N_of_ascii y) (N_of_ascii z)); try discriminate;
    destruct (N.compare_spec (N_of_ascii x) (N_of_ascii z)); try reflexivity; try lia;
    eauto.
Qed.

Lemma string_ltb_trans (a b c : string) :
  String.ltb a b = true -> String.ltb b c = true -> String.ltb a c = true.
Proof.
  unfold String.ltb.
  destruct (String.compare a b) eqn:E1; try discriminate.
  destruct (String.compare b c) eqn:E2; try discriminate.
  now rewrite (string_compare_lt_trans a b c E1 E2).
Qed.

Lemma string_ltb_cons (x y : ascii) (a b : string) :
  String.ltb (String x a) (String y b) = true ->
  (N_of_ascii x < N_of_ascii y)%N \/ (x = y /\ String.ltb a b = true).
Proof.
  unfold String.ltb. simpl. unfold Ascii.compare.
  destruct (N.compare_spec (N_of_ascii x) (N_of_ascii y)) as [E|L|G]; try discriminate; auto.
  intros H. right. split; [|exact H].
  rewrite <- (ascii_N_embedding x), <- (ascii_N_embedding y). now f_equal.
Qed.

Lemma string_ltb_empty_r (a : string) : String.ltb a "" = false.
Proof. destruct a; reflexivity. Qed.

Lemma string_ltb_neq (a b : string) : String.ltb a b = true -> a <> b.
Proof.
  intros H ->. unfold String.ltb in H. pose proof (String.compare_antisym b b) as E.
  destruct (b ?= b)%string; simpl in E; congruence.
Qed.

(** The strings a prefix begins form an interval of the order. *)
Lemma prefix_between (p a b c : string) :
  p <<= a -> p <<= c -> String.ltb a b = true -> String.ltb b c = true -> p <<= b.
Proof.
  revert a b c. induction p as [|x p IH]; intros a b c Ha Hc Hab Hbc; [now destruct b|].
  destruct a as [|xa a]; [discriminate|]. destruct c as [|xc c]; [discriminate|].
  apply prefix_cons in Ha as [<- Ha]. apply prefix_cons in Hc as [<- Hc].
  destruct b as [|y b]; [now rewrite string_ltb_empty_r in Hab|].
  apply string_ltb_cons in Hab as [Hab|[<- Hab]];
    apply string_ltb_cons in Hbc as [Hbc|[E Hbc]]; try (subst; lia); try lia.
  apply prefix_cons. split; [reflexivity|]. eauto.
Qed.

(** ** Lists *)

Lemma forallb_In {A : Type} (f : A -> bool) (l : list A) (x : A) :
  forallb f l = true -> In x l -> f x = true.
Proof. rewrite forallb_forall. auto. Qed.

Lemma map_option_cons {A B : Type} (f : A -> option B) (x : A) (l : list A) :
  map_option f (x :: l) =
  match f x, map_option f l with Some y, Some ys => Some (y :: ys) | _, _ => None end.
Proof. reflexivity. Qed.

(** Mapping after [g] is mapping with [h], then [g'], when [f] after [g]
    is [h] then [g']. *)
Lemma map_option_map_comm {A A' B B' : Type} (f : A' -> option B') (g : A -> A')
      (h : A -> option B) (g' : B -> B') (l : list A) :
  (forall x, f (g x) = option_map g' (h x)) ->
  map_option f (List.map g l) = option_map (List.map g') (map_option h l).
Proof.
  intros Hfg. induction l as [|x l IH]; [reflexivity|]. cbn [List.map]. rewrite !map_option_cons, Hfg, IH.
  destruct (h x), (map_option h l); reflexivity.
Qed.

Lemma map_option_map {A B : Type} (f : A -> option B) (g : B -> A) (l : list B) :
  (forall y, f (g y) = Some y) -> map_option f (List.map g l) = Some l.
Proof. intros H. induction l as [|y l IH]; simpl; [reflexivity|]. now rewrite H, IH. Qed.

Lemma map_option_inv {A B : Type} (f : A -> option B) (g : B -> A) (l : list A) (l' : list B) :
  (forall x y, f x = Some y -> g y = x) -> map_option f l = Some l' -> List.map g l' = l.
Proof.
  intros H. revert l'; induction l as [|x l IH]; intros l' E; simpl in E.
  - now injection E as <-.
  - destruct (f x) eqn:Ex, (map_option f l) eqn:El; try discriminate.
    injection E as <-. simpl. now rewrite (H _ _ Ex), (IH _ eq_refl).
Qed.

Lemma StronglySorted_app_between {A : Type} (R : A -> A -> Prop) (l1 l2 : list A) (a b : A) :
  StronglySorted R (l1 ++ l2)%list -> In a l1 -> In b l2 -> R a b.
Proof.
  induction l1 as [|x l1 IH]; simpl; [tauto|].
  intros H [->|Ha] Hb; apply StronglySorted_inv in H as [H1 H2].
  - apply (proj1 (Forall_forall _ _) H2). apply in_or_app. now right.
  - auto.
Qed.

Section Contiguous.
Variables (A : Type) (R : A -> A -> Prop) (f : A -> bool).
(** [f] holds on an interval of [R]. *)
Hypothesis f_convex : forall a b c, f a = true -> f c = true -> R a b -> R b c -> f b = true.

(** On a sorted list, the elements [f] keeps are one block: the list is
    the elements before it, the block, and the elements after it. *)
Lemma filter_contiguous (l : list A) :
  StronglySorted R l ->
  exists pre post, l = (pre ++ filter f l ++ post)%list /\
    Forall (fun x => f x = false) pre /\ Forall (fun x => f x = false) post.
Proof.
  induction 1 as [|x l Hl IH Hx]; [exists [], []; repeat constructor|].
  destruct IH as (pre & post & Eq & Hpre & Hpost). simpl.
  destruct (f x) eqn:Fx.
  - destruct pre as [|z pre].
    + exists [], post. simpl in Eq |- *. rewrite <- Eq. repeat split; auto.
    + destruct (filter f l) as [|y mid] eqn:Fl.
      * exists [], l. split; [reflexivity|]. split; [constructor|].
        apply Forall_forall. intros w Hw.
        destruct (f w) eqn:Fw; [|reflexivity].
        assert (In w (filter f l)) as Hin by (apply filter_In; auto). rewrite Fl in Hin. contradiction.
      * exfalso. apply Forall_inv in Hpre as Fz.
        assert (f y = true) as Fy.
        { assert (In y (filter f l)) as Hy by (rewrite Fl; now left). apply filter_In in Hy. tauto. }
        assert (R x z) as Rxz.
        { apply (proj1 (Forall_forall _ _) Hx). rewrite Eq. now left. }
        assert (R z y) as Rzy.
        { apply (StronglySorted_app_between R (z :: pre) (y :: mid ++ post)%list); [|now left|now left].
          try rewrite Fl in Eq. simpl in *. rewrite <- Eq. exact Hl. }
        rewrite (f_convex x z y Fx Fy Rxz Rzy) in Fz. discriminate.
  - exists (x :: pre), post. simpl. rewrite <- Eq. repeat split; auto.
Qed.
End Contiguous.

Lemma filter_all_false {A : Type} (f : A -> bool) (l : list A) :
  (forall x, In x l -> f x = false) -> filter f l = [].
Proof.
  induction l as [|x l IH]; simpl; intros H; [reflexivity|].
  rewrite H by auto. apply IH. auto.
Qed.

Lemma nodupb_NoDup {A : Type} (eqb : A -> A -> bool) (l : list A) :
  (forall x y, eqb x y = true <-> x = y) -> nodupb eqb l = true -> NoDup l.
Proof.
  intros Heq. induction l as [|x l IH]; simpl; intros H; [constructor|].
  apply andb_prop in H as [H1 H2]. constructor; [|auto].
  intros Hin. apply negb_true_iff, Bool.not_true_iff_false in H1. apply H1.
  apply existsb_exists. exists x. split; [exact Hin | now apply Heq].
Qed.

