(* ===== verification/JsValue.v ===== *)
(** * JavaScript values of the search data files

    The files [src/search/functions_*.js] are one JavaScript statement whose
    right-hand side is an array literal built from three kinds of values:
    string literals, decimal integer literals (the link flag [1]) and
    nested array literals.  This file models that subset of JavaScript:
    the values ([jsval]), how the generator prints them ([js_print]:
    single quotes, no escapes, no spaces, items separated by [,]) and how
    a JavaScript engine reads them back ([parse_value], a recursive-descent
    reader with fuel).  As in JavaScript, whitespace, line terminators and
    comments may stand between any two tokens ([skip_ws]), an array may
    end with a comma ([[1,]] is [[1]]), a string literal is quoted with
    either quote and may hold escape sequences ([lex_str]), and a decimal
    literal denotes the double nearest to its value ([to_double]: 53
    significant bits, ties to even), so [9007199254740993] reads as
    [9007199254740992].  Inputs outside the subset (legacy octal escapes,
    [\u] escapes above code [255] or with braces, fractions, exponents,
    hexadecimal literals and the legacy literals with a leading zero such
    as [01] and [08], literals that round to [Infinity], array holes such
    as [[1,,2]], operators) make the reader return [None]. *)

From Stdlib Require Import String Ascii List Bool Lia NArith DecimalN DecimalString.
From S2P Require Import Prelude.
Import ListNotations.
Open Scope string_scope.

#[local] Set Warnings "-register-all".
Inductive jsval : Type :=
| JStr (s : string)
| JNum (n : N)
| JArr (vs : list jsval).

(** Induction with a hypothesis for every item of an array. *)
Section JsvalInd.
Variable P : jsval -> Prop.
Hypothesis HStr : forall s, P (JStr s).
Hypothesis HNum : forall n, P (JNum n).
Hypothesis HArr : forall vs, Forall P vs -> P (JArr vs).

Fixpoint jsval_ind' (v : jsval) : P v :=
  match v with
  | JStr s => HStr s
  | JNum n => HNum n
  | JArr vs =>
      HArr vs ((fix go (l : list jsval) : Forall P l :=
                  match l with
                  | [] => Forall_nil P
                  | w :: l' => Forall_cons w (jsval_ind' w) (go l')
                  end) vs)
  end.
End JsvalInd.

(** ** Printing, as the generator writes the literals *)

Fixpoint js_print (v : jsval) : string :=
  match v with
  | JStr s => String squote (s ++ str1 squote)
  | JNum n => NilEmpty.string_of_uint (N.to_uint n)
  | JArr vs => "[" ++ String.concat "," (List.map js_print vs) ++ "]"
  end.

(** An array laid out over several lines: [ind] (whitespace) before every
    item and [close] (whitespace) before the closing bracket.  [js_print]
    of an array is the layout with both empty. *)
Definition js_print_layout (ind close : string) (vs : list jsval) : string :=
  "[" ++ String.concat "," (List.map (fun v => ind ++ js_print v) vs) ++ close ++ "]".

(** A line terminator of JavaScript within ASCII. *)
Definition is_line_end (c : ascii) : bool := Ascii.eqb c "010" || Ascii.eqb c "013".

(** A character that may stand without an escape inside a literal
    quoted by [q]: not the quote, not a backslash, not a line terminator. *)
Definition str_char_in (q c : ascii) : bool :=
  negb (Ascii.eqb c q || Ascii.eqb c "\" || is_line_end c).

(** The printer quotes with [']. *)
Definition str_char_ok (c : ascii) : bool := str_char_in squote c.

Fixpoint str_ok (s : string) : bool :=
  match s with
  | EmptyString => true
  | String c s' => str_char_ok c && str_ok s'
  end.

(** ** Reading *)

(** What stands between two tokens: whitespace, line terminators,
    [//] comments up to the end of their line and [/* */] comments.
    [skip_blank semi s] is the text from the next token on; with [semi] it
    also skips semicolons, the empty statements that may follow a
    statement.  A [/*] that is never closed is no comment: the skipper
    stops at its [/], and no token the reader accepts begins with [/].
    [skip_line] is inside a [//] comment and [skip_block start] inside a
    [/*] comment that began at [start]. *)
Fixpoint skip_blank (semi : bool) (s : string) {struct s} : string :=
  match s with
  | EmptyString => EmptyString
  | String c s' =>
      if is_ws c || (semi && Ascii.eqb c ";") then skip_blank semi s'
      else if Ascii.eqb c "/" then
        match s' with
        | String d t =>
            if Ascii.eqb d "/" then skip_line semi t
            else if Ascii.eqb d "*" then skip_block semi s t
            else s
        | EmptyString => s
        end
      else s
  end
with skip_line (semi : bool) (s : string) {struct s} : string :=
  match s with
  | EmptyString => EmptyString
  | String c s' => if is_line_end c then skip_blank semi s' else skip_line semi s'
  end
with skip_block (semi : bool) (start s : string) {struct s} : string :=
  match s with
  | EmptyString => start
  | String c s' =>
      if Ascii.eqb c "*" then
        match s' with
        | String d t => if Ascii.eqb d "/" then skip_blank semi t else skip_block semi start s'
        | EmptyString => start
        end
      else skip_block semi start s'
  end.

Definition skip_ws (s : string) : string := skip_blank false s.

(** Text made of whitespace only. *)
Fixpoint ws_only (w : string) : bool :=
  match w with
  | EmptyString => true
  | String c w' => is_ws c && ws_only w'
  end.

(** Text the reader skips wherever it stands. *)
Definition blank (w : string) : Prop := forall s, skip_ws (w ++ s) = skip_ws s.

(** ** Numbers

    A decimal literal denotes the IEEE 754 double nearest to its value,
    ties to even: the value is rounded to [double_prec] significant bits,
    and a result of [2 ^ double_emax] or more is [Infinity], which
    [to_double] gives as [None].  The literals the reader accepts are
    integers, so the doubles they denote are integers too. *)
Definition double_prec : N := 53.
Definition double_emax : N := 1024.

Definition to_double (n : N) : option N :=
  let e := (N.size n - double_prec)%N in
  let q := (n / 2 ^ e)%N in
  let r := (n mod 2 ^ e)%N in
  let q' := if (2 * r <? 2 ^ e)%N then q
            else if (2 ^ e <? 2 * r)%N then (q + 1)%N
            else if N.odd q then (q + 1)%N else q in
  if (q' * 2 ^ e <? 2 ^ double_emax)%N then Some (q' * 2 ^ e)%N else None.

(** The value an engine makes of the printed text of [v]: every number
    replaced by the double nearest to it, and no value when one of them
    is [Infinity]. *)
Fixpoint js_round (v : jsval) : option jsval :=
  match v with
  | JStr s => Some (JStr s)
  | JNum n => option_map JNum (to_double n)
  | JArr vs => option_map JArr (map_option js_round vs)
  end.

(** The values the printer writes without escapes: no string holds a
    quote, a backslash or a line terminator. *)
Fixpoint js_ok (v : jsval) : bool :=
  match v with
  | JStr s => str_ok s
  | JNum _ => true
  | JArr vs => forallb js_ok vs
  end.

(** The first character of a text is no digit: the rest after a numeral
    must not begin with one, or the numeral would read on. *)
Definition no_digit_head (s : string) : bool :=
  match s with
  | String c _ => negb (is_digit c)
  | EmptyString => true
  end.

(** The value of a hexadecimal digit, in either case. *)
Definition js_hex_val (c : ascii) : option N :=
  let n := N.of_nat (nat_of_ascii c) in
  if is_digit c then Some (n - 48)%N
  else if (97 <=? n)%N && (n <=? 102)%N then Some (n - 87)%N
  else if (65 <=? n)%N && (n <=? 70)%N then Some (n - 55)%N
  else None.

(** The character a single-character escape [\e] stands for: a control
    character for [b f n r t v], the character itself for every other [e]
    that begins no other escape (the quotes and the backslash among them), and no
    character for the digits, [x], [u] and the line terminators. *)
Definition escape_single (e : ascii) : option ascii :=
  if Ascii.eqb e "b" then Some "008"%char
  else if Ascii.eqb e "f" then Some "012"%char
  else if Ascii.eqb e "n" then Some "010"%char
  else if Ascii.eqb e "r" then Some "013"%char
  else if Ascii.eqb e "t" then Some "009"%char
  else if Ascii.eqb e "v" then Some "011"%char
  else if is_digit e || Ascii.eqb e "x" || Ascii.eqb e "u" || is_line_end e then None
  else Some e.

(** A character code as a character of the 8-bit strings of the model;
    a larger code has none. *)
Definition byte_of (n : N) : option ascii :=
  if (n <? 256)%N then Some (ascii_of_N n) else None.

Definition lex_cons (c : ascii) (o : option (string * string)) : option (string * string) :=
  match o with
  | Some (t, r) => Some (String c t, r)
  | None => None
  end.

(** The body of a string literal quoted by [q], up to its closing quote,
    with its escape sequences: [\xHH], [\uHHHH] (a code of at most [255]),
    [\0] not followed by a digit, a line continuation ([\] before [LF],
    [CR] or [CR LF]) that stands for nothing, and the single-character
    escapes. *)
Fixpoint lex_str (q : ascii) (s : string) : option (string * string) :=
  match s with
  | EmptyString => None
  | String c r =>
      if Ascii.eqb c q then Some (EmptyString, r)
      else if Ascii.eqb c "\" then
        match r with
        | EmptyString => None
        | String e r1 =>
            if Ascii.eqb e "x" then
              match r1 with
              | String h1 (String h2 r2) =>
                  match js_hex_val h1, js_hex_val h2 with
                  | Some a, Some b => lex_cons (ascii_of_N (16 * a + b)) (lex_str q r2)
                  | _, _ => None
                  end
              | _ => None
              end
            else if Ascii.eqb e "u" then
              match r1 with
              | String h1 (String h2 (String h3 (String h4 r2))) =>
                  match js_hex_val h1, js_hex_val h2, js_hex_val h3, js_hex_val h4 with
                  | Some a, Some b, Some c', Some d =>
                      match byte_of (((16 * a + b) * 16 + c') * 16 + d) with
                      | Some ch => lex_cons ch (lex_str q r2)
                      | None => None
                      end
                  | _, _, _, _ => None
                  end
              | _ => None
              end
            else if Ascii.eqb e "013" then
              match r1 with
              | String f r2 => if Ascii.eqb f "010" then lex_str q r2 else lex_str q r1
              | EmptyString => lex_str q r1
              end
            else if Ascii.eqb e "010" then lex_str q r1
            else if Ascii.eqb e "0" then
              if no_digit_head r1 then lex_cons "000" (lex_str q r1) else None
            else match escape_single e with
                 | Some d => lex_cons d (lex_str q r1)
                 | None => None
                 end
        end
      else if str_char_in q c then lex_cons c (lex_str q r)
      else None
  end.

Definition digit_ctor (k : nat) : Decimal.uint -> Decimal.uint :=
  match k with
  | 0 => Decimal.D0 | 1 => Decimal.D1 | 2 => Decimal.D2 | 3 => Decimal.D3
  | 4 => Decimal.D4 | 5 => Decimal.D5 | 6 => Decimal.D6 | 7 => Decimal.D7
  | 8 => Decimal.D8 | _ => Decimal.D9
  end.

Definition digit_of_ascii (c : ascii) : option (Decimal.uint -> Decimal.uint) :=
  if is_digit c then Some (digit_ctor (nat_of_ascii c - 48)) else None.

(** The longest run of decimal digits at the head of a string. *)
Fixpoint lex_digits (s : string) : Decimal.uint * string :=
  match s with
  | String c r =>
      match digit_of_ascii c with
      | Some d => let (u, r') := lex_digits r in (d u, r')
      | None => (Decimal.Nil, s)
      end
  | EmptyString => (Decimal.Nil, EmptyString)
  end.

(** A literal with a leading zero, such as [01] (legacy octal) or [08]
    (legacy decimal), is outside the subset. *)
Definition leading_zero (u : Decimal.uint) : bool :=
  match u with
  | Decimal.D0 Decimal.Nil => false
  | Decimal.D0 _ => true
  | _ => false
  end.

(** [expect c s]: skip whitespace, then read the punctuator [c]. *)
Definition expect (c : ascii) (s : string) : option string :=
  match skip_ws s with
  | String d r => if Ascii.eqb c d then Some r else None
  | EmptyString => None
  end.

Fixpoint parse_value (fuel : nat) (s : string) {struct fuel} : option (jsval * string) :=
  match fuel with
  | O => None
  | S f =>
      match skip_ws s with
      | EmptyString => None
      | String c r =>
          if Ascii.eqb c squote || Ascii.eqb c dquote then
            match lex_str c r with
            | Some (t, r') => Some (JStr t, r')
            | None => None
            end
          else if Ascii.eqb c "[" then
            match expect "]" r with
            | Some r' => Some (JArr [], r')
            | None =>
                match parse_items f r with
                | Some (vs, r') => Some (JArr vs, r')
                | None => None
                end
            end
          else if is_digit c then
            let (u, r') := lex_digits (String c r) in
            if leading_zero u then None
            else match to_double (N.of_uint u) with
                 | Some m => Some (JNum m, r')
                 | None => None
                 end
          else None
      end
  end
with parse_items (fuel : nat) (s : string) {struct fuel} : option (list jsval * string) :=
  match fuel with
  | O => None
  | S f =>
      match parse_value f s with
      | Some (v, r) =>
          match expect "," r with
          | Some r' =>
              match expect "]" r' with
              | Some r'' => Some ([v], r'')
              | None =>
                  match parse_items f r' with
                  | Some (vs, r'') => Some (v :: vs, r'')
                  | None => None
                  end
              end
          | None =>
              match expect "]" r with
              | Some r' => Some ([v], r')
              | None => None
              end
          end
      | None => None
      end
  end.

(** Whole-text reading: one value, then nothing but whitespace.  The fuel
    is the length of the text plus one, which [js_need_le_length] shows is
    enough for every printed value. *)
Definition parse_js (s : string) : option jsval :=
  match parse_value (S (String.length s)) s with
  | Some (v, r) => match skip_ws r with EmptyString => Some v | _ => None end
  | None => None
  end.

(** The fuel a value needs: one per nesting level and per array item. *)
Fixpoint js_need (v : jsval) : nat :=
  match v with
  | JStr _ | JNum _ => 1
  | JArr vs => S (fold_right (fun w n => S (Nat.max (js_need w) n)) 0 vs)
  end.

Definition items_need (vs : list jsval) : nat :=
  fold_right (fun w n => S (Nat.max (js_need w) n)) 0 vs.

(** ** Numbers below [2^53] are read exactly *)

Lemma size_le_prec (n : N) : (n < 2 ^ 53)%N -> (N.size n <= 53)%N.
Proof.
  intros H. destruct (N.le_gt_cases (N.size n) 53) as [|Hgt]; [assumption|]. exfalso.
  assert (H1 : (2 ^ 54 <= 2 ^ N.size n)%N) by (apply N.pow_le_mono_r; lia).
  pose proof (N.size_le n) as H2. rewrite N.succ_double_spec in H2.
  change (2 ^ 54)%N with 18014398509481984%N in H1.
  change (2 ^ 53)%N with 9007199254740992%N in H. lia.
Qed.

Lemma to_double_small (n : N) : (n < 2 ^ 53)%N -> to_double n = Some n.
Proof.
  intros H. unfold to_double.
  assert (E : (N.size n - double_prec = 0)%N) by (unfold double_prec; pose proof (size_le_prec n H); lia).
  rewrite E, N.pow_0_r, N.div_1_r, N.mod_1_r, N.mul_1_r. cbn [N.mul N.ltb N.compare].
  replace (n <? 2 ^ double_emax)%N with true; [reflexivity|]. symmetry. apply N.ltb_lt.
  apply (N.lt_le_trans _ _ _ H), N.pow_le_mono_r; [discriminate | unfold double_emax; lia].
Qed.

(** Every integer up to [2^53] is a double. *)
Lemma to_double_exact (n : N) : (n <= 2 ^ 53)%N -> to_double n = Some n.
Proof.
  intros H. destruct (N.eq_dec n (2 ^ 53)) as [->|Hn]; [reflexivity|].
  apply to_double_small. lia.
Qed.

(** ** Lemmas on the skipper *)

Lemma digit_not_punct (c : ascii) :
  is_digit c = true -> is_ws c = false /\ Ascii.eqb c "/" = false /\ Ascii.eqb c ";" = false.
Proof. destruct c as [[] [] [] [] [] [] [] []]; intros H; try discriminate H; auto. Qed.

(** The skipper stops at a token. *)
Lemma skip_token (semi : bool) (c : ascii) (s : string) :
  is_ws c = false -> Ascii.eqb c "/" = false -> (semi && Ascii.eqb c ";") = false ->
  skip_blank semi (String c s) = String c s.
Proof. intros H1 H2 H3. cbn [skip_blank]. now rewrite H1, H3, H2. Qed.

Lemma skip_digit (semi : bool) (c : ascii) (s : string) :
  is_digit c = true -> skip_blank semi (String c s) = String c s.
Proof.
  intros (H1 & H2 & H3)%digit_not_punct. apply skip_token; auto.
  now rewrite H3, andb_false_r.
Qed.

Lemma ws_blank (w : string) : ws_only w = true -> blank w.
Proof.
  induction w as [|c w IH]; intros H s; [reflexivity|].
  apply andb_prop in H as [Hc Hw]. unfold skip_ws in *. cbn [String.append skip_blank].
  rewrite Hc. apply IH, Hw.
Qed.

(** A blank that is not empty begins with whitespace or a comment. *)
Lemma blank_head (c : ascii) (w : string) : blank (String c w) -> is_ws c = true \/ c = "/"%char.
Proof.
  intros H. specialize (H ""). rewrite string_app_nil_r in H.
  destruct (is_ws c) eqn:E; [now left|right].
  destruct (Ascii.eqb_spec c "/") as [->|Hs]; [reflexivity|].
  unfold skip_ws in H. rewrite skip_token in H by (auto; now apply Ascii.eqb_neq). discriminate.
Qed.

#[export] Hint Resolve ws_blank : docsearch.

(** ** Lemmas on the lexer *)

Lemma str_char_in_plain (q c : ascii) :
  str_char_in q c = true -> Ascii.eqb c q = false /\ Ascii.eqb c "\" = false.
Proof.
  unfold str_char_in. destruct (Ascii.eqb c q), (Ascii.eqb c "\"); easy.
Qed.

Lemma lex_str_print (s rest : string) :
  str_ok s = true -> lex_str squote (s ++ String squote rest) = Some (s, rest).
Proof.
  induction s as [|c s IH]; simpl; [reflexivity|].
  intros [Hc Hs]%andb_prop. destruct (str_char_in_plain _ _ Hc) as [-> ->].
  unfold str_char_ok in Hc. now rewrite Hc, IH.
Qed.

Lemma lex_digits_print (u : Decimal.uint) (rest : string) :
  no_digit_head rest = true ->
  lex_digits (NilEmpty.string_of_uint u ++ rest) = (u, rest).
Proof.
  intros Hr. induction u; simpl;
    try (rewrite IHu; reflexivity).
  destruct rest as [|c rest]; simpl in *; [reflexivity|].
  unfold digit_of_ascii. now destruct (is_digit c).
Qed.

Lemma nzhead_head (u : Decimal.uint) :
  match Decimal.nzhead u with Decimal.D0 _ => False | _ => True end.
Proof. induction u; simpl; auto. Qed.

Lemma to_uint_normal (n : N) : Decimal.unorm (N.to_uint n) = N.to_uint n.
Proof. rewrite <- DecimalN.Unsigned.to_of, DecimalN.Unsigned.of_to. reflexivity. Qed.

Lemma to_uint_no_leading_zero (n : N) : leading_zero (N.to_uint n) = false.
Proof.
  rewrite <- to_uint_normal. unfold Decimal.unorm.
  pose proof (nzhead_head (N.to_uint n)) as H.
  destruct (Decimal.nzhead (N.to_uint n)); simpl; tauto.
Qed.

Lemma to_uint_not_nil (n : N) : N.to_uint n <> Decimal.Nil.
Proof.
  rewrite <- to_uint_normal. unfold Decimal.unorm.
  destruct (Decimal.nzhead (N.to_uint n)); discriminate.
Qed.

(** Every printed value starts with a quote, a bracket or a digit. *)
Lemma js_print_head (v : jsval) :
  exists d t, js_print v = String d t /\ is_ws d = false /\ Ascii.eqb d "/" = false /\
              Ascii.eqb "]" d = false /\ Ascii.eqb "," d = false /\
              (is_digit d = false \/ exists n, v = JNum n).
Proof.
  destruct v as [s|n|vs]; simpl.
  - do 2 eexists; split; [reflexivity|]. repeat split; auto.
  - pose proof (to_uint_not_nil n) as Hn.
    destruct (N.to_uint n); [contradiction| ..];
      do 2 eexists; (split; [reflexivity|]); repeat split; eauto.
  - do 2 eexists; split; [reflexivity|]. repeat split; auto.
Qed.

Lemma expect_print (c : ascii) (v : jsval) (s : string) :
  (c = "]"%char \/ c = ","%char) -> expect c (js_print v ++ s) = None.
Proof.
  intros Hc. destruct (js_print_head v) as (d & t & -> & Hws & Hsl & Hb & Hcm & _).
  unfold expect, skip_ws. cbn [String.append]. rewrite skip_token by auto.
  destruct Hc as [->| ->]; [now rewrite Hb | now rewrite Hcm].
Qed.

Lemma expect_here (c : ascii) (r : string) :
  is_ws c = false -> Ascii.eqb c "/" = false -> expect c (String c r) = Some r.
Proof. intros H1 H2. unfold expect, skip_ws. rewrite skip_token by auto. now rewrite Ascii.eqb_refl. Qed.

#[export] Hint Resolve lex_str_print lex_digits_print : docsearch.

(** ** The printed text of a value reads back as the value *)

Lemma items_need_cons (v : jsval) (vs : list jsval) :
  items_need (v :: vs) = S (Nat.max (js_need v) (items_need vs)).
Proof. reflexivity. Qed.

Lemma js_need_arr (vs : list jsval) : js_need (JArr vs) = S (items_need vs).
Proof. reflexivity. Qed.

Lemma concat_map_cons2 {A : Type} (f : A -> string) (sep : string) (v w : A) (vs : list A) :
  String.concat sep (List.map f (v :: w :: vs)) = f v ++ sep ++ String.concat sep (List.map f (w :: vs)).
Proof. reflexivity. Qed.

Lemma uint_print_head (u : Decimal.uint) :
  u <> Decimal.Nil ->
  exists c t, NilEmpty.string_of_uint u = String c t /\ is_digit c = true /\
              is_ws c = false /\ (Ascii.eqb c squote || Ascii.eqb c dquote) = false /\ Ascii.eqb c "[" = false.
Proof. intros Hu. destruct u; [contradiction| ..]; do 2 eexists; repeat split. Qed.

Lemma parse_value_digits (f : nat) (c : ascii) (r : string) :
  is_digit c = true -> (Ascii.eqb c squote || Ascii.eqb c dquote) = false -> Ascii.eqb c "[" = false ->
  parse_value (S f) (String c r) =
  let (u, r') := lex_digits (String c r) in
  if leading_zero u then None
  else match to_double (N.of_uint u) with Some m => Some (JNum m, r') | None => None end.
Proof.
  intros H1 H3 H4. cbn [parse_value]. unfold skip_ws. rewrite skip_digit by exact H1.
  now rewrite H3, H4, H1.
Qed.

(** A decimal literal reads as the double it denotes, and not at all when
    that is [Infinity]. *)
Lemma parse_value_number (f : nat) (n : N) (rest : string) :
  no_digit_head rest = true ->
  parse_value (S f) (js_print (JNum n) ++ rest) = option_map (fun m => (JNum m, rest)) (to_double n).
Proof.
  intros Hr. simpl js_print.
  destruct (uint_print_head (N.to_uint n) (to_uint_not_nil n))
    as (c & t & Hu & H1 & H2 & H3 & H4).
  rewrite Hu. change (String c t ++ rest) with (String c (t ++ rest)).
  rewrite parse_value_digits by assumption.
  change (String c (t ++ rest)) with (String c t ++ rest).
  rewrite <- Hu, lex_digits_print, to_uint_no_leading_zero, DecimalN.Unsigned.of_to by exact Hr.
  now destruct (to_double n).
Qed.

Lemma parse_value_bracket (f : nat) (r : string) :
  parse_value (S f) (String "[" r) =
  match expect "]" r with
  | Some r' => Some (JArr [], r')
  | None => match parse_items f r with Some (vs, r') => Some (JArr vs, r') | None => None end
  end.
Proof. reflexivity. Qed.

Lemma concat_map_head {A : Type} (f : A -> string) (sep : string) (w : A) (vs : list A) :
  exists t, String.concat sep (List.map f (w :: vs)) = f w ++ t.
Proof.
  destruct vs as [|x vs].
  - exists "". simpl. now rewrite string_app_nil_r.
  - eexists. apply concat_map_cons2.
Qed.

Lemma parse_value_ws (f : nat) (w s : string) :
  blank w -> parse_value f (w ++ s) = parse_value f s.
Proof. intros Hw. destruct f as [|f]; [reflexivity|]. cbn [parse_value]. now rewrite (Hw s). Qed.

Lemma expect_ws (c : ascii) (w s : string) : blank w -> expect c (w ++ s) = expect c s.
Proof. intros Hw. unfold expect. now rewrite (Hw s). Qed.

Lemma expect_close (w rest : string) :
  blank w -> expect "," (w ++ String "]" rest) = None /\ expect "]" (w ++ String "]" rest) = Some rest.
Proof. intros Hw. rewrite !expect_ws by exact Hw. split; reflexivity. Qed.

Lemma no_digit_head_ws (w r : string) (c : ascii) :
  blank w -> is_digit c = false -> no_digit_head (w ++ String c r) = true.
Proof.
  intros Hw Hc. destruct w as [|d w]; simpl; [now rewrite Hc|].
  destruct (blank_head d w Hw) as [E| ->]; [now rewrite (ws_not_digit d E) | reflexivity].
Qed.

#[export] Hint Rewrite parse_value_ws expect_ws using assumption : docsearch_rw.
#[export] Hint Resolve no_digit_head_ws : docsearch.

Lemma concat_cons2_length {A : Type} (f : A -> string) (v w : A) (vs : list A) :
  String.length (String.concat "," (List.map f (v :: w :: vs))) =
  String.length (f v) + S (String.length (String.concat "," (List.map f (w :: vs)))).
Proof. rewrite concat_map_cons2, string_app_length. reflexivity. Qed.

Section RoundTrip.
(** The statement proved for every value, by induction on the value. *)
Let reads_back (v : jsval) : Prop :=
  js_ok v = true -> forall fuel rest, js_need v <= fuel -> no_digit_head rest = true ->
  parse_value fuel (js_print v ++ rest) = option_map (fun w => (w, rest)) (js_round v).

Variables ind close : string.
Hypothesis Hind : blank ind.
Hypothesis Hclose : blank close.

(** Laid-out items begin with neither a closing bracket nor a comma. *)
Lemma expect_items (c : ascii) (w : jsval) (vs : list jsval) (rest : string) :
  c = "]"%char \/ c = ","%char ->
  expect c (String.concat "," (List.map (fun v => ind ++ js_print v) (w :: vs)) ++ rest) = None.
Proof.
  intros Hc. destruct (concat_map_head (fun v => ind ++ js_print v) "," w vs) as [t ->].
  rewrite !string_app_assoc, expect_ws by exact Hind. now apply expect_print.
Qed.

Lemma parse_items_layout (vs : list jsval) :
  Forall reads_back vs -> vs <> [] -> forallb js_ok vs = true ->
  forall fuel rest, items_need vs <= fuel ->
  parse_items fuel (String.concat "," (List.map (fun v => ind ++ js_print v) vs)
                    ++ close ++ String "]" rest) =
  option_map (fun ws => (ws, rest)) (map_option js_round vs).
Proof.
  induction 1 as [|v vs Hv Hvs IH]; intros Hne Hok fuel rest Hf; [congruence|].
  simpl in Hok. apply andb_prop in Hok as [Hok1 Hok2].
  rewrite items_need_cons in Hf. destruct fuel as [|f]; [lia|].
  destruct (expect_close close rest Hclose) as [Hc1 Hc2].
  destruct vs as [|w vs].
  - cbn [parse_items List.map String.concat]. rewrite !string_app_assoc.
    autorewrite with docsearch_rw.
    rewrite Hv by (auto with docsearch; simpl; lia). rewrite map_option_cons.
    destruct (js_round v); cbn [option_map]; [now rewrite Hc1, Hc2 | reflexivity].
  - rewrite concat_map_cons2. cbn [parse_items]. rewrite !string_app_assoc.
    autorewrite with docsearch_rw. rewrite Hv by (auto; lia). rewrite map_option_cons.
    destruct (js_round v); cbn [option_map String.append]; [|reflexivity].
    rewrite expect_here by reflexivity. lazy beta iota.
    rewrite expect_items by auto. rewrite IH by (auto; congruence || lia).
    now destruct (map_option js_round (w :: vs)).
Qed.

Lemma parse_array_layout (vs : list jsval) :
  Forall reads_back vs -> forallb js_ok vs = true ->
  forall fuel rest, S (items_need vs) <= fuel ->
  parse_value fuel (js_print_layout ind close vs ++ rest) =
  option_map (fun ws => (JArr ws, rest)) (map_option js_round vs).
Proof.
  intros Hvs Hok [|f] rest Hf; [lia|].
  unfold js_print_layout. rewrite !string_app_assoc. simpl (("[" ++ _)).
  rewrite parse_value_bracket.
  destruct vs as [|w vs].
  - simpl. now rewrite (proj2 (expect_close close rest Hclose)).
  - rewrite expect_items by auto.
    rewrite parse_items_layout by (auto; congruence || lia).
    now destruct (map_option js_round (w :: vs)).
Qed.
End RoundTrip.

Lemma parse_value_print_all (v : jsval) :
  js_ok v = true -> forall fuel rest, js_need v <= fuel -> no_digit_head rest = true ->
  parse_value fuel (js_print v ++ rest) = option_map (fun w => (w, rest)) (js_round v).
Proof.
  induction v as [s|n|vs IH] using jsval_ind';
    intros Hok [|f] rest Hf Hr; try (simpl in Hf; lia).
  - simpl. rewrite string_app_assoc. simpl. now rewrite lex_str_print.
  - rewrite parse_value_number by exact Hr. simpl js_round. now destruct (to_double n).
  - change (js_print (JArr vs)) with (js_print_layout "" "" vs).
    rewrite parse_array_layout by auto with docsearch. simpl js_round.
    now destruct (map_option js_round vs).
Qed.

(** ** Fuel *)

Lemma items_need_le_length (vs : list jsval) :
  Forall (fun v => js_need v <= String.length (js_print v)) vs ->
  items_need vs <= S (String.length (String.concat "," (List.map js_print vs))).
Proof.
  induction 1 as [|v vs Hv Hvs IH]; [simpl; lia|].
  rewrite items_need_cons. destruct vs as [|w vs].
  - simpl in *. lia.
  - rewrite concat_cons2_length. simpl in *. lia.
Qed.

(** The fuel a printed value needs is at most the length of its text, so
    the fuel [parse_js] gives is enough. *)
Lemma js_need_le_length (v : jsval) : js_need v <= String.length (js_print v).
Proof.
  induction v as [s|n|vs IH] using jsval_ind'.
  - simpl. lia.
  - simpl. destruct (uint_print_head (N.to_uint n) (to_uint_not_nil n)) as (c & t & -> & _).
    simpl. lia.
  - rewrite js_need_arr. simpl js_print. simpl String.length.
    rewrite string_app_length. simpl String.length.
    pose proof (items_need_le_length vs IH). lia.
Qed.

(** ** Reading does not depend on the fuel once it suffices *)

Lemma parse_fuel_mono (f : nat) :
  (forall s r, parse_value f s = Some r -> forall f', f <= f' -> parse_value f' s = Some r) /\
  (forall s r, parse_items f s = Some r -> forall f', f <= f' -> parse_items f' s = Some r).
Proof.
  induction f as [|f [IHv IHi]]; split; intros s r H [|f'] Hle; try discriminate; try lia;
    simpl in H |- *.
  - destruct (skip_ws s) as [|c t]; [discriminate|].
    destruct (Ascii.eqb c squote || Ascii.eqb c dquote); [exact H|].
    destruct (Ascii.eqb c "["); [|exact H].
    destruct (expect "]" t); [exact H|].
    destruct (parse_items f t) as [[vs t']|] eqn:E; [|discriminate].
    now rewrite (IHi _ _ E f') by lia.
  - destruct (parse_value f s) as [[v t]|] eqn:E; [|discriminate].
    rewrite (IHv _ _ E f') by lia.
    destruct (expect "," t) as [t1|]; [|exact H].
    destruct (expect "]" t1); [exact H|].
    destruct (parse_items f t1) as [[vs t']|] eqn:E'; [|discriminate].
    now rewrite (IHi _ _ E' f') by lia.
Qed.

(** ** Reading whole texts *)

Lemma parse_js_print_rest (v : jsval) (rest : string) :
  js_ok v = true -> no_digit_head rest = true -> skip_ws rest = "" ->
  parse_js (js_print v ++ rest) = js_round v.
Proof.
  intros Hok Hr Hws. unfold parse_js.
  rewrite parse_value_print_all; auto.
  - destruct (js_round v); cbn [option_map]; [now rewrite Hws | reflexivity].
  - pose proof (js_need_le_length v). rewrite string_app_length. lia.
Qed.

(** Printing a value the generator can write without escapes and reading
    the text back gives the value with every number rounded to the double
    nearest to it: the value itself when its numbers are doubles, no value
    when one rounds to [Infinity]. *)
Lemma parse_js_print (v : jsval) : js_ok v = true -> parse_js (js_print v) = js_round v.
Proof.
  intros Hok. rewrite <- (string_app_nil_r (js_print v)).
  now apply parse_js_print_rest.
Qed.

Lemma concat_layout_length (ind : string) (vs : list jsval) :
  String.length (String.concat "," (List.map js_print vs)) <=
  String.length (String.concat "," (List.map (fun v => ind ++ js_print v) vs)).
Proof.
  induction vs as [|v vs IH]; [simpl; lia|].
  destruct vs as [|w vs].
  - simpl. rewrite string_app_length. lia.
  - rewrite !concat_cons2_length, string_app_length. lia.
Qed.

(** The fuel bound holds for the laid-out text of an array too. *)
Lemma js_need_le_layout_length (ind close : string) (vs : list jsval) :
  js_need (JArr vs) <= String.length (js_print_layout ind close vs).
Proof.
  pose proof (js_need_le_length (JArr vs)) as H. simpl js_print in H.
  unfold js_print_layout. simpl String.length in *.
  rewrite !string_app_length in *. simpl String.length in *.
  pose proof (concat_layout_length ind vs). lia.
Qed.
