(* ===== verification/SearchData.v ===== *)
(** * Search entries and the layout of a search data file

    Each item of the [searchData] array of [src/search/functions_*.js] is
    [['key',['Name',link,link,...]]] with [link = ['href',flag,'scope']].
    This file gives the records the items stand for ([Link], [Entry]), the
    encoding of a record as a JavaScript value ([entry_to_js]), its decoding
    by the positions the search widget reads ([entry_of_js]:
    [searchData[i][0]] is the key, [searchData[i][1][0]] the name and
    [searchData[i][1][c+1]] the links), the text the generator writes for a
    whole file ([search_file_text]: [var searchData=], a line per entry
    indented by two spaces, [];]) and the reading of a file
    ([parse_search_file]): the declaration [var searchData =] with
    whitespace and comments around its tokens ([parse_decl]), the array
    literal, then only whitespace, comments and empty statements
    ([statement_end]).  The round-trip theorem ties the generator's text
    to the reading. *)

From Stdlib Require Import String Ascii List Bool Lia NArith.
From S2P Require Import Prelude JsValue.
Import ListNotations.
Open Scope string_scope.

(** A link: the page and anchor ([../class_x.html#a...]), the numeric flag
    the widget tests to choose the link target, and the scope it shows. *)
Record Link : Type := mkLink {
  link_href : string;
  link_flag : N;
  link_scope : string
}.

(** An entry: the search key, the display name and the links, one per
    documented symbol of that name. *)
Record Entry : Type := mkEntry {
  entry_key : string;
  entry_name : string;
  entry_links : list Link
}.

Definition link_to_js (l : Link) : jsval :=
  JArr [JStr (link_href l); JNum (link_flag l); JStr (link_scope l)].

Definition entry_to_js (e : Entry) : jsval :=
  JArr [JStr (entry_key e); JArr (JStr (entry_name e) :: List.map link_to_js (entry_links e))].

Definition link_of_js (v : jsval) : option Link :=
  match v with
  | JArr [JStr h; JNum n; JStr sc] => Some (mkLink h n sc)
  | _ => None
  end.

Definition entry_of_js (v : jsval) : option Entry :=
  match v with
  | JArr [JStr k; JArr (JStr nm :: ls)] =>
      match map_option link_of_js ls with
      | Some ls' => Some (mkEntry k nm ls')
      | None => None
      end
  | _ => None
  end.

Definition search_data_of_js (v : jsval) : option (list Entry) :=
  match v with
  | JArr vs => map_option entry_of_js vs
  | _ => None
  end.

(** The strings of an entry hold no quote, backslash or line break, so the
    generator writes them without escapes. *)
Definition link_ok (l : Link) : bool := str_ok (link_href l) && str_ok (link_scope l).

(** What a JavaScript engine reads for a link and an entry the generator
    printed: the flag as the double nearest to it, nothing when that is
    [Infinity]. *)
Definition link_round (l : Link) : option Link :=
  option_map (fun m => mkLink (link_href l) m (link_scope l)) (to_double (link_flag l)).

Definition entry_round (e : Entry) : option Entry :=
  option_map (mkEntry (entry_key e) (entry_name e)) (map_option link_round (entry_links e)).

Definition entry_ok (e : Entry) : bool :=
  str_ok (entry_key e) && str_ok (entry_name e) && forallb link_ok (entry_links e).

(** ** The text of a file *)

Definition nl : string := str1 newline.

Definition search_file_prefix : string := "var searchData=".

(** [var searchData=], a new line, the array with every entry on a line of
    its own indented by two spaces, the closing bracket on a line of its
    own, and the statement's semicolon. *)
Definition search_file_text (es : list Entry) : string :=
  search_file_prefix ++ nl ++ js_print_layout (nl ++ "  ") nl (List.map entry_to_js es) ++ ";".

(** After the array: whitespace, comments and empty statements [;] up to
    the end of the file. *)
Definition statement_end (r : string) : bool :=
  match skip_blank true r with EmptyString => true | _ => false end.

(** Text that begins with whitespace or a comment, as the space between
    [var] and the name must. *)
Definition sep_head (r : string) : bool :=
  match r with String c _ => is_ws c || Ascii.eqb c "/" | EmptyString => false end.

(** The declaration [var searchData =] with whitespace and comments before
    and between its tokens; the rest of the text after the [=]. *)
Definition parse_decl (s : string) : option string :=
  match strip_prefix "var" (skip_ws s) with
  | Some r =>
      if sep_head r then
        match strip_prefix "searchData" (skip_ws r) with
        | Some r' => expect "=" r'
        | None => None
        end
      else None
  | None => None
  end.

Definition parse_search_file (s : string) : option (list Entry) :=
  match parse_decl s with
  | Some r =>
      match parse_value (S (String.length r)) r with
      | Some (v, r') => if statement_end r' then search_data_of_js v else None
      | None => None
      end
  | None => None
  end.

(** ** Decoding inverts encoding *)

Lemma link_of_js_to_js (l : Link) : link_of_js (link_to_js l) = Some l.
Proof. now destruct l. Qed.

Lemma link_to_js_of_js (v : jsval) (l : Link) : link_of_js v = Some l -> link_to_js l = v.
Proof.
  destruct v as [| |[|[] [|[] [|[] []]]]]; simpl; intros H; try discriminate.
  now injection H as <-.
Qed.

Lemma entry_of_js_inv (v : jsval) (e : Entry) : entry_of_js v = Some e -> entry_to_js e = v.
Proof.
  destruct v as [| |[|[] [|[| |[|[] ls]] []]]]; simpl; intros H; try discriminate.
  destruct (map_option link_of_js ls) as [ls'|] eqn:E; [|discriminate].
  injection H as <-. unfold entry_to_js. cbn [entry_key entry_name entry_links].
  now rewrite (map_option_inv link_of_js link_to_js ls ls' link_to_js_of_js E).
Qed.

Lemma forallb_links_ok (ls : list Link) :
  forallb js_ok (List.map link_to_js ls) = forallb link_ok ls.
Proof.
  induction ls as [|[h n sc] ls IH]; simpl; [reflexivity|].
  rewrite IH. unfold link_ok. simpl. now rewrite andb_true_r.
Qed.

Lemma js_ok_entry (e : Entry) : js_ok (entry_to_js e) = entry_ok e.
Proof.
  destruct e as [k nm ls]. unfold entry_ok. simpl.
  now rewrite !andb_true_r, forallb_links_ok, andb_assoc.
Qed.

Lemma js_round_link (l : Link) : js_round (link_to_js l) = option_map link_to_js (link_round l).
Proof. destruct l as [h n sc]. unfold link_round. simpl. now destruct (to_double n). Qed.

Lemma js_round_entry (e : Entry) : js_round (entry_to_js e) = option_map entry_to_js (entry_round e).
Proof.
  destruct e as [k nm ls]. unfold entry_round. cbn [js_round entry_to_js entry_key entry_name entry_links].
  cbn [map_option js_round option_map].
  rewrite (map_option_map_comm js_round link_to_js link_round link_to_js ls js_round_link).
  now destruct (map_option link_round ls).
Qed.

Lemma search_data_of_js_entries (es : list Entry) :
  search_data_of_js (JArr (List.map entry_to_js es)) = Some es.
Proof.
  induction es as [|[k nm ls] es IH]; [reflexivity|]. simpl in *.
  rewrite (map_option_map link_of_js link_to_js ls link_of_js_to_js).
  destruct (map_option entry_of_js (List.map entry_to_js es)); congruence.
Qed.

(** ** Reading the text of a file *)

Lemma parse_decl_prefix (s : string) : parse_decl (search_file_prefix ++ s) = Some s.
Proof. reflexivity. Qed.

Lemma statement_end_semi (r : string) : statement_end (String ";" r) = statement_end r.
Proof. reflexivity. Qed.

Lemma forallb_js_ok_entries (es : list Entry) :
  forallb js_ok (List.map entry_to_js es) = forallb entry_ok es.
Proof. induction es as [|e es IH]; cbn [forallb List.map]; [reflexivity|]. now rewrite js_ok_entry, IH. Qed.

Lemma forallb_entries_ok (es : list Entry) :
  forallb entry_ok es = true -> forallb js_ok (List.map entry_to_js es) = true.
Proof. now rewrite forallb_js_ok_entries. Qed.

Lemma parse_value_entries (es : list Entry) (fuel : nat) (rest : string) :
  forallb entry_ok es = true ->
  js_need (JArr (List.map entry_to_js es)) <= fuel ->
  parse_value fuel (js_print_layout (nl ++ "  ") nl (List.map entry_to_js es) ++ rest) =
  option_map (fun es' => (JArr (List.map entry_to_js es'), rest)) (map_option entry_round es).
Proof.
  intros Hok Hf. rewrite parse_array_layout; auto using forallb_entries_ok with docsearch.
  - rewrite (map_option_map_comm js_round entry_to_js entry_round entry_to_js es js_round_entry).
    now destruct (map_option entry_round es).
  - apply Forall_forall. intros v _ Hv f r. now apply parse_value_print_all.
Qed.

(** Reading the generator's text for [es] followed by [rest]: the entries,
    their flags read as doubles, come back exactly when what follows the
    array is a statement end. *)
Lemma parse_search_file_text (es : list Entry) (rest : string) :
  forallb entry_ok es = true ->
  parse_search_file (search_file_text es ++ rest) =
  match map_option entry_round es with
  | Some es' => if statement_end (String ";" rest) then Some es' else None
  | None => None
  end.
Proof.
  intros Hok. unfold parse_search_file, search_file_text.
  rewrite !string_app_assoc, parse_decl_prefix.
  rewrite parse_value_ws by (apply ws_blank; reflexivity).
  rewrite parse_value_entries; auto.
  - destruct (map_option entry_round es); cbn [option_map]; [|reflexivity].
    destruct (statement_end _); [apply search_data_of_js_entries | reflexivity].
  - pose proof (js_need_le_layout_length (nl ++ "  ") nl (List.map entry_to_js es)).
    rewrite !string_app_length. lia.
Qed.

(** C3: the text the generator writes for a list of entries whose strings
    need no escape, followed by any whitespace, comments and empty
    statements, reads back as the same entries with every flag rounded to
    the double nearest to it (the entries themselves when the flags are
    below [2^53]), and as no entries when a flag rounds to [Infinity]. *)
Theorem parse_search_file_print (es : list Entry) (trailing : string) :
  forallb entry_ok es = true -> statement_end trailing = true ->
  parse_search_file (search_file_text es ++ trailing) = map_option entry_round es.
Proof.
  intros Hok Htr. rewrite parse_search_file_text by exact Hok.
  rewrite statement_end_semi, Htr. now destruct (map_option entry_round es).
Qed.


(** ** Witnesses *)

Lemma parse_search_file_print_witness :
  parse_search_file (search_file_text [mkEntry "run" "Run" [mkLink "x.html#a" 9007199254740993 "S"]]
                     ++ nl ++ "; // end" ++ nl) =
  map_option entry_round [mkEntry "run" "Run" [mkLink "x.html#a" 9007199254740993 "S"]].
Proof. apply parse_search_file_print; reflexivity. Defined.

