(* ===== verification/Grammar.v ===== *)
(** * The grammar the reader recognises

    [JsValue.parse_value] was shown to read back the generator's own texts.
    This file states which texts it reads in general: [laid_out v t] says
    that [t] is a layout of the value [v]: a string literal in either
    quote whose body stands for the string ([str_body]: plain characters
    and escape sequences), a numeral standing for the double it rounds
    to, the brackets and commas of the arrays, with whitespace
    and comments ([blank]) before every token and, as JavaScript allows, a
    comma after the last item of an array.  The reader accepts exactly the
    layouts ([parse_value_grammar], [parse_js_grammar]).  At the level of a
    file, [parse_search_file] accepts exactly a declaration
    [var searchData =] laid out with blanks ([decl_layout]), a layout of the
    array of the encoded entries, and blanks and empty statements
    ([parse_search_file_grammar]).  [lex_str_sound] and
    [lex_str_complete] show that the lexer of string literals reads
    exactly the bodies [str_body] describes. *)

From Stdlib Require Import String Ascii List Bool Lia NArith DecimalN DecimalString.
From S2P Require Import Prelude JsValue SearchData.
Import ListNotations.
Open Scope string_scope.

(** [str_body q b s]: [b], the text between the quotes [q] of a string
    literal, stands for the string [s]: plain characters stand for
    themselves, each escape sequence for its character, and a line
    continuation for nothing. *)
Inductive str_body (q : ascii) : string -> string -> Prop :=
| SNil : str_body q "" ""
| SPlain (c : ascii) (b s : string) :
    str_char_in q c = true -> str_body q b s -> str_body q (String c b) (String c s)
| SSingle (e d : ascii) (b s : string) :
    escape_single e = Some d -> str_body q b s ->
    str_body q (String "\" (String e b)) (String d s)
| SNul (b s : string) :
    no_digit_head b = true -> str_body q b s ->
    str_body q (String "\" (String "0" b)) (String "000" s)
| SHex (h1 h2 : ascii) (x y : N) (b s : string) :
    js_hex_val h1 = Some x -> js_hex_val h2 = Some y -> str_body q b s ->
    str_body q (String "\" (String "x" (String h1 (String h2 b)))) (String (ascii_of_N (16 * x + y)) s)
| SUni (h1 h2 h3 h4 : ascii) (x y z u : N) (ch : ascii) (b s : string) :
    js_hex_val h1 = Some x -> js_hex_val h2 = Some y -> js_hex_val h3 = Some z ->
    js_hex_val h4 = Some u -> byte_of (((16 * x + y) * 16 + z) * 16 + u) = Some ch ->
    str_body q b s ->
    str_body q (String "\" (String "u" (String h1 (String h2 (String h3 (String h4 b)))))) (String ch s)
| SLf (b s : string) : str_body q b s -> str_body q (String "\" (String "010" b)) s
| SCr (b s : string) : str_body q b s -> str_body q (String "\" (String "013" b)) s
| SCrLf (b s : string) :
    str_body q b s -> str_body q (String "\" (String "013" (String "010" b))) s.

Inductive laid_out : jsval -> string -> Prop :=
(** A string literal quoted by [q]. *)
| LStr (w b s : string) (q : ascii) :
    blank w -> q = squote \/ q = dquote -> str_body q b s ->
    laid_out (JStr s) (w ++ String q (b ++ str1 q))
(** The numeral of [n] stands for the double [m] nearest to [n]. *)
| LNum (w : string) (n m : N) :
    blank w -> to_double n = Some m -> laid_out (JNum m) (w ++ js_print (JNum n))
| LEmpty (w w' : string) :
    blank w -> blank w' -> laid_out (JArr []) (w ++ "[" ++ w' ++ "]")
| LArr (w : string) (vs : list jsval) (t : string) :
    blank w -> laid_items vs t -> laid_out (JArr vs) (w ++ "[" ++ t)
(** The items of a non-empty array and its closing bracket. *)
with laid_items : list jsval -> string -> Prop :=
| ILast (v : jsval) (t w : string) :
    laid_out v t -> blank w -> laid_items [v] (t ++ w ++ "]")
| ICons (v : jsval) (vs : list jsval) (t w u : string) :
    laid_out v t -> blank w -> laid_items vs u -> laid_items (v :: vs) (t ++ w ++ "," ++ u)
(** The last item followed by a comma. *)
| ITrail (v : jsval) (t w w' : string) :
    laid_out v t -> blank w -> blank w' -> laid_items [v] (t ++ w ++ "," ++ w' ++ "]").

Scheme laid_out_mut := Induction for laid_out Sort Prop
with laid_items_mut := Induction for laid_items Sort Prop.
Combined Scheme laid_mutind from laid_out_mut, laid_items_mut.


(** ** Lemmas on the lexer: what each piece of the reader consumed *)

(** One step of each skipper. *)
Lemma skip_blank_cons (semi : bool) (c : ascii) (s : string) :
  skip_blank semi (String c s) =
  if is_ws c || (semi && Ascii.eqb c ";") then skip_blank semi s
  else if Ascii.eqb c "/" then
    match s with
    | String d t =>
        if Ascii.eqb d "/" then skip_line semi t
        else if Ascii.eqb d "*" then skip_block semi (String c s) t else String c s
    | EmptyString => String c s
    end
  else String c s.
Proof. reflexivity. Qed.

Lemma skip_line_cons (semi : bool) (c : ascii) (s : string) :
  skip_line semi (String c s) = if is_line_end c then skip_blank semi s else skip_line semi s.
Proof. reflexivity. Qed.

Lemma skip_block_cons (semi : bool) (start : string) (c : ascii) (s : string) :
  skip_block semi start (String c s) =
  if Ascii.eqb c "*" then
    match s with
    | String d t => if Ascii.eqb d "/" then skip_blank semi t else skip_block semi start s
    | EmptyString => start
    end
  else skip_block semi start s.
Proof. reflexivity. Qed.

(** What each skipper passes over is skipped wherever it stands: by the
    skipper itself for whitespace, up to the end of the line in a [//]
    comment, up to the closing [*/] in a [/*] comment. *)
Lemma skip_split_all (semi : bool) (n : nat) (s : string) : String.length s <= n ->
  (forall c r, skip_blank semi s = String c r ->
     exists w, s = w ++ String c r /\ forall x, skip_blank semi (w ++ x) = skip_blank semi x) /\
  (forall c r, skip_line semi s = String c r ->
     exists w, s = w ++ String c r /\ forall x, skip_line semi (w ++ x) = skip_blank semi x) /\
  (forall start c r, skip_block semi start s = String c r -> String c r = start \/
     exists w, s = w ++ String c r /\ forall start' x, skip_block semi start' (w ++ x) = skip_blank semi x).
Proof.
  revert s. induction n as [|n IH]; intros [|c s] Hs; simpl in Hs; try lia;
    try (split; [discriminate | split; [discriminate | intros start c r H; left; now symmetry]]).
  destruct (IH s ltac:(lia)) as (Bs & Ls & Ks). split; [|split].
  - intros c0 r0 H. rewrite skip_blank_cons in H.
    destruct (is_ws c || semi && Ascii.eqb c ";") eqn:E.
    + destruct (Bs _ _ H) as (w & -> & Hw). exists (String c w). split; [reflexivity|].
      intros x. cbn [String.append]. now rewrite skip_blank_cons, E.
    + destruct (Ascii.eqb c "/") eqn:Es, s as [|d t]; try (exists ""; split; [now rewrite H | reflexivity]).
      destruct (IH t ltac:(simpl in Hs; lia)) as (_ & Lt & Kt).
      destruct (Ascii.eqb d "/") eqn:Ed; [|destruct (Ascii.eqb d "*") eqn:Ed2].
      * destruct (Lt _ _ H) as (w & -> & Hw). exists (String c (String d w)). split; [reflexivity|].
        intros x. cbn [String.append]. now rewrite skip_blank_cons, E, Es, Ed.
      * destruct (Kt _ _ _ H) as [H'|(w & -> & Hw)]; [exists ""; split; [now rewrite H' | reflexivity]|].
        exists (String c (String d w)). split; [reflexivity|].
        intros x. cbn [String.append]. now rewrite skip_blank_cons, E, Es, Ed, Ed2.
      * exists "". split; [now rewrite H | reflexivity].
  - intros c0 r0 H. rewrite skip_line_cons in H. destruct (is_line_end c) eqn:E.
    + destruct (Bs _ _ H) as (w & -> & Hw). exists (String c w). split; [reflexivity|].
      intros x. cbn [String.append]. now rewrite skip_line_cons, E.
    + destruct (Ls _ _ H) as (w & -> & Hw). exists (String c w). split; [reflexivity|].
      intros x. cbn [String.append]. now rewrite skip_line_cons, E.
  - intros start c0 r0 H. rewrite skip_block_cons in H. destruct (Ascii.eqb c "*") eqn:E.
    + destruct s as [|d t]; [now left|].
      destruct (IH t ltac:(simpl in Hs; lia)) as (Bt & _ & _). destruct (Ascii.eqb d "/") eqn:Ed.
      * destruct (Bt _ _ H) as (w & -> & Hw). right. exists (String c (String d w)). split; [reflexivity|].
        intros start' x. cbn [String.append]. now rewrite skip_block_cons, E, Ed.
      * destruct (Ks _ _ _ H) as [H'|([|d' w] & Hsw & Hw)]; [now left| |].
        -- specialize (Hw "*"%string ""). discriminate Hw.
        -- injection Hsw as <- ->. right. exists (String c (String d w)). split; [reflexivity|].
           intros start' x. cbn [String.append]. rewrite (skip_block_cons semi start' c), E, Ed.
           exact (Hw start' x).
    + destruct (Ks _ _ _ H) as [H'|(w & -> & Hw)]; [now left|right].
      exists (String c w). split; [reflexivity|].
      intros start' x. cbn [String.append]. now rewrite skip_block_cons, E.
Qed.

Lemma skip_ws_split (s : string) (c : ascii) (r : string) :
  skip_ws s = String c r -> exists w, s = w ++ String c r /\ blank w.
Proof. apply (proj1 (skip_split_all false (String.length s) s (le_n _))). Qed.

Lemma blank_app (w w' : string) : blank w -> blank w' -> blank (w ++ w').
Proof. intros Hw Hw' s. now rewrite string_app_assoc, Hw, Hw'. Qed.

Lemma expect_sound (c : ascii) (s r : string) :
  expect c s = Some r -> exists w, s = w ++ String c r /\ blank w.
Proof.
  unfold expect. destruct (skip_ws s) as [|d t] eqn:E; [discriminate|].
  destruct (Ascii.eqb_spec c d) as [<-|]; [|discriminate].
  intros [= <-]. exact (skip_ws_split _ _ _ E).
Qed.

(** *** String literals *)

Lemma escape_single_some (e d : ascii) : escape_single e = Some d ->
  Ascii.eqb e "x" = false /\ Ascii.eqb e "u" = false /\ Ascii.eqb e "013" = false /\
  Ascii.eqb e "010" = false /\ Ascii.eqb e "0" = false.
Proof. destruct e as [[] [] [] [] [] [] [] []]; intros H; discriminate H || (repeat split). Qed.

Lemma lex_cons_inv (c : ascii) (o : option (string * string)) (t r : string) :
  lex_cons c o = Some (t, r) -> exists t', o = Some (t', r) /\ t = String c t'.
Proof. destruct o as [[t' r']|]; simpl; [intros [= <- <-]; eauto | discriminate]. Qed.

(** No body begins with a line feed: it stands in a literal only escaped. *)
Lemma str_body_not_lf (q : ascii) (b s : string) : str_body q (String "010" b) s -> False.
Proof.
  intros H. inversion H as [|c b' s' Hc| | | | | | |]; subst.
  unfold str_char_in in Hc. simpl in Hc. rewrite !orb_true_r in Hc. discriminate Hc.
Qed.

Section Literal.
Variable q : ascii.
Hypothesis Hq : q = squote \/ q = dquote.

Lemma quote_plain : Ascii.eqb "\" q = false /\ is_digit q = false /\ Ascii.eqb q "010" = false.
Proof. destruct Hq as [-> | ->]; repeat split. Qed.

(** What the lexer reads is the body of a literal, up to its closing quote. *)
Lemma lex_str_sound_n (n : nat) : forall s t r, String.length s <= n ->
  lex_str q s = Some (t, r) -> exists b, s = b ++ String q r /\ str_body q b t.
Proof.
  induction n as [|n IH]; intros [|c s] t r Hl; simpl in Hl; try lia; try discriminate.
  cbn [lex_str]. destruct (Ascii.eqb_spec c q) as [->|Hcq].
  { intros [= <- <-]. exists "". split; [reflexivity | constructor]. }
  destruct (Ascii.eqb_spec c "\") as [->|Hcb].
  - destruct s as [|e r1]; [discriminate|]. simpl in Hl.
    destruct (Ascii.eqb_spec e "x") as [->|Hx].
    { destruct r1 as [|h1 [|h2 r2]]; try discriminate. simpl in Hl.
      destruct (js_hex_val h1) eqn:E1, (js_hex_val h2) eqn:E2; try discriminate.
      intros (t' & H & ->)%lex_cons_inv. destruct (IH r2 t' r ltac:(lia) H) as (b & -> & Hb).
      exists (String "\" (String "x" (String h1 (String h2 b)))). split; [reflexivity | now apply SHex]. }
    destruct (Ascii.eqb_spec e "u") as [->|Hu].
    { destruct r1 as [|h1 [|h2 [|h3 [|h4 r2]]]]; try discriminate. simpl in Hl.
      destruct (js_hex_val h1) eqn:E1, (js_hex_val h2) eqn:E2, (js_hex_val h3) eqn:E3,
        (js_hex_val h4) eqn:E4; try discriminate.
      destruct (byte_of _) eqn:E5; [|discriminate].
      intros (t' & H & ->)%lex_cons_inv. destruct (IH r2 t' r ltac:(lia) H) as (b & -> & Hb).
      exists (String "\" (String "u" (String h1 (String h2 (String h3 (String h4 b)))))).
      split; [reflexivity | eapply SUni; eassumption]. }
    destruct (Ascii.eqb_spec e "013") as [->|Hcr].
    { destruct r1 as [|f r2]; [discriminate|]. simpl in Hl.
      destruct (Ascii.eqb_spec f "010") as [->|Hf]; intros H.
      - destruct (IH r2 t r ltac:(lia) H) as (b & -> & Hb).
        exists (String "\" (String "013" (String "010" b))). split; [reflexivity | now constructor].
      - destruct (IH (String f r2) t r ltac:(simpl; lia) H) as (b & Hs & Hb).
        exists (String "\" (String "013" b)). split; [now rewrite Hs | now constructor]. }
    destruct (Ascii.eqb_spec e "010") as [->|Hlf].
    { intros H. destruct (IH r1 t r ltac:(lia) H) as (b & -> & Hb).
      exists (String "\" (String "010" b)). split; [reflexivity | now constructor]. }
    destruct (Ascii.eqb_spec e "0") as [->|H0].
    { destruct (no_digit_head r1) eqn:Hd; [|discriminate].
      intros (t' & H & ->)%lex_cons_inv. destruct (IH r1 t' r ltac:(lia) H) as (b & -> & Hb).
      exists (String "\" (String "0" b)). split; [reflexivity|]. apply SNul; [|exact Hb].
      destruct b; [reflexivity | exact Hd]. }
    destruct (escape_single e) as [d|] eqn:Ee; [|discriminate].
    intros (t' & H & ->)%lex_cons_inv. destruct (IH r1 t' r ltac:(lia) H) as (b & -> & Hb).
    exists (String "\" (String e b)). split; [reflexivity | now constructor].
  - destruct (str_char_in q c) eqn:Hc; [|discriminate].
    intros (t' & H & ->)%lex_cons_inv. destruct (IH s t' r ltac:(lia) H) as (b & -> & Hb).
    exists (String c b). split; [reflexivity | now constructor].
Qed.

Lemma lex_str_sound (s t r : string) :
  lex_str q s = Some (t, r) -> exists b, s = b ++ String q r /\ str_body q b t.
Proof. apply (lex_str_sound_n (String.length s)). lia. Qed.

(** The lexer reads every body of a literal. *)
Lemma lex_str_complete (b s r : string) :
  str_body q b s -> lex_str q (b ++ String q r) = Some (s, r).
Proof.
  destruct quote_plain as (Hbq & Hdq & Hlq).
  induction 1 as [|c b s Hc _ IH|e d b s He _ IH|b s Hd _ IH|h1 h2 x y b s E1 E2 _ IH
    |h1 h2 h3 h4 x y z u ch b s E1 E2 E3 E4 E5 _ IH|b s _ IH|b s Hb IH|b s _ IH];
    cbn [String.append lex_str]; rewrite ?Ascii.eqb_refl, ?Hbq; try reflexivity.
  - destruct (str_char_in_plain _ _ Hc) as [-> ->]. now rewrite Hc, IH.
  - destruct (escape_single_some _ _ He) as (-> & -> & -> & -> & ->). now rewrite He, IH.
  - replace (no_digit_head (b ++ String q r)) with true by (destruct b; simpl; [now rewrite Hdq | now symmetry]).
    now rewrite IH.
  - now rewrite E1, E2, IH.
  - now rewrite E1, E2, E3, E4, E5, IH.
  - exact IH.
  - destruct b as [|f b]; cbn [String.append] in *.
    + rewrite Ascii.eqb_sym, Hlq. exact IH.
    + destruct (Ascii.eqb_spec f "010") as [->|_]; [|exact IH].
      exfalso. exact (str_body_not_lf _ _ _ Hb).
  - exact IH.
Qed.

End Literal.

Lemma digit_print (c : ascii) (u : Decimal.uint) :
  is_digit c = true ->
  NilEmpty.string_of_uint (digit_ctor (nat_of_ascii c - 48) u) = String c (NilEmpty.string_of_uint u).
Proof. destruct c as [[] [] [] [] [] [] [] []]; try discriminate; reflexivity. Qed.

Lemma lex_digits_sound (s : string) (u : Decimal.uint) (r : string) :
  lex_digits s = (u, r) -> s = NilEmpty.string_of_uint u ++ r /\ no_digit_head r = true.
Proof.
  revert u. induction s as [|c s IH]; intros u; simpl.
  - intros [= <- <-]. split; reflexivity.
  - unfold digit_of_ascii. destruct (is_digit c) eqn:Hc.
    + destruct (lex_digits s) as [u' r'] eqn:E. intros [= <- <-].
      destruct (IH u' eq_refl) as [-> Hr]. now rewrite digit_print.
    + intros [= <- <-]. simpl. now rewrite Hc.
Qed.

Lemma lex_digits_head (c : ascii) (s : string) :
  is_digit c = true -> fst (lex_digits (String c s)) <> Decimal.Nil.
Proof.
  intros Hc. simpl. unfold digit_of_ascii. rewrite Hc.
  destruct (lex_digits s). destruct (nat_of_ascii c - 48) as [|[|[|[|[|[|[|[|[|]]]]]]]]];
    discriminate.
Qed.

(** A literal without a legacy leading zero prints back as itself. *)
Lemma to_uint_of_uint (u : Decimal.uint) :
  u <> Decimal.Nil -> leading_zero u = false -> N.to_uint (N.of_uint u) = u.
Proof.
  intros Hn Hz. rewrite DecimalN.Unsigned.to_of.
  destruct u as [|[]| | | | | | | | |]; simpl in *; reflexivity || congruence.
Qed.

Lemma blank_no_digit (w : string) : blank w -> no_digit_head w = true.
Proof.
  destruct w as [|c w]; intros Hw; [reflexivity|]. simpl.
  destruct (blank_head c w Hw) as [E| ->]; [now rewrite (ws_not_digit c E) | reflexivity].
Qed.

#[export] Hint Resolve blank_app blank_no_digit : docsearch.

Lemma parse_value_quote (f : nat) (q : ascii) (s : string) : q = squote \/ q = dquote ->
  parse_value (S f) (String q s) =
  match lex_str q s with Some (t, r) => Some (JStr t, r) | None => None end.
Proof. now intros [-> | ->]. Qed.

(** ** Soundness: what the reader reads is a layout *)

Lemma parse_sound (f : nat) :
  (forall s v r, parse_value f s = Some (v, r) -> exists t, s = t ++ r /\ laid_out v t) /\
  (forall s vs r, parse_items f s = Some (vs, r) -> exists t, s = t ++ r /\ laid_items vs t).
Proof.
  induction f as [|f [IHv IHi]]; split; intros s v r H; try discriminate;
    cbn [parse_value parse_items] in H.
  - destruct (skip_ws s) as [|c r0] eqn:Hs; [discriminate|].
    destruct (skip_ws_split _ _ _ Hs) as (w & -> & Hw).
    destruct (Ascii.eqb c squote || Ascii.eqb c dquote) eqn:Hq.
    + destruct (lex_str c r0) as [[t r']|] eqn:E; [|discriminate]. injection H as <- <-.
      assert (Hc : c = squote \/ c = dquote).
      { apply orb_true_iff in Hq as [Hq|Hq]; apply Ascii.eqb_eq in Hq; auto. }
      destruct (lex_str_sound c _ _ _ E) as (b & -> & Hb).
      exists (w ++ String c (b ++ str1 c)). split; [string_eq | now constructor].
    + destruct (Ascii.eqb_spec c "[") as [->|Hb].
      * destruct (expect "]" r0) as [r'|] eqn:E.
        -- injection H as <- <-. destruct (expect_sound _ _ _ E) as (w' & -> & Hw').
           exists (w ++ "[" ++ w' ++ "]"). split; [|now constructor].
           string_eq.
        -- destruct (parse_items f r0) as [[vs r']|] eqn:E'; [|discriminate].
           injection H as <- <-. destruct (IHi _ _ _ E') as (t & -> & Ht).
           exists (w ++ "[" ++ t). split; [|now constructor]. string_eq.
      * destruct (is_digit c) eqn:Hd; [|discriminate].
        destruct (lex_digits (String c r0)) as [u r'] eqn:E.
        destruct (leading_zero u) eqn:Hz; [discriminate|].
        destruct (to_double (N.of_uint u)) as [m|] eqn:Hm; [|discriminate]. injection H as <- <-.
        pose proof (lex_digits_head c r0 Hd) as Hn. rewrite E in Hn.
        destruct (lex_digits_sound _ _ _ E) as [He _].
        exists (w ++ js_print (JNum (N.of_uint u))). split; [|now constructor].
        simpl. rewrite to_uint_of_uint by assumption. rewrite He. string_eq.
  - destruct (parse_value f s) as [[v0 r0]|] eqn:E; [|discriminate].
    destruct (IHv _ _ _ E) as (t & -> & Ht).
    destruct (expect "," r0) as [r1|] eqn:Ec.
    + destruct (expect_sound _ _ _ Ec) as (w & -> & Hw).
      destruct (expect "]" r1) as [r2|] eqn:Eb.
      * injection H as <- <-. destruct (expect_sound _ _ _ Eb) as (w' & -> & Hw').
        exists (t ++ w ++ "," ++ w' ++ "]"). split; [string_eq | now apply ITrail].
      * destruct (parse_items f r1) as [[vs' r']|] eqn:E'; [|discriminate]. injection H as <- <-.
        destruct (IHi _ _ _ E') as (u & -> & Hu).
        exists (t ++ w ++ "," ++ u). split; [string_eq | now apply ICons].
    + destruct (expect "]" r0) as [r1|] eqn:Eb; [|discriminate]. injection H as <- <-.
      destruct (expect_sound _ _ _ Eb) as (w & -> & Hw).
      exists (t ++ w ++ "]"). split; [string_eq | now constructor].
Qed.

(** The fuel a layout needs is at most its length. *)
Lemma laid_need :
  (forall v t, laid_out v t -> js_need v <= String.length t) /\
  (forall vs t, laid_items vs t -> items_need vs <= String.length t).
Proof.
  apply laid_mutind; intros;
    rewrite ?js_need_arr, ?items_need_cons, ?string_app_length; simpl String.length;
    rewrite ?string_app_length; simpl String.length; cbn [js_need items_need fold_right]; try lia.
  pose proof (js_need_le_length (JNum n)). simpl in *. lia.
Qed.

(** ** Completeness: the reader reads every layout *)

(** A layout begins with neither a closing bracket nor a comma. *)
Lemma laid_expect (c : ascii) :
  c = "]"%char \/ c = ","%char ->
  (forall v t, laid_out v t -> forall r, expect c (t ++ r) = None) /\
  (forall vs t, laid_items vs t -> forall r, expect c (t ++ r) = None).
Proof.
  intros Hc. apply laid_mutind; intros; rewrite !string_app_assoc; auto.
  - rewrite expect_ws by exact b0. unfold expect. now destruct o as [-> | ->], Hc as [-> | ->].
  - rewrite expect_ws by exact b. now apply expect_print.
  - rewrite expect_ws by exact b. unfold expect. now destruct Hc as [-> | ->].
  - rewrite expect_ws by exact b. unfold expect. now destruct Hc as [-> | ->].
Qed.

Lemma laid_complete :
  (forall v t, laid_out v t -> forall f r, js_need v <= f -> no_digit_head r = true ->
     parse_value f (t ++ r) = Some (v, r)) /\
  (forall vs t, laid_items vs t -> forall f r, items_need vs <= f ->
     parse_items f (t ++ r) = Some (vs, r)).
Proof.
  apply laid_mutind.
  - intros w b s q Hw Hq Hb [|f] r Hf Hr; [simpl in Hf; lia|].
    rewrite string_app_assoc, parse_value_ws by exact Hw.
    cbn [String.append]. rewrite parse_value_quote, string_app_assoc by exact Hq.
    cbn [str1 String.append]. now rewrite (lex_str_complete q Hq b s r Hb).
  - intros w n m Hw Hm [|f] r Hf Hr; [simpl in Hf; lia|].
    rewrite string_app_assoc, parse_value_ws by exact Hw. rewrite parse_value_number by exact Hr. now rewrite Hm.
  - intros w w' Hw Hw' [|f] r Hf Hr; [simpl in Hf; lia|].
    rewrite !string_app_assoc, parse_value_ws by exact Hw. cbn [String.append].
    rewrite parse_value_bracket. now rewrite (proj2 (expect_close w' r Hw')).
  - intros w vs t Hw Ht IH [|f] r Hf Hr; [simpl in Hf; lia|].
    rewrite !string_app_assoc, parse_value_ws by exact Hw. cbn [String.append].
    rewrite parse_value_bracket, (proj2 (laid_expect "]" (or_introl eq_refl)) vs t Ht r).
    rewrite js_need_arr in Hf. now rewrite IH by lia.
  - intros v t w Hv IH Hw [|f] r Hf; [simpl in Hf; lia|]. rewrite items_need_cons in Hf.
    rewrite !string_app_assoc. cbn [parse_items String.append].
    rewrite IH by (lia || now apply no_digit_head_ws).
    now rewrite (proj1 (expect_close w r Hw)), (proj2 (expect_close w r Hw)).
  - intros v vs t w u Hv IHv Hw Hu IHu [|f] r Hf; [simpl in Hf; lia|].
    rewrite items_need_cons in Hf. rewrite !string_app_assoc. cbn [parse_items String.append].
    rewrite IHv by (lia || now apply no_digit_head_ws).
    rewrite expect_ws, expect_here by (exact Hw || reflexivity). lazy beta iota.
    rewrite (proj2 (laid_expect "]" (or_introl eq_refl)) vs u Hu r). now rewrite IHu by lia.
  - intros v t w w' Hv IH Hw Hw' [|f] r Hf; [simpl in Hf; lia|]. rewrite items_need_cons in Hf.
    rewrite !string_app_assoc. cbn [parse_items String.append].
    rewrite IH by (lia || now apply no_digit_head_ws).
    rewrite expect_ws, expect_here by (exact Hw || reflexivity). lazy beta iota.
    now rewrite (proj2 (expect_close w' r Hw')).
Qed.

(** ** Helpers for whole texts *)

Lemma parse_value_layout (t r : string) (v : jsval) :
  laid_out v t -> no_digit_head r = true ->
  parse_value (S (String.length (t ++ r))) (t ++ r) = Some (v, r).
Proof.
  intros Ht Hr. apply (proj1 laid_complete); auto.
  pose proof (proj1 laid_need v t Ht). rewrite string_app_length. lia.
Qed.

Lemma skip_nil_no_digit (semi : bool) (r : string) : skip_blank semi r = "" -> no_digit_head r = true.
Proof.
  destruct r as [|c r]; intros H; [reflexivity|]. simpl.
  destruct (is_digit c) eqn:Hd; [|reflexivity]. now rewrite skip_digit in H.
Qed.

Lemma parse_js_sound (s : string) (v : jsval) :
  parse_js s = Some v -> exists t w, s = t ++ w /\ laid_out v t /\ skip_ws w = "".
Proof.
  unfold parse_js. destruct (parse_value _ s) as [[v' r]|] eqn:E; [|discriminate].
  destruct (skip_ws r) eqn:Hr; [|discriminate]. intros [= <-].
  destruct (proj1 (parse_sound _) _ _ _ E) as (t & -> & Ht). now exists t, r.
Qed.








(** The literal ['it\'s'] and, in double quotes, the literal of [\x41],
    a line continuation and [\u0042] read as the strings [it's] and [AB]. *)
Lemma parse_js_escapes :
  parse_js ("[" ++ String squote "it\'s" ++ str1 squote ++ ", " ++
            String dquote ("\x41\" ++ String "010" "\u0042") ++ str1 dquote ++ "]") =
  Some (JArr [JStr "it's"; JStr "AB"]).
Proof. vm_compute. reflexivity. Qed.

(** ** The reader recognises the grammar *)

(** Reading a whole text gives [v] exactly when the text is a layout
    of [v] (numerals standing for the doubles nearest to them, whitespace
    and comments between tokens) followed by nothing but whitespace and
    comments up to its end. *)
Lemma parse_js_grammar (s : string) (v : jsval) :
  parse_js s = Some v <-> exists t w, s = t ++ w /\ laid_out v t /\ skip_ws w = "".
Proof.
  split; [apply parse_js_sound|]. intros (t & w & -> & Ht & Hw). unfold parse_js.
  rewrite (parse_value_layout t w v Ht) by exact (skip_nil_no_digit false w Hw).
  now rewrite Hw.
Qed.

(** When the rest [r] does not begin with a digit, the reader, given
    the fuel [parse_js] gives, reads [v] and leaves [r] exactly when the
    text is a layout of [v] followed by [r]. *)
Lemma parse_value_grammar (s r : string) (v : jsval) :
  no_digit_head r = true ->
  parse_value (S (String.length s)) s = Some (v, r) <-> exists t, s = t ++ r /\ laid_out v t.
Proof.
  intros Hr. split; [apply (proj1 (parse_sound _))|].
  intros (t & -> & Ht). now apply parse_value_layout.
Qed.

