(* ===== verification/SearchId.v ===== *)
(** * Search ids: the key under which a name is indexed

    The key of an entry of [src/search/functions_*.js] is not the display
    name itself but its search id: the name in lower case, with every
    character other than [a-z], [0-9] and the non-ASCII ones written as [_]
    followed by two lower-case hexadecimal digits of its code
    ([bytes_per_second] has the key [bytes_5fper_5fsecond]).  The search
    widget applies the same conversion to the query before it compares it
    with the keys.  The conversion is not code of this repository (the
    generator and the widget are the documentation tool's); it is modelled
    here from the keys the data files hold and the specification's account
    of keys as the lower-case symbol names.

    The theorem: the conversion is a prefix code, so a query id is a prefix
    of a key exactly when the lower-case query is a prefix of the
    lower-case name ([convert_to_id_prefix], [search_id_prefix]); it
    rests on the two hexadecimal digits being read back uniquely
    ([hex2_decode], [hex_digit_inj]). *)

From Stdlib Require Import String Ascii List Bool Lia Arith.
From S2P Require Import Prelude.
Import ListNotations.
Open Scope string_scope.

Definition lower_char (c : ascii) : ascii :=
  if is_upper c then ascii_of_nat (nat_of_ascii c + 32) else c.

Fixpoint lower (s : string) : string :=
  match s with
  | EmptyString => EmptyString
  | String c s' => String (lower_char c) (lower s')
  end.

(** The characters an id keeps as they are. *)
Definition id_kept (c : ascii) : bool :=
  is_lower c || is_digit c || Nat.leb 128 (nat_of_ascii c).

Definition hex_digit (n : nat) : ascii :=
  if Nat.ltb n 10 then ascii_of_nat (48 + n) else ascii_of_nat (87 + n).

Definition hex_val (c : ascii) : option nat :=
  let n := nat_of_ascii c in
  if is_digit c then Some (n - 48)
  else if Nat.leb 97 n && Nat.leb n 102 then Some (n - 87)
  else None.

(** Two hexadecimal digits of a character code, with a leading zero under
    16. *)
Definition hex2 (c : ascii) : string :=
  String (hex_digit (nat_of_ascii c / 16)) (str1 (hex_digit (nat_of_ascii c mod 16))).

Definition id_char (c : ascii) : string :=
  if id_kept c then str1 c else String "_" (hex2 c).

Fixpoint convert_to_id (s : string) : string :=
  match s with
  | EmptyString => EmptyString
  | String c s' => id_char c ++ convert_to_id s'
  end.

(** The key of a name. *)
Definition search_id (name : string) : string := convert_to_id (lower name).

(** ** Digits of the escape *)

Lemma hex_val_digit (n : nat) : n < 16 -> hex_val (hex_digit n) = Some n.
Proof. intros H. do 16 (destruct n as [|n]; [reflexivity|]). lia. Qed.

Lemma hex2_decode (c : ascii) :
  exists a b, hex2 c = String (hex_digit a) (str1 (hex_digit b)) /\ a < 16 /\ b < 16 /\
              ascii_of_nat (16 * a + b) = c.
Proof.
  exists (nat_of_ascii c / 16), (nat_of_ascii c mod 16).
  pose proof (nat_ascii_bounded c).
  repeat split.
  - apply Nat.Div0.div_lt_upper_bound. lia.
  - apply Nat.mod_upper_bound. lia.
  - rewrite <- Nat.div_mod_eq. apply ascii_nat_embedding.
Qed.

Lemma id_kept_not_underscore (c : ascii) : id_kept c = true -> Ascii.eqb c "_" = false.
Proof. destruct (Ascii.eqb_spec c "_") as [->|]; [discriminate|reflexivity]. Qed.

(** ** The conversion is a prefix code *)

Lemma convert_to_id_app (a b : string) : convert_to_id (a ++ b) = convert_to_id a ++ convert_to_id b.
Proof. induction a as [|c a IH]; simpl; [reflexivity|]. now rewrite IH, string_app_assoc. Qed.

Lemma hex_digit_inj (a b : nat) : a < 16 -> b < 16 -> hex_digit a = hex_digit b -> a = b.
Proof.
  intros Ha Hb H. apply (f_equal hex_val) in H.
  rewrite !hex_val_digit in H by assumption. congruence.
Qed.

(** Two characters whose codes begin two comparable strings are equal. *)
Lemma id_char_prefix (c d : ascii) (x y : string) :
  id_char c ++ x <<= id_char d ++ y -> c = d.
Proof.
  unfold id_char.
  destruct (id_kept c) eqn:Hc, (id_kept d) eqn:Hd; cbn [str1 String.append];
    intros [E H]%prefix_cons.
  - exact E.
  - subst c. pose proof (id_kept_not_underscore _ Hc) as F.
    rewrite Ascii.eqb_refl in F. discriminate.
  - subst d. pose proof (id_kept_not_underscore _ Hd) as F.
    rewrite Ascii.eqb_refl in F. discriminate.
  - destruct (hex2_decode c) as (a & b & Ec & Ha & Hb & <-).
    destruct (hex2_decode d) as (a' & b' & Ed & Ha' & Hb' & <-).
    rewrite Ec, Ed in H. cbn [str1 String.append] in H.
    apply prefix_cons in H as [E1 H]. apply prefix_cons in H as [E2 _].
    apply hex_digit_inj in E1, E2; auto.
Qed.

Lemma id_char_nonempty (c : ascii) : exists d t, id_char c = String d t.
Proof. unfold id_char. destruct (id_kept c); do 2 eexists; reflexivity. Qed.

(** The id of a query is a prefix of the id of a name exactly when
    the query is a prefix of the name. *)
Theorem convert_to_id_prefix (p s : string) :
  convert_to_id p <<= convert_to_id s <-> p <<= s.
Proof.
  split.
  - revert s. induction p as [|c p IH]; intros [|d s] H; simpl in *.
    + reflexivity.
    + reflexivity.
    + destruct (id_char_nonempty c) as (x & t & E). rewrite E in H. discriminate.
    + pose proof (id_char_prefix c d _ _ H) as <-.
      rewrite prefix_app_inv in H. apply prefix_cons. auto.
  - intros [t ->]%prefix_spec. rewrite convert_to_id_app. apply prefix_app.
Qed.

(** A query's id is a prefix of a name's key exactly when the lower-case
    query is a prefix of the lower-case name. *)
Lemma search_id_prefix (q n : string) : search_id q <<= search_id n <-> lower q <<= lower n.
Proof. apply convert_to_id_prefix. Qed.

Lemma lower_app (a b : string) : lower (a ++ b) = lower a ++ lower b.
Proof. induction a as [|c a IH]; simpl; congruence. Qed.

