(* ===== verification/SearchPage.v ===== *)
(** * A search page and what its data guarantees

    A page of the search index is one file [src/search/<kind>_<n>.js]: the
    entries whose lower-case name begins with one letter.  [page_wf] states
    what the generator guarantees of a page and the search relies on:

    - the keys are in strictly increasing order;
    - every key is the search id of its display name ([SearchId.search_id]);
    - every key, and every lower-case name, begins with the page's letter;
    - every entry has at least one link, and its strings need no escape;
    - every link has the flag [1] and points into the page of the class its
      scope names: [../class<escaped name>.html#a] followed by a 32-digit
      hexadecimal anchor, the scope being that class for an entry with one
      link and [<class>::<name>(<arguments>)] for an entry with several.

    The class page names follow the documentation tool's file naming
    ([escape_file_name]: [::] as [_1_1], a capital as [_] and the small
    letter), which is not code of this repository.

    [SearchPage] is the interface between the data files and the search: a
    page is its letter, its entries and the proof of [page_wf]; the data
    files build one each and the search is proved for every page. *)

From Stdlib Require Import String Ascii List Bool Lia NArith Arith Sorted RelationClasses.
From S2P Require Import Prelude JsValue SearchData SearchId.
Import ListNotations.
Open Scope string_scope.

(** ** Names of the class pages *)

Definition escape_file_char (c : ascii) : string :=
  if Ascii.eqb c ":" then "_1"
  else if Ascii.eqb c "_" then "__"
  else if is_upper c then String "_" (str1 (lower_char c))
  else str1 c.

Fixpoint escape_file_name (s : string) : string :=
  match s with
  | EmptyString => EmptyString
  | String c s' => escape_file_char c ++ escape_file_name s'
  end.

Definition class_page (cls : string) : string := "class" ++ escape_file_name cls ++ ".html".

(** ** Well-formed pages *)

(** [split_at pat s]: the text before the first occurrence of [pat] in
    [s] and the text after it. *)
Fixpoint split_at (pat s : string) : option (string * string) :=
  match strip_prefix pat s with
  | Some rest => Some (EmptyString, rest)
  | None =>
      match s with
      | EmptyString => None
      | String c s' =>
          match split_at pat s' with
          | Some (a, b) => Some (String c a, b)
          | None => None
          end
      end
  end.

Definition is_hex_lower (c : ascii) : bool :=
  is_digit c || (Nat.leb 97 (nat_of_ascii c) && Nat.leb (nat_of_ascii c) 102).

Fixpoint str_forallb (f : ascii -> bool) (s : string) : bool :=
  match s with
  | EmptyString => true
  | String c s' => f c && str_forallb f s'
  end.

Definition anchor_ok (a : string) : bool :=
  Nat.eqb (String.length a) 32 && str_forallb is_hex_lower a.

(** The class a link documents: its scope for a single link, the part of
    the scope before [::<name>(] for one of several. *)
Definition link_class (single : bool) (name : string) (l : Link) : option string :=
  if single then Some (link_scope l)
  else match split_at ("::" ++ name ++ "(") (link_scope l) with
       | Some (cls, _) => Some cls
       | None => None
       end.

Definition href_ok (cls href : string) : bool :=
  match strip_prefix ("../" ++ class_page cls ++ "#a") href with
  | Some anchor => anchor_ok anchor
  | None => false
  end.

Definition link_wf (single : bool) (name : string) (l : Link) : bool :=
  N.eqb (link_flag l) 1 &&
  match link_class single name l with
  | Some cls => href_ok cls (link_href l)
  | None => false
  end.

Definition starts_with (c : ascii) (s : string) : bool :=
  match s with
  | String d _ => Ascii.eqb d c
  | EmptyString => false
  end.

Definition entry_wf (letter : ascii) (e : Entry) : bool :=
  String.eqb (entry_key e) (search_id (entry_name e)) &&
  starts_with letter (entry_key e) &&
  starts_with letter (lower (entry_name e)) &&
  negb (Nat.eqb (List.length (entry_links e)) 0) &&
  forallb (link_wf (Nat.eqb (List.length (entry_links e)) 1) (entry_name e)) (entry_links e) &&
  entry_ok e.

Fixpoint keys_sorted (es : list Entry) : bool :=
  match es with
  | e1 :: ((e2 :: _) as rest) => String.ltb (entry_key e1) (entry_key e2) && keys_sorted rest
  | _ => true
  end.

Definition page_wf (letter : ascii) (es : list Entry) : bool :=
  keys_sorted es && forallb (entry_wf letter) es.

(** The interface a data file implements. *)
Record SearchPage : Type := mkPage {
  page_letter : ascii;
  page_entries : list Entry;
  page_ok : page_wf page_letter page_entries = true
}.

(** ** Conventions of the generator's data

    What the files write beyond what the search needs, stated link by link
    and entry by entry for the theorems of [FunctionsC.v] and
    [Functions1.v]. *)

(** HTML text without markup: no [<] or [>], and every [&] begins one of
    the entities [&amp;], [&lt;], [&gt;], [&quot;].  The names and scopes
    are written as HTML ([&amp;] for [&]). *)
Fixpoint html_text (s : string) : bool :=
  match s with
  | EmptyString => true
  | String c s' =>
      negb (Ascii.eqb c "<" || Ascii.eqb c ">") &&
      (negb (Ascii.eqb c "&") || existsb (fun ent => String.prefix ent s') ["amp;"; "lt;"; "gt;"; "quot;"]) &&
      html_text s'
  end.

Definition entry_html (e : Entry) : bool :=
  html_text (entry_name e) && forallb (fun l => html_text (link_scope l)) (entry_links e).

(** A link: the flag [1] and an href into a class page of the
    documentation with a 32-digit lower-case hexadecimal anchor. *)
Definition link_shape (l : Link) : bool :=
  N.eqb (link_flag l) 1 &&
  match strip_prefix "../class_" (link_href l) with
  | Some r => match split_at ".html#a" r with Some (_, anchor) => anchor_ok anchor | None => false end
  | None => false
  end.

Definition entry_links_shape (e : Entry) : bool :=
  negb (Nat.eqb (List.length (entry_links e)) 0) && forallb link_shape (entry_links e).

(** The scope of a link: a class, without an argument list, for an entry
    with one link; [<class>::<name>(<arguments>)] for one of several. *)
Definition scope_shape (single : bool) (name : string) (l : Link) : bool :=
  if single then match split_at "(" (link_scope l) with None => true | Some _ => false end
  else match split_at ("::" ++ name ++ "(") (link_scope l) with Some _ => true | None => false end.

Definition entry_scopes (e : Entry) : bool :=
  forallb (scope_shape (Nat.eqb (List.length (entry_links e)) 1) (entry_name e)) (entry_links e).

(** ** What a page guarantees *)

Section PageFacts.
Variable p : SearchPage.

Lemma page_entry_wf (e : Entry) : In e (page_entries p) -> entry_wf (page_letter p) e = true.
Proof.
  intros Hin. pose proof (page_ok p) as H. unfold page_wf in H.
  apply andb_prop in H as [_ H]. rewrite forallb_forall in H. auto.
Qed.

Lemma page_key (e : Entry) : In e (page_entries p) -> entry_key e = search_id (entry_name e).
Proof.
  intros Hin. pose proof (page_entry_wf e Hin) as H. unfold entry_wf in H.
  repeat rewrite andb_true_iff in H. apply String.eqb_eq. tauto.
Qed.

Lemma page_name_letter (e : Entry) :
  In e (page_entries p) -> starts_with (page_letter p) (lower (entry_name e)) = true.
Proof.
  intros Hin. pose proof (page_entry_wf e Hin) as H. unfold entry_wf in H.
  repeat rewrite andb_true_iff in H. tauto.
Qed.

Lemma page_link_flag (e : Entry) (l : Link) :
  In e (page_entries p) -> In l (entry_links e) -> link_flag l = 1%N.
Proof.
  intros He Hl. pose proof (page_entry_wf e He) as H. unfold entry_wf in H.
  repeat rewrite andb_true_iff in H. destruct H as [[[[_ _] _] H] _].
  rewrite forallb_forall in H. specialize (H l Hl). apply andb_prop in H as [Hf _].
  now apply N.eqb_eq.
Qed.

End PageFacts.

(** ** Unpacking the link conditions *)

Lemma split_at_Some (pat s a b : string) : split_at pat s = Some (a, b) -> s = a ++ pat ++ b.
Proof.
  revert a b. induction s as [|c s IH]; intros a b H; simpl in H.
  - destruct (strip_prefix pat "") eqn:E; [|discriminate].
    injection H as <- <-. exact (strip_prefix_Some _ _ _ E).
  - destruct (strip_prefix pat (String c s)) eqn:E.
    + injection H as <- <-. exact (strip_prefix_Some _ _ _ E).
    + destruct (split_at pat s) as [[a' b']|]; [|discriminate].
      injection H as <- <-. simpl. now rewrite (IH a' b' eq_refl).
Qed.

Lemma split_at_None (pat s a b : string) : split_at pat s = None -> s <> a ++ pat ++ b.
Proof.
  revert a. induction s as [|c s IH]; intros a H E; simpl in H.
  - destruct a as [|? ?]; [|discriminate]. destruct pat as [|? ?]; [discriminate|discriminate].
  - destruct (strip_prefix pat (String c s)) eqn:Ep; [discriminate|].
    destruct (split_at pat s) as [[? ?]|] eqn:Es; [discriminate|].
    destruct a as [|d a].
    + simpl in E. rewrite E, strip_prefix_app in Ep. discriminate.
    + injection E as <- E. exact (IH a eq_refl E).
Qed.

(** ** The conventions unpacked *)

Lemma starts_with_spec (c : ascii) (s : string) : starts_with c s = true -> exists k, s = String c k.
Proof.
  destruct s as [|d k]; [discriminate|]. intros H. apply Ascii.eqb_eq in H as ->. now exists k.
Qed.

Lemma link_shape_spec (l : Link) :
  link_shape l = true ->
  link_flag l = 1%N /\
  exists page anchor, link_href l = "../class_" ++ page ++ ".html#a" ++ anchor /\ anchor_ok anchor = true.
Proof.
  unfold link_shape. intros [Hf H]%andb_prop. split; [now apply N.eqb_eq|].
  destruct (strip_prefix _ (link_href l)) as [r|] eqn:E1; [|discriminate].
  destruct (split_at _ r) as [[page anchor]|] eqn:E2; [|discriminate].
  exists page, anchor. apply strip_prefix_Some in E1. apply split_at_Some in E2.
  split; [now rewrite E1, E2 | exact H].
Qed.

Lemma scope_shape_spec (single : bool) (name : string) (l : Link) :
  scope_shape single name l = true ->
  (single = true -> forall a b, link_scope l <> a ++ "(" ++ b) /\
  (single = false -> exists cls args, link_scope l = cls ++ "::" ++ name ++ "(" ++ args).
Proof.
  unfold scope_shape. destruct single; intros H; split; intros E; try discriminate.
  - destruct (split_at "(" (link_scope l)) eqn:Es; [discriminate|]. intros a b. now apply split_at_None.
  - destruct (split_at _ (link_scope l)) as [[cls args]|] eqn:Es; [|discriminate].
    exists cls, args. apply split_at_Some in Es. now rewrite Es, !string_app_assoc.
Qed.

(** Every entry of a list passing [entry_links_shape] has links, each of
    the generator's form. *)
Lemma entries_links_shape (es : list Entry) :
  forallb entry_links_shape es = true ->
  forall e, In e es -> entry_links e <> [] /\
    forall l, In l (entry_links e) ->
      link_flag l = 1%N /\
      exists page anchor, link_href l = "../class_" ++ page ++ ".html#a" ++ anchor /\ anchor_ok anchor = true.
Proof.
  intros Hall e He. apply (forallb_In _ _ _ Hall) in He. unfold entry_links_shape in He.
  apply andb_prop in He as [Hn Hl]. split.
  - intros E. now rewrite E in Hn.
  - intros l Hin. apply link_shape_spec. exact (forallb_In _ _ _ Hl Hin).
Qed.

Lemma entries_scopes (es : list Entry) :
  forallb entry_scopes es = true ->
  forall e l, In e es -> In l (entry_links e) ->
    (List.length (entry_links e) = 1 -> forall a b, link_scope l <> a ++ "(" ++ b) /\
    (List.length (entry_links e) <> 1 ->
       exists cls args, link_scope l = cls ++ "::" ++ entry_name e ++ "(" ++ args).
Proof.
  intros Hall e l He Hl. apply (forallb_In _ _ _ Hall) in He. unfold entry_scopes in He.
  destruct (scope_shape_spec _ _ _ (forallb_In _ _ _ He Hl)) as [H1 H2]. split.
  - intros E. apply H1. now rewrite E.
  - intros E. apply H2. now apply Nat.eqb_neq.
Qed.

Lemma entries_html (es : list Entry) :
  forallb entry_html es = true ->
  forall e, In e es -> html_text (entry_name e) = true /\
    forall l, In l (entry_links e) -> html_text (link_scope l) = true.
Proof.
  intros Hall e He. apply (forallb_In _ _ _ Hall) in He. apply andb_prop in He as [Hn Hl].
  split; [exact Hn|]. intros l Hin. exact (forallb_In _ _ _ Hl Hin).
Qed.

Lemma entries_letter (c : ascii) (es : list Entry) :
  forallb (fun e => starts_with c (entry_key e)) es = true ->
  forall e, In e es -> exists k, entry_key e = String c k.
Proof. intros Hall e He. apply starts_with_spec. exact (forallb_In _ _ _ Hall He). Qed.

Lemma keys_sorted_Sorted (es : list Entry) :
  keys_sorted es = true -> Sorted (fun a b => String.ltb (entry_key a) (entry_key b) = true) es.
Proof.
  induction es as [|e1 [|e2 es] IH]; intros H; auto.
  simpl in H. apply andb_prop in H as [H1 H2].
  constructor; [now apply IH|]. now constructor.
Qed.

(** The order of keys on a page. *)
Lemma key_lt_trans : Transitive (fun a b : Entry => String.ltb (entry_key a) (entry_key b) = true).
Proof. intros a b c. apply string_ltb_trans. Qed.

Lemma page_sorted (p : SearchPage) :
  StronglySorted (fun a b => String.ltb (entry_key a) (entry_key b) = true) (page_entries p).
Proof.
  apply Sorted_StronglySorted; [exact key_lt_trans|]. apply keys_sorted_Sorted.
  pose proof (page_ok p) as H. unfold page_wf in H. now apply andb_prop in H as [H _].
Qed.

