(* ===== verification/FunctionsC.v ===== *)
(** * The search page [src/search/functions_c.js]

    The member functions of the documented library whose search key begins
    with the letter [r].  [functions_c_js] is the text of the file, character for
    character; every entry of its array is a [Definition] below, named
    after its key, and [functions_c] is the array.  The theorems: the text is
    exactly what the generator prints for these entries ([functions_c_text]) and
    reading it as JavaScript gives them back ([functions_c_reads]); the keys are
    strictly increasing and begin with [r] ([functions_c_sorted],
    [functions_c_letter]); links, scopes and HTML text follow the generator's
    conventions ([functions_c_links], [functions_c_scopes], [functions_c_html]).  The page
    satisfies [SearchPage.page_wf] for its letter, checked by evaluation,
    which makes it a [SearchPage] ([functions_c_page]). *)

From Stdlib Require Import String Ascii List Bool NArith Sorted.
From S2P Require Import Prelude JsValue SearchData SearchId SearchPage.
Import ListNotations.
Open Scope string_scope.

Definition functions_c_js : string :=
"var searchData=
[
  ['ramfree',['RamFree',['../class_cpp_benchmark_1_1_system.html#ac199022042fb33eac5edc08588e4f185',1,'CppBenchmark::System']]],
  ['ramtotal',['RamTotal',['../class_cpp_benchmark_1_1_system.html#aca216e84e98aeb38960129d97d16f628',1,'CppBenchmark::System']]],
  ['report',['Report',['../class_cpp_benchmark_1_1_executor.html#a8bed0d1e79a1cbf197cbe8f08e0377be',1,'CppBenchmark::Executor::Report()'],['../class_cpp_benchmark_1_1_launcher.html#a7ea851894da746d86a023efe1a897a84',1,'CppBenchmark::Launcher::Report()'],['../class_cpp_benchmark_1_1_launcher_console.html#a9c2f0c3cf0ca2958159fb641d433ee13',1,'CppBenchmark::LauncherConsole::Report()']]],
  ['reportbenchmark',['ReportBenchmark',['../class_cpp_benchmark_1_1_reporter.html#a03d8d635cd46ec89f0074080a5af5d24',1,'CppBenchmark::Reporter::ReportBenchmark()'],['../class_cpp_benchmark_1_1_reporter_console.html#a1c1954f0a82609b9c8d7b68e814c85a5',1,'CppBenchmark::ReporterConsole::ReportBenchmark()'],['../class_cpp_benchmark_1_1_reporter_j_s_o_n.html#a3ddd1902a5ce407aeedcfbfbab98560a',1,'CppBenchmark::ReporterJSON::ReportBenchmark()']]],
  ['reportbenchmarkfooter',['ReportBenchmarkFooter',['../class_cpp_benchmark_1_1_reporter.html#a8a08550a9a56954da04b3c09b4440153',1,'CppBenchmark::Reporter::ReportBenchmarkFooter()'],['../class_cpp_benchmark_1_1_reporter_j_s_o_n.html#a8f8b18e56732169bf19c209c5712cd47',1,'CppBenchmark::ReporterJSON::ReportBenchmarkFooter()']]],
  ['reportbenchmarkheader',['ReportBenchmarkHeader',['../class_cpp_benchmark_1_1_reporter.html#a49ace49c40e855a31249ced7b4604062',1,'CppBenchmark::Reporter::ReportBenchmarkHeader()'],['../class_cpp_benchmark_1_1_reporter_j_s_o_n.html#a01f225f6941e9bb94f4abf0c30a3bb2e',1,'CppBenchmark::ReporterJSON::ReportBenchmarkHeader()']]],
  ['reportbenchmarksfooter',['ReportBenchmarksFooter',['../class_cpp_benchmark_1_1_reporter.html#a14a3c8b667efdac7551000b431eb4715',1,'CppBenchmark::Reporter::ReportBenchmarksFooter()'],['../class_cpp_benchmark_1_1_reporter_j_s_o_n.html#ab9fa37f1d0b6a068a8c0812241ecf7ed',1,'CppBenchmark::ReporterJSON::ReportBenchmarksFooter()']]],
  ['reportbenchmarksheader',['ReportBenchmarksHeader',['../class_cpp_benchmark_1_1_reporter.html#a9e5983e05a2d58c95b274e325f9c461d',1,'CppBenchmark::Reporter::ReportBenchmarksHeader()'],['../class_cpp_benchmark_1_1_reporter_j_s_o_n.html#ae584dd2e7b842aec39986b20174922ca',1,'CppBenchmark::ReporterJSON::ReportBenchmarksHeader()']]],
  ['reportenvironment',['ReportEnvironment',['../class_cpp_benchmark_1_1_reporter.html#a6290f9876ab4252a1e6b468649a34b26',1,'CppBenchmark::Reporter::ReportEnvironment()'],['../class_cpp_benchmark_1_1_reporter_console.html#a5f9ceb01218f0e9b50306fc62fecd0a1',1,'CppBenchmark::ReporterConsole::ReportEnvironment()'],['../class_cpp_benchmark_1_1_reporter_j_s_o_n.html#acdb20f397b84cbcdd7f4f1f921ec06e9',1,'CppBenchmark::ReporterJSON::ReportEnvironment()']]],
  ['reporter',['Reporter',['../class_cpp_benchmark_1_1_reporter.html#a18717b8296fcfbdb6a65205585fd9688',1,'CppBenchmark::Reporter::Reporter()=default'],['../class_cpp_benchmark_1_1_reporter.html#a7d8f278c7519da2c48ba57ab43b0bac4',1,'CppBenchmark::Reporter::Reporter(const Reporter &amp;)=delete'],['../class_cpp_benchmark_1_1_reporter.html#ad1025ba71096d0e27bc386a66df05769',1,'CppBenchmark::Reporter::Reporter(Reporter &amp;&amp;)=delete']]],
  ['reporterconsole',['ReporterConsole',['../class_cpp_benchmark_1_1_reporter_console.html#a059a1b132afd5fd65aa8bd87924c0259',1,'CppBenchmark::ReporterConsole::ReporterConsole(std::ostream &amp;stream=std::cout)'],['../class_cpp_benchmark_1_1_reporter_console.html#a373f7f970bf95601ebc99f077cca91b8',1,'CppBenchmark::ReporterConsole::ReporterConsole(const ReporterConsole &amp;)=delete'],['../class_cpp_benchmark_1_1_reporter_console.html#acebbf17a08e27da594a71f60bf36697a',1,'CppBenchmark::ReporterConsole::ReporterConsole(ReporterConsole &amp;&amp;)=delete']]],
  ['reportercsv',['ReporterCSV',['../class_cpp_benchmark_1_1_reporter_c_s_v.html#aa2f13b0a62353a4340a29a00a4cb0ada',1,'CppBenchmark::ReporterCSV::ReporterCSV(std::ostream &amp;stream=std::cout)'],['../class_cpp_benchmark_1_1_reporter_c_s_v.html#a817bc137e298eb4a1122991b23b387b5',1,'CppBenchmark::ReporterCSV::ReporterCSV(const ReporterCSV &amp;)=delete'],['../class_cpp_benchmark_1_1_reporter_c_s_v.html#af80e6995f21f5b3495091510afaf82c5',1,'CppBenchmark::ReporterCSV::ReporterCSV(ReporterCSV &amp;&amp;)=delete']]],
  ['reporterjson',['ReporterJSON',['../class_cpp_benchmark_1_1_reporter_j_s_o_n.html#a8b5fc500d3fe2fe722a744ea2cbde677',1,'CppBenchmark::ReporterJSON::ReporterJSON(std::ostream &amp;stream=std::cout)'],['../class_cpp_benchmark_1_1_reporter_j_s_o_n.html#a0c136668dd0547b71d5050b6957ef64e',1,'CppBenchmark::ReporterJSON::ReporterJSON(const ReporterJSON &amp;)=delete'],['../class_cpp_benchmark_1_1_reporter_j_s_o_n.html#a078191c14bd9aab63b16fb399c3219ae',1,'CppBenchmark::ReporterJSON::ReporterJSON(ReporterJSON &amp;&amp;)=delete']]],
  ['reportfooter',['ReportFooter',['../class_cpp_benchmark_1_1_reporter.html#a64f0c30f0534c2152612d2a86e64d14b',1,'CppBenchmark::Reporter::ReportFooter()'],['../class_cpp_benchmark_1_1_reporter_console.html#ac6068850e209f2b219a839ea442637e6',1,'CppBenchmark::ReporterConsole::ReportFooter()'],['../class_cpp_benchmark_1_1_reporter_j_s_o_n.html#ac9e8d999a2478499729e8694852b497c',1,'CppBenchmark::ReporterJSON::ReportFooter()']]],
  ['reportheader',['ReportHeader',['../class_cpp_benchmark_1_1_reporter.html#a636104e86927cb48d05f03470a81fe59',1,'CppBenchmark::Reporter::ReportHeader()'],['../class_cpp_benchmark_1_1_reporter_console.html#a603a6c304a4e7c3ff00c86a15763aa65',1,'CppBenchmark::ReporterConsole::ReportHeader()'],['../class_cpp_benchmark_1_1_reporter_c_s_v.html#af71970375ab78a5376576236b17b93be',1,'CppBenchmark::ReporterCSV::ReportHeader()'],['../class_cpp_benchmark_1_1_reporter_j_s_o_n.html#ab2b4dcbcdbd1a45422b6f755a53a8487',1,'CppBenchmark::ReporterJSON::ReportHeader()']]],
  ['reportphase',['ReportPhase',['../class_cpp_benchmark_1_1_reporter.html#a272da3e8422807c631d111a15214c3f0',1,'CppBenchmark::Reporter::ReportPhase()'],['../class_cpp_benchmark_1_1_reporter_console.html#a6f91bb475b4d120417f639c8b2e4f44c',1,'CppBenchmark::ReporterConsole::ReportPhase()'],['../class_cpp_benchmark_1_1_reporter_c_s_v.html#a887de8ab4e6f5ab295e5c5b587b4c6f1',1,'CppBenchmark::ReporterCSV::ReportPhase()'],['../class_cpp_benchmark_1_1_reporter_j_s_o_n.html#aa80bb4b55ae871fc4f3ca626e786cc52',1,'CppBenchmark::ReporterJSON::ReportPhase()']]],
  ['reportphasefooter',['ReportPhaseFooter',['../class_cpp_benchmark_1_1_reporter.html#ae2c0738cdcdc43cb8d24a42c83eda11a',1,'CppBenchmark::Reporter::ReportPhaseFooter()'],['../class_cpp_benchmark_1_1_reporter_j_s_o_n.html#a8acc2959454b5e10ca7ef016988e800d',1,'CppBenchmark::ReporterJSON::ReportPhaseFooter()']]],
  ['reportphaseheader',['ReportPhaseHeader',['../class_cpp_benchmark_1_1_reporter.html#a292036b42120ae6d5abd54b3e7462537',1,'CppBenchmark::Reporter::ReportPhaseHeader()'],['../class_cpp_benchmark_1_1_reporter_j_s_o_n.html#a91fb576f0d5ea9d57eaa41e21433f064',1,'CppBenchmark::ReporterJSON::ReportPhaseHeader()']]],
  ['reportphasesfooter',['ReportPhasesFooter',['../class_cpp_benchmark_1_1_reporter.html#a6a0866b4b05d6be1d73f83e141c09aa3',1,'CppBenchmark::Reporter::ReportPhasesFooter()'],['../class_cpp_benchmark_1_1_reporter_j_s_o_n.html#ad547ea0f9f95fe299587d0ab46a6ae18',1,'CppBenchmark::ReporterJSON::ReportPhasesFooter()']]],
  ['reportphasesheader',['ReportPhasesHeader',['../class_cpp_benchmark_1_1_reporter.html#ae9adf52498756244300c397a1dcc30c5',1,'CppBenchmark::Reporter::ReportPhasesHeader()'],['../class_cpp_benchmark_1_1_reporter_j_s_o_n.html#a65c3c746a1b2344e64151912c03435af',1,'CppBenchmark::ReporterJSON::ReportPhasesHeader()']]],
  ['reportsystem',['ReportSystem',['../class_cpp_benchmark_1_1_reporter.html#af3336dc2dc280538a2e6fa43d3047fb7',1,'CppBenchmark::Reporter::ReportSystem()'],['../class_cpp_benchmark_1_1_reporter_console.html#a96779cd64253c8923f25d9ac1eb31dd2',1,'CppBenchmark::ReporterConsole::ReportSystem()'],['../class_cpp_benchmark_1_1_reporter_j_s_o_n.html#ad51823dbcae932aede80e4c1219349ea',1,'CppBenchmark::ReporterJSON::ReportSystem()']]],
  ['resetmetrics',['ResetMetrics',['../class_cpp_benchmark_1_1_phase_core.html#ad5ba90d8dae0b9905fd43ec38dd61659',1,'CppBenchmark::PhaseCore']]],
  ['run',['Run',['../class_cpp_benchmark_1_1_benchmark.html#abdbc6bd6fc8d8b6ab89af58af984242c',1,'CppBenchmark::Benchmark']]],
  ['runconsumer',['RunConsumer',['../class_cpp_benchmark_1_1_benchmark_p_c.html#aa3abb669f4eb8056708d249e46d357d9',1,'CppBenchmark::BenchmarkPC']]],
  ['runproducer',['RunProducer',['../class_cpp_benchmark_1_1_benchmark_p_c.html#ac768c043726ac03bb516d9bf3505c51f',1,'CppBenchmark::BenchmarkPC']]],
  ['runthread',['RunThread',['../class_cpp_benchmark_1_1_benchmark_threads.html#ac9b2e3d62f5bedbe2c339c3d18451ff0',1,'CppBenchmark::BenchmarkThreads']]]
];".

(** Line 3. *)
Definition entry_ramfree : Entry :=
  mkEntry "ramfree" "RamFree"
    [mkLink "../class_cpp_benchmark_1_1_system.html#ac199022042fb33eac5edc08588e4f185" 1 "CppBenchmark::System"].

(** Line 4. *)
Definition entry_ramtotal : Entry :=
  mkEntry "ramtotal" "RamTotal"
    [mkLink "../class_cpp_benchmark_1_1_system.html#aca216e84e98aeb38960129d97d16f628" 1 "CppBenchmark::System"].

(** Line 5. *)
Definition entry_report : Entry :=
  mkEntry "report" "Report"
    [mkLink "../class_cpp_benchmark_1_1_executor.html#a8bed0d1e79a1cbf197cbe8f08e0377be" 1 "CppBenchmark::Executor::Report()";
     mkLink "../class_cpp_benchmark_1_1_launcher.html#a7ea851894da746d86a023efe1a897a84" 1 "CppBenchmark::Launcher::Report()";
     mkLink "../class_cpp_benchmark_1_1_launcher_console.html#a9c2f0c3cf0ca2958159fb641d433ee13" 1 "CppBenchmark::LauncherConsole::Report()"].

(** Line 6. *)
Definition entry_reportbenchmark : Entry :=
  mkEntry "reportbenchmark" "ReportBenchmark"
    [mkLink "../class_cpp_benchmark_1_1_reporter.html#a03d8d635cd46ec89f0074080a5af5d24" 1 "CppBenchmark::Reporter::ReportBenchmark()";
     mkLink "../class_cpp_benchmark_1_1_reporter_console.html#a1c1954f0a82609b9c8d7b68e814c85a5" 1 "CppBenchmark::ReporterConsole::ReportBenchmark()";
     mkLink "../class_cpp_benchmark_1_1_reporter_j_s_o_n.html#a3ddd1902a5ce407aeedcfbfbab98560a" 1 "CppBenchmark::ReporterJSON::ReportBenchmark()"].

(** Line 7. *)
Definition entry_reportbenchmarkfooter : Entry :=
  mkEntry "reportbenchmarkfooter" "ReportBenchmarkFooter"
    [mkLink "../class_cpp_benchmark_1_1_reporter.html#a8a08550a9a56954da04b3c09b4440153" 1 "CppBenchmark::Reporter::ReportBenchmarkFooter()";
     mkLink "../class_cpp_benchmark_1_1_reporter_j_s_o_n.html#a8f8b18e56732169bf19c209c5712cd47" 1 "CppBenchmark::ReporterJSON::ReportBenchmarkFooter()"].

(** Line 8. *)
Definition entry_reportbenchmarkheader : Entry :=
  mkEntry "reportbenchmarkheader" "ReportBenchmarkHeader"
    [mkLink "../class_cpp_benchmark_1_1_reporter.html#a49ace49c40e855a31249ced7b4604062" 1 "CppBenchmark::Reporter::ReportBenchmarkHeader()";
     mkLink "../class_cpp_benchmark_1_1_reporter_j_s_o_n.html#a01f225f6941e9bb94f4abf0c30a3bb2e" 1 "CppBenchmark::ReporterJSON::ReportBenchmarkHeader()"].

(** Line 9. *)
Definition entry_reportbenchmarksfooter : Entry :=
  mkEntry "reportbenchmarksfooter" "ReportBenchmarksFooter"
    [mkLink "../class_cpp_benchmark_1_1_reporter.html#a14a3c8b667efdac7551000b431eb4715" 1 "CppBenchmark::Reporter::ReportBenchmarksFooter()";
     mkLink "../class_cpp_benchmark_1_1_reporter_j_s_o_n.html#ab9fa37f1d0b6a068a8c0812241ecf7ed" 1 "CppBenchmark::ReporterJSON::ReportBenchmarksFooter()"].

(** Line 10. *)
Definition entry_reportbenchmarksheader : Entry :=
  mkEntry "reportbenchmarksheader" "ReportBenchmarksHeader"
    [mkLink "../class_cpp_benchmark_1_1_reporter.html#a9e5983e05a2d58c95b274e325f9c461d" 1 "CppBenchmark::Reporter::ReportBenchmarksHeader()";
     mkLink "../class_cpp_benchmark_1_1_reporter_j_s_o_n.html#ae584dd2e7b842aec39986b20174922ca" 1 "CppBenchmark::ReporterJSON::ReportBenchmarksHeader()"].

(** Line 11. *)
Definition entry_reportenvironment : Entry :=
  mkEntry "reportenvironment" "ReportEnvironment"
    [mkLink "../class_cpp_benchmark_1_1_reporter.html#a6290f9876ab4252a1e6b468649a34b26" 1 "CppBenchmark::Reporter::ReportEnvironment()";
     mkLink "../class_cpp_benchmark_1_1_reporter_console.html#a5f9ceb01218f0e9b50306fc62fecd0a1" 1 "CppBenchmark::ReporterConsole::ReportEnvironment()";
     mkLink "../class_cpp_benchmark_1_1_reporter_j_s_o_n.html#acdb20f397b84cbcdd7f4f1f921ec06e9" 1 "CppBenchmark::ReporterJSON::ReportEnvironment()"].

(** Line 12. *)
Definition entry_reporter : Entry :=
  mkEntry "reporter" "Reporter"
    [mkLink "../class_cpp_benchmark_1_1_reporter.html#a18717b8296fcfbdb6a65205585fd9688" 1 "CppBenchmark::Reporter::Reporter()=default";
     mkLink "../class_cpp_benchmark_1_1_reporter.html#a7d8f278c7519da2c48ba57ab43b0bac4" 1 "CppBenchmark::Reporter::Reporter(const Reporter &amp;)=delete";
     mkLink "../class_cpp_benchmark_1_1_reporter.html#ad1025ba71096d0e27bc386a66df05769" 1 "CppBenchmark::Reporter::Reporter(Reporter &amp;&amp;)=delete"].

(** Line 13. *)
Definition entry_reporterconsole : Entry :=
  mkEntry "reporterconsole" "ReporterConsole"
    [mkLink "../class_cpp_benchmark_1_1_reporter_console.html#a059a1b132afd5fd65aa8bd87924c0259" 1 "CppBenchmark::ReporterConsole::ReporterConsole(std::ostream &amp;stream=std::cout)";
     mkLink "../class_cpp_benchmark_1_1_reporter_console.html#a373f7f970bf95601ebc99f077cca91b8" 1 "CppBenchmark::ReporterConsole::ReporterConsole(const ReporterConsole &amp;)=delete";
     mkLink "../class_cpp_benchmark_1_1_reporter_console.html#acebbf17a08e27da594a71f60bf36697a" 1 "CppBenchmark::ReporterConsole::ReporterConsole(ReporterConsole &amp;&amp;)=delete"].

(** Line 14. *)
Definition entry_reportercsv : Entry :=
  mkEntry "reportercsv" "ReporterCSV"
    [mkLink "../class_cpp_benchmark_1_1_reporter_c_s_v.html#aa2f13b0a62353a4340a29a00a4cb0ada" 1 "CppBenchmark::ReporterCSV::ReporterCSV(std::ostream &amp;stream=std::cout)";
     mkLink "../class_cpp_benchmark_1_1_reporter_c_s_v.html#a817bc137e298eb4a1122991b23b387b5" 1 "CppBenchmark::ReporterCSV::ReporterCSV(const ReporterCSV &amp;)=delete";
     mkLink "../class_cpp_benchmark_1_1_reporter_c_s_v.html#af80e6995f21f5b3495091510afaf82c5" 1 "CppBenchmark::ReporterCSV::ReporterCSV(ReporterCSV &amp;&amp;)=delete"].

(** Line 15. *)
Definition entry_reporterjson : Entry :=
  mkEntry "reporterjson" "ReporterJSON"
    [mkLink "../class_cpp_benchmark_1_1_reporter_j_s_o_n.html#a8b5fc500d3fe2fe722a744ea2cbde677" 1 "CppBenchmark::ReporterJSON::ReporterJSON(std::ostream &amp;stream=std::cout)";
     mkLink "../class_cpp_benchmark_1_1_reporter_j_s_o_n.html#a0c136668dd0547b71d5050b6957ef64e" 1 "CppBenchmark::ReporterJSON::ReporterJSON(const ReporterJSON &amp;)=delete";
     mkLink "../class_cpp_benchmark_1_1_reporter_j_s_o_n.html#a078191c14bd9aab63b16fb399c3219ae" 1 "CppBenchmark::ReporterJSON::ReporterJSON(ReporterJSON &amp;&amp;)=delete"].

(** Line 16. *)
Definition entry_reportfooter : Entry :=
  mkEntry "reportfooter" "ReportFooter"
    [mkLink "../class_cpp_benchmark_1_1_reporter.html#a64f0c30f0534c2152612d2a86e64d14b" 1 "CppBenchmark::Reporter::ReportFooter()";
     mkLink "../class_cpp_benchmark_1_1_reporter_console.html#ac6068850e209f2b219a839ea442637e6" 1 "CppBenchmark::ReporterConsole::ReportFooter()";
     mkLink "../class_cpp_benchmark_1_1_reporter_j_s_o_n.html#ac9e8d999a2478499729e8694852b497c" 1 "CppBenchmark::ReporterJSON::ReportFooter()"].

(** Line 17. *)
Definition entry_reportheader : Entry :=
  mkEntry "reportheader" "ReportHeader"
    [mkLink "../class_cpp_benchmark_1_1_reporter.html#a636104e86927cb48d05f03470a81fe59" 1 "CppBenchmark::Reporter::ReportHeader()";
     mkLink "../class_cpp_benchmark_1_1_reporter_console.html#a603a6c304a4e7c3ff00c86a15763aa65" 1 "CppBenchmark::ReporterConsole::ReportHeader()";
     mkLink "../class_cpp_benchmark_1_1_reporter_c_s_v.html#af71970375ab78a5376576236b17b93be" 1 "CppBenchmark::ReporterCSV::ReportHeader()";
     mkLink "../class_cpp_benchmark_1_1_reporter_j_s_o_n.html#ab2b4dcbcdbd1a45422b6f755a53a8487" 1 "CppBenchmark::ReporterJSON::ReportHeader()"].

(** Line 18. *)
Definition entry_reportphase : Entry :=
  mkEntry "reportphase" "ReportPhase"
    [mkLink "../class_cpp_benchmark_1_1_reporter.html#a272da3e8422807c631d111a15214c3f0" 1 "CppBenchmark::Reporter::ReportPhase()";
     mkLink "../class_cpp_benchmark_1_1_reporter_console.html#a6f91bb475b4d120417f639c8b2e4f44c" 1 "CppBenchmark::ReporterConsole::ReportPhase()";
     mkLink "../class_cpp_benchmark_1_1_reporter_c_s_v.html#a887de8ab4e6f5ab295e5c5b587b4c6f1" 1 "CppBenchmark::ReporterCSV::ReportPhase()";
     mkLink "../class_cpp_benchmark_1_1_reporter_j_s_o_n.html#aa80bb4b55ae871fc4f3ca626e786cc52" 1 "CppBenchmark::ReporterJSON::ReportPhase()"].

(** Line 19. *)
Definition entry_reportphasefooter : Entry :=
  mkEntry "reportphasefooter" "ReportPhaseFooter"
    [mkLink "../class_cpp_benchmark_1_1_reporter.html#ae2c0738cdcdc43cb8d24a42c83eda11a" 1 "CppBenchmark::Reporter::ReportPhaseFooter()";
     mkLink "../class_cpp_benchmark_1_1_reporter_j_s_o_n.html#a8acc2959454b5e10ca7ef016988e800d" 1 "CppBenchmark::ReporterJSON::ReportPhaseFooter()"].

(** Line 20. *)
Definition entry_reportphaseheader : Entry :=
  mkEntry "reportphaseheader" "ReportPhaseHeader"
    [mkLink "../class_cpp_benchmark_1_1_reporter.html#a292036b42120ae6d5abd54b3e7462537" 1 "CppBenchmark::Reporter::ReportPhaseHeader()";
     mkLink "../class_cpp_benchmark_1_1_reporter_j_s_o_n.html#a91fb576f0d5ea9d57eaa41e21433f064" 1 "CppBenchmark::ReporterJSON::ReportPhaseHeader()"].

(** Line 21. *)
Definition entry_reportphasesfooter : Entry :=
  mkEntry "reportphasesfooter" "ReportPhasesFooter"
    [mkLink "../class_cpp_benchmark_1_1_reporter.html#a6a0866b4b05d6be1d73f83e141c09aa3" 1 "CppBenchmark::Reporter::ReportPhasesFooter()";
     mkLink "../class_cpp_benchmark_1_1_reporter_j_s_o_n.html#ad547ea0f9f95fe299587d0ab46a6ae18" 1 "CppBenchmark::ReporterJSON::ReportPhasesFooter()"].

(** Line 22. *)
Definition entry_reportphasesheader : Entry :=
  mkEntry "reportphasesheader" "ReportPhasesHeader"
    [mkLink "../class_cpp_benchmark_1_1_reporter.html#ae9adf52498756244300c397a1dcc30c5" 1 "CppBenchmark::Reporter::ReportPhasesHeader()";
     mkLink "../class_cpp_benchmark_1_1_reporter_j_s_o_n.html#a65c3c746a1b2344e64151912c03435af" 1 "CppBenchmark::ReporterJSON::ReportPhasesHeader()"].

(** Line 23. *)
Definition entry_reportsystem : Entry :=
  mkEntry "reportsystem" "ReportSystem"
    [mkLink "../class_cpp_benchmark_1_1_reporter.html#af3336dc2dc280538a2e6fa43d3047fb7" 1 "CppBenchmark::Reporter::ReportSystem()";
     mkLink "../class_cpp_benchmark_1_1_reporter_console.html#a96779cd64253c8923f25d9ac1eb31dd2" 1 "CppBenchmark::ReporterConsole::ReportSystem()";
     mkLink "../class_cpp_benchmark_1_1_reporter_j_s_o_n.html#ad51823dbcae932aede80e4c1219349ea" 1 "CppBenchmark::ReporterJSON::ReportSystem()"].

(** Line 24. *)
Definition entry_resetmetrics : Entry :=
  mkEntry "resetmetrics" "ResetMetrics"
    [mkLink "../class_cpp_benchmark_1_1_phase_core.html#ad5ba90d8dae0b9905fd43ec38dd61659" 1 "CppBenchmark::PhaseCore"].

(** Line 25. *)
Definition entry_run : Entry :=
  mkEntry "run" "Run"
    [mkLink "../class_cpp_benchmark_1_1_benchmark.html#abdbc6bd6fc8d8b6ab89af58af984242c" 1 "CppBenchmark::Benchmark"].

(** Line 26. *)
Definition entry_runconsumer : Entry :=
  mkEntry "runconsumer" "RunConsumer"
    [mkLink "../class_cpp_benchmark_1_1_benchmark_p_c.html#aa3abb669f4eb8056708d249e46d357d9" 1 "CppBenchmark::BenchmarkPC"].

(** Line 27. *)
Definition entry_runproducer : Entry :=
  mkEntry "runproducer" "RunProducer"
    [mkLink "../class_cpp_benchmark_1_1_benchmark_p_c.html#ac768c043726ac03bb516d9bf3505c51f" 1 "CppBenchmark::BenchmarkPC"].

(** Line 28. *)
Definition entry_runthread : Entry :=
  mkEntry "runthread" "RunThread"
    [mkLink "../class_cpp_benchmark_1_1_benchmark_threads.html#ac9b2e3d62f5bedbe2c339c3d18451ff0" 1 "CppBenchmark::BenchmarkThreads"].

Definition functions_c : list Entry :=
  [entry_ramfree;
   entry_ramtotal;
   entry_report;
   entry_reportbenchmark;
   entry_reportbenchmarkfooter;
   entry_reportbenchmarkheader;
   entry_reportbenchmarksfooter;
   entry_reportbenchmarksheader;
   entry_reportenvironment;
   entry_reporter;
   entry_reporterconsole;
   entry_reportercsv;
   entry_reporterjson;
   entry_reportfooter;
   entry_reportheader;
   entry_reportphase;
   entry_reportphasefooter;
   entry_reportphaseheader;
   entry_reportphasesfooter;
   entry_reportphasesheader;
   entry_reportsystem;
   entry_resetmetrics;
   entry_run;
   entry_runconsumer;
   entry_runproducer;
   entry_runthread].

(** The page: its letter, its entries, and [SearchPage.page_wf] for them,
    checked by evaluation. *)
Definition functions_c_page : SearchPage :=
  mkPage "r" functions_c ltac:(vm_compute; reflexivity).

(** ** The file and its entries *)

(** C1: reading the text of [functions_c.js] gives exactly the entries
    written out above. *)
Theorem functions_c_reads : parse_search_file functions_c_js = Some functions_c.
Proof.
  vm_compute. reflexivity.
Qed.


(** C9: the keys of [functions_c.js] are in strictly increasing order. *)
Theorem functions_c_sorted :
  Sorted (fun a b => String.ltb (entry_key a) (entry_key b) = true) functions_c.
Proof. apply keys_sorted_Sorted. vm_compute. reflexivity. Qed.

(** C21: the text of [functions_c.js] is, character for character, what the
    generator prints for its entries: [var searchData=], one entry per
    line indented by two spaces, the closing [];] on a line of its own. *)
Theorem functions_c_text : functions_c_js = search_file_text functions_c.
Proof. vm_compute. reflexivity. Qed.

(** C23: every key of [functions_c.js] begins with [r], the letter the file
    holds: the search loads this file alone for a query beginning with
    [r]. *)
Theorem functions_c_letter (e : Entry) : In e functions_c -> exists k, entry_key e = String "r" k.
Proof. apply entries_letter. vm_compute. reflexivity. Qed.

(** C25: every entry of [functions_c.js] has at least one link, and every link has
    the flag [1] and points to an anchor of 32 lower-case hexadecimal
    digits in a class page [../class_<name>.html]. *)
Theorem functions_c_links (e : Entry) :
  In e functions_c -> entry_links e <> [] /\
    forall l, In l (entry_links e) ->
      link_flag l = 1%N /\
      exists page anchor, link_href l = "../class_" ++ page ++ ".html#a" ++ anchor /\ anchor_ok anchor = true.
Proof. apply entries_links_shape. vm_compute. reflexivity. Qed.

(** C27: in [functions_c.js] the scope of the only link of an entry is a class,
    without an argument list, and the scope of each of several links is
    the class, [::], the entry's name and its arguments. *)
Theorem functions_c_scopes (e : Entry) (l : Link) :
  In e functions_c -> In l (entry_links e) ->
  (List.length (entry_links e) = 1 -> forall a b, link_scope l <> a ++ "(" ++ b) /\
  (List.length (entry_links e) <> 1 ->
     exists cls args, link_scope l = cls ++ "::" ++ entry_name e ++ "(" ++ args).
Proof. apply entries_scopes. vm_compute. reflexivity. Qed.

(** C29: the names and scopes of [functions_c.js] are HTML text: no [<] or [>],
    and every [&] begins an entity such as [&amp;]. *)
Theorem functions_c_html (e : Entry) :
  In e functions_c -> html_text (entry_name e) = true /\
    forall l, In l (entry_links e) -> html_text (link_scope l) = true.
Proof. apply entries_html. vm_compute. reflexivity. Qed.

(** ** Witnesses *)

Lemma functions_c_letter_witness : exists k, entry_key entry_ramfree = String "r" k.
Proof. apply functions_c_letter. simpl. find_in. Defined.

Lemma functions_c_links_witness :
  entry_links entry_ramfree <> [] /\
    forall l, In l (entry_links entry_ramfree) ->
      link_flag l = 1%N /\
      exists page anchor, link_href l = "../class_" ++ page ++ ".html#a" ++ anchor /\ anchor_ok anchor = true.
Proof. apply functions_c_links. simpl. find_in. Defined.

Lemma functions_c_scopes_witness :
  (List.length (entry_links entry_reporter) = 1 -> forall a b, link_scope (List.hd (mkLink "" 0 "") (entry_links entry_reporter)) <> a ++ "(" ++ b) /\
  (List.length (entry_links entry_reporter) <> 1 ->
     exists cls args, link_scope (List.hd (mkLink "" 0 "") (entry_links entry_reporter)) = cls ++ "::" ++ entry_name entry_reporter ++ "(" ++ args).
Proof. apply functions_c_scopes; [simpl; find_in | simpl; left; reflexivity]. Defined.

Lemma functions_c_html_witness :
  html_text (entry_name entry_reporter) = true /\
    forall l, In l (entry_links entry_reporter) -> html_text (link_scope l) = true.
Proof. apply functions_c_html. simpl. find_in. Defined.
