(* ===== verification/Functions1.v ===== *)
(** * The search page [src/search/functions_1.js]

    The member functions of the documented library whose search key begins
    with the letter [b].  [functions_1_js] is the text of the file, character for
    character; every entry of its array is a [Definition] below, named
    after its key, and [functions_1] is the array.  The theorems: the text is
    exactly what the generator prints for these entries ([functions_1_text]) and
    reading it as JavaScript gives them back ([functions_1_reads]); the keys are
    strictly increasing and begin with [b] ([functions_1_sorted],
    [functions_1_letter]); links, scopes and HTML text follow the generator's
    conventions ([functions_1_links], [functions_1_scopes], [functions_1_html]).  The page
    satisfies [SearchPage.page_wf] for its letter, checked by evaluation,
    which makes it a [SearchPage] ([functions_1_page]). *)

From Stdlib Require Import String Ascii List Bool NArith Sorted.
From S2P Require Import Prelude JsValue SearchData SearchId SearchPage.
Import ListNotations.
Open Scope string_scope.

Definition functions_1_js : string :=
"var searchData=
[
  ['barrier',['Barrier',['../class_cpp_benchmark_1_1_barrier.html#ac173c74ce81792fcb88e636cdc84b078',1,'CppBenchmark::Barrier::Barrier(int threads) noexcept'],['../class_cpp_benchmark_1_1_barrier.html#ad147e8ce8233f744594c3d33fb82f460',1,'CppBenchmark::Barrier::Barrier(const Barrier &amp;)=delete'],['../class_cpp_benchmark_1_1_barrier.html#a9c121d0878ef3e052f0d9f55b7ec65a5',1,'CppBenchmark::Barrier::Barrier(Barrier &amp;&amp;)=default']]],
  ['benchmark',['Benchmark',['../class_cpp_benchmark_1_1_benchmark.html#a5bdcb2beebd19a4f2002108c67071284',1,'CppBenchmark::Benchmark::Benchmark(const std::string &amp;name, Types... settings)'],['../class_cpp_benchmark_1_1_benchmark.html#a606f8a66bc1b00a7457265068849a072',1,'CppBenchmark::Benchmark::Benchmark(const std::string &amp;name, const TSettings &amp;settings)'],['../class_cpp_benchmark_1_1_benchmark.html#adcc0bbfe5694cc1acd154225959eb6dc',1,'CppBenchmark::Benchmark::Benchmark(const Benchmark &amp;)=delete'],['../class_cpp_benchmark_1_1_benchmark.html#afd449e6c45f175cb1854e3d955535b2d',1,'CppBenchmark::Benchmark::Benchmark(Benchmark &amp;&amp;)=delete']]],
  ['benchmarkbase',['BenchmarkBase',['../class_cpp_benchmark_1_1_benchmark_base.html#a129ccccaf6ebecefd325213ba0a5e139',1,'CppBenchmark::BenchmarkBase::BenchmarkBase(const std::string &amp;name, Types... settings)'],['../class_cpp_benchmark_1_1_benchmark_base.html#af59ee01ecb94586152c0456577e118b4',1,'CppBenchmark::BenchmarkBase::BenchmarkBase(const std::string &amp;name, const Settings &amp;settings)'],['../class_cpp_benchmark_1_1_benchmark_base.html#abdf700e14e2f184175f5d1eb50e10879',1,'CppBenchmark::BenchmarkBase::BenchmarkBase(const BenchmarkBase &amp;)=delete'],['../class_cpp_benchmark_1_1_benchmark_base.html#a9dc1a7e76dffd724ba50d421ae3b6a86',1,'CppBenchmark::BenchmarkBase::BenchmarkBase(BenchmarkBase &amp;&amp;)=delete']]],
  ['benchmarkpc',['BenchmarkPC',['../class_cpp_benchmark_1_1_benchmark_p_c.html#a88a0ab04e9c13c11553347ea773ebbd5',1,'CppBenchmark::BenchmarkPC::BenchmarkPC(const std::string &amp;name, Types... settings)'],['../class_cpp_benchmark_1_1_benchmark_p_c.html#a10b85b0785e9b38e532a6e97da8f63c4',1,'CppBenchmark::BenchmarkPC::BenchmarkPC(const std::string &amp;name, const TSettings &amp;settings)'],['../class_cpp_benchmark_1_1_benchmark_p_c.html#a3cef98ad4bfec439dcc37436723b6202',1,'CppBenchmark::BenchmarkPC::BenchmarkPC(const BenchmarkPC &amp;)=delete'],['../class_cpp_benchmark_1_1_benchmark_p_c.html#abdc9d5e1a652fc29107d4ba769fe1eee',1,'CppBenchmark::BenchmarkPC::BenchmarkPC(BenchmarkPC &amp;&amp;)=delete']]],
  ['benchmarkthreads',['BenchmarkThreads',['../class_cpp_benchmark_1_1_benchmark_threads.html#aeb9a3fcf79c2bf819e6910db048b9f7f',1,'CppBenchmark::BenchmarkThreads::BenchmarkThreads(const std::string &amp;name, Types... settings)'],['../class_cpp_benchmark_1_1_benchmark_threads.html#a8b6ee4c102b065d307aed5864d34cc96',1,'CppBenchmark::BenchmarkThreads::BenchmarkThreads(const std::string &amp;name, const TSettings &amp;settings)'],['../class_cpp_benchmark_1_1_benchmark_threads.html#ae3ca8d22fa79c3c7812fc9991e2f0dba',1,'CppBenchmark::BenchmarkThreads::BenchmarkThreads(const BenchmarkThreads &amp;)=delete'],['../class_cpp_benchmark_1_1_benchmark_threads.html#ab3b56dcf390adf2b5838d006c238a4a8',1,'CppBenchmark::BenchmarkThreads::BenchmarkThreads(BenchmarkThreads &amp;&amp;)=delete']]],
  ['bytes_5fper_5fsecond',['bytes_per_second',['../class_cpp_benchmark_1_1_phase_metrics.html#ac5ac97efaa647406625a4e358d1aa646',1,'CppBenchmark::PhaseMetrics']]]
];

".

(** Line 3. *)
Definition entry_barrier : Entry :=
  mkEntry "barrier" "Barrier"
    [mkLink "../class_cpp_benchmark_1_1_barrier.html#ac173c74ce81792fcb88e636cdc84b078" 1 "CppBenchmark::Barrier::Barrier(int threads) noexcept";
     mkLink "../class_cpp_benchmark_1_1_barrier.html#ad147e8ce8233f744594c3d33fb82f460" 1 "CppBenchmark::Barrier::Barrier(const Barrier &amp;)=delete";
     mkLink "../class_cpp_benchmark_1_1_barrier.html#a9c121d0878ef3e052f0d9f55b7ec65a5" 1 "CppBenchmark::Barrier::Barrier(Barrier &amp;&amp;)=default"].

(** Line 4. *)
Definition entry_benchmark : Entry :=
  mkEntry "benchmark" "Benchmark"
    [mkLink "../class_cpp_benchmark_1_1_benchmark.html#a5bdcb2beebd19a4f2002108c67071284" 1 "CppBenchmark::Benchmark::Benchmark(const std::string &amp;name, Types... settings)";
     mkLink "../class_cpp_benchmark_1_1_benchmark.html#a606f8a66bc1b00a7457265068849a072" 1 "CppBenchmark::Benchmark::Benchmark(const std::string &amp;name, const TSettings &amp;settings)";
     mkLink "../class_cpp_benchmark_1_1_benchmark.html#adcc0bbfe5694cc1acd154225959eb6dc" 1 "CppBenchmark::Benchmark::Benchmark(const Benchmark &amp;)=delete";
     mkLink "../class_cpp_benchmark_1_1_benchmark.html#afd449e6c45f175cb1854e3d955535b2d" 1 "CppBenchmark::Benchmark::Benchmark(Benchmark &amp;&amp;)=delete"].

(** Line 5. *)
Definition entry_benchmarkbase : Entry :=
  mkEntry "benchmarkbase" "BenchmarkBase"
    [mkLink "../class_cpp_benchmark_1_1_benchmark_base.html#a129ccccaf6ebecefd325213ba0a5e139" 1 "CppBenchmark::BenchmarkBase::BenchmarkBase(const std::string &amp;name, Types... settings)";
     mkLink "../class_cpp_benchmark_1_1_benchmark_base.html#af59ee01ecb94586152c0456577e118b4" 1 "CppBenchmark::BenchmarkBase::BenchmarkBase(const std::string &amp;name, const Settings &amp;settings)";
     mkLink "../class_cpp_benchmark_1_1_benchmark_base.html#abdf700e14e2f184175f5d1eb50e10879" 1 "CppBenchmark::BenchmarkBase::BenchmarkBase(const BenchmarkBase &amp;)=delete";
     mkLink "../class_cpp_benchmark_1_1_benchmark_base.html#a9dc1a7e76dffd724ba50d421ae3b6a86" 1 "CppBenchmark::BenchmarkBase::BenchmarkBase(BenchmarkBase &amp;&amp;)=delete"].

(** Line 6. *)
Definition entry_benchmarkpc : Entry :=
  mkEntry "benchmarkpc" "BenchmarkPC"
    [mkLink "../class_cpp_benchmark_1_1_benchmark_p_c.html#a88a0ab04e9c13c11553347ea773ebbd5" 1 "CppBenchmark::BenchmarkPC::BenchmarkPC(const std::string &amp;name, Types... settings)";
     mkLink "../class_cpp_benchmark_1_1_benchmark_p_c.html#a10b85b0785e9b38e532a6e97da8f63c4" 1 "CppBenchmark::BenchmarkPC::BenchmarkPC(const std::string &amp;name, const TSettings &amp;settings)";
     mkLink "../class_cpp_benchmark_1_1_benchmark_p_c.html#a3cef98ad4bfec439dcc37436723b6202" 1 "CppBenchmark::BenchmarkPC::BenchmarkPC(const BenchmarkPC &amp;)=delete";
     mkLink "../class_cpp_benchmark_1_1_benchmark_p_c.html#abdc9d5e1a652fc29107d4ba769fe1eee" 1 "CppBenchmark::BenchmarkPC::BenchmarkPC(BenchmarkPC &amp;&amp;)=delete"].

(** Line 7. *)
Definition entry_benchmarkthreads : Entry :=
  mkEntry "benchmarkthreads" "BenchmarkThreads"
    [mkLink "../class_cpp_benchmark_1_1_benchmark_threads.html#aeb9a3fcf79c2bf819e6910db048b9f7f" 1 "CppBenchmark::BenchmarkThreads::BenchmarkThreads(const std::string &amp;name, Types... settings)";
     mkLink "../class_cpp_benchmark_1_1_benchmark_threads.html#a8b6ee4c102b065d307aed5864d34cc96" 1 "CppBenchmark::BenchmarkThreads::BenchmarkThreads(const std::string &amp;name, const TSettings &amp;settings)";
     mkLink "../class_cpp_benchmark_1_1_benchmark_threads.html#ae3ca8d22fa79c3c7812fc9991e2f0dba" 1 "CppBenchmark::BenchmarkThreads::BenchmarkThreads(const BenchmarkThreads &amp;)=delete";
     mkLink "../class_cpp_benchmark_1_1_benchmark_threads.html#ab3b56dcf390adf2b5838d006c238a4a8" 1 "CppBenchmark::BenchmarkThreads::BenchmarkThreads(BenchmarkThreads &amp;&amp;)=delete"].

(** Line 8. *)
Definition entry_bytes_5fper_5fsecond : Entry :=
  mkEntry "bytes_5fper_5fsecond" "bytes_per_second"
    [mkLink "../class_cpp_benchmark_1_1_phase_metrics.html#ac5ac97efaa647406625a4e358d1aa646" 1 "CppBenchmark::PhaseMetrics"].

Definition functions_1 : list Entry :=
  [entry_barrier;
   entry_benchmark;
   entry_benchmarkbase;
   entry_benchmarkpc;
   entry_benchmarkthreads;
   entry_bytes_5fper_5fsecond].

(** The page: its letter, its entries, and [SearchPage.page_wf] for them,
    checked by evaluation. *)
Definition functions_1_page : SearchPage :=
  mkPage "b" functions_1 ltac:(vm_compute; reflexivity).

(** ** The file and its entries *)

(** C2: reading the text of [functions_1.js] gives exactly the entries
    written out above. *)
Theorem functions_1_reads : parse_search_file functions_1_js = Some functions_1.
Proof.
  vm_compute. reflexivity.
Qed.


(** C10: the keys of [functions_1.js] are in strictly increasing order. *)
Theorem functions_1_sorted :
  Sorted (fun a b => String.ltb (entry_key a) (entry_key b) = true) functions_1.
Proof. apply keys_sorted_Sorted. vm_compute. reflexivity. Qed.

(** C22: the text of [functions_1.js] is, character for character, what the
    generator prints for its entries, followed by a line break and an
    empty line. *)
Theorem functions_1_text : functions_1_js = search_file_text functions_1 ++ nl ++ nl.
Proof. vm_compute. reflexivity. Qed.

(** C24: every key of [functions_1.js] begins with [b], the letter the file
    holds: the search loads this file alone for a query beginning with
    [b]. *)
Theorem functions_1_letter (e : Entry) : In e functions_1 -> exists k, entry_key e = String "b" k.
Proof. apply entries_letter. vm_compute. reflexivity. Qed.

(** C26: every entry of [functions_1.js] has at least one link, and every link has
    the flag [1] and points to an anchor of 32 lower-case hexadecimal
    digits in a class page [../class_<name>.html]. *)
Theorem functions_1_links (e : Entry) :
  In e functions_1 -> entry_links e <> [] /\
    forall l, In l (entry_links e) ->
      link_flag l = 1%N /\
      exists page anchor, link_href l = "../class_" ++ page ++ ".html#a" ++ anchor /\ anchor_ok anchor = true.
Proof. apply entries_links_shape. vm_compute. reflexivity. Qed.

(** C28: in [functions_1.js] the scope of the only link of an entry is a class,
    without an argument list, and the scope of each of several links is
    the class, [::], the entry's name and its arguments. *)
Theorem functions_1_scopes (e : Entry) (l : Link) :
  In e functions_1 -> In l (entry_links e) ->
  (List.length (entry_links e) = 1 -> forall a b, link_scope l <> a ++ "(" ++ b) /\
  (List.length (entry_links e) <> 1 ->
     exists cls args, link_scope l = cls ++ "::" ++ entry_name e ++ "(" ++ args).
Proof. apply entries_scopes. vm_compute. reflexivity. Qed.

(** C30: the names and scopes of [functions_1.js] are HTML text: no [<] or [>],
    and every [&] begins an entity such as [&amp;]. *)
Theorem functions_1_html (e : Entry) :
  In e functions_1 -> html_text (entry_name e) = true /\
    forall l, In l (entry_links e) -> html_text (link_scope l) = true.
Proof. apply entries_html. vm_compute. reflexivity. Qed.

(** ** Witnesses *)

Lemma functions_1_letter_witness : exists k, entry_key entry_barrier = String "b" k.
Proof. apply functions_1_letter. simpl. find_in. Defined.

Lemma functions_1_links_witness :
  entry_links entry_barrier <> [] /\
    forall l, In l (entry_links entry_barrier) ->
      link_flag l = 1%N /\
      exists page anchor, link_href l = "../class_" ++ page ++ ".html#a" ++ anchor /\ anchor_ok anchor = true.
Proof. apply functions_1_links. simpl. find_in. Defined.

Lemma functions_1_scopes_witness :
  (List.length (entry_links entry_barrier) = 1 -> forall a b, link_scope (List.hd (mkLink "" 0 "") (entry_links entry_barrier)) <> a ++ "(" ++ b) /\
  (List.length (entry_links entry_barrier) <> 1 ->
     exists cls args, link_scope (List.hd (mkLink "" 0 "") (entry_links entry_barrier)) = cls ++ "::" ++ entry_name entry_barrier ++ "(" ++ args).
Proof. apply functions_1_scopes; [simpl; find_in | simpl; left; reflexivity]. Defined.

Lemma functions_1_html_witness :
  html_text (entry_name entry_barrier) = true /\
    forall l, In l (entry_links entry_barrier) -> html_text (link_scope l) = true.
Proof. apply functions_1_html. simpl. find_in. Defined.
