(* ===== verification/SearchIndex.v ===== *)
(** * The search over the index

    The search widget of the documentation site reads the [searchData] of
    one page and shows the entries whose key matches the query.  Its code
    is not part of the repository; it is modelled here from the
    specification's account of it (a text query is resolved to the entries
    whose key matches) together with the key encoding of [SearchId.v]:

    - the query is trimmed of leading and trailing spaces, put in lower case
      and converted to an id ([query_id]);
    - an entry is shown when that id is a prefix of its key ([row_matches],
      [search_page]);
    - the page searched is the one of the query's first letter
      ([select_page], [widget_search]).

    The abstract specification [spec_search] is what a user asks of the
    search: every entry of the whole index whose display name begins, case
    aside, with the query.  The refinement theorem [widget_search_spec]
    shows that the widget computes exactly that on any index of well-formed
    pages with distinct letters, the data files' invariant doing the work:
    keys are ids of names, so prefixes of keys are prefixes of names, and
    all names of a page begin with its letter, so no other page holds a
    match. *)

From Stdlib Require Import String Ascii List Bool Lia Arith Sorted NArith.
From S2P Require Import Prelude JsValue SearchData SearchId SearchPage FunctionsC Functions1.
Import ListNotations.
Open Scope string_scope.

(** ** The widget *)

Fixpoint trim_left (s : string) : string :=
  match s with
  | String " " s' => trim_left s'
  | _ => s
  end.

Fixpoint string_rev (s : string) : string :=
  match s with
  | EmptyString => EmptyString
  | String c s' => string_rev s' ++ str1 c
  end.

Definition trim_query (q : string) : string :=
  string_rev (trim_left (string_rev (trim_left q))).

Definition query_id (q : string) : string := search_id (trim_query q).

(** A row is shown when the query id is no longer than its key and is the
    key's beginning. *)
Definition row_matches (qid key : string) : bool :=
  Nat.leb (String.length qid) (String.length key) && String.prefix qid key.

Definition search_page (q : string) (es : list Entry) : list Entry :=
  filter (fun e => row_matches (query_id q) (entry_key e)) es.

Definition select_page (ix : list SearchPage) (q : string) : option SearchPage :=
  match lower (trim_query q) with
  | String c _ => find (fun p => Ascii.eqb (page_letter p) c) ix
  | EmptyString => None
  end.

Definition widget_search (ix : list SearchPage) (q : string) : list Entry :=
  match select_page ix q with
  | Some p => search_page q (page_entries p)
  | None => []
  end.

(** ** The specification *)

Definition index_entries (ix : list SearchPage) : list Entry :=
  concat (List.map page_entries ix).

Definition name_matches (q : string) (e : Entry) : bool :=
  String.prefix (lower (trim_query q)) (lower (entry_name e)).

Definition spec_search (ix : list SearchPage) (q : string) : list Entry :=
  filter (name_matches q) (index_entries ix).

(** Every link target of an index. *)
Definition index_hrefs (ix : list SearchPage) : list string :=
  concat (List.map (fun e => List.map link_href (entry_links e)) (index_entries ix)).

(** The member-function index: the two pages of this repository. *)
Definition functions_index : list SearchPage := [functions_1_page; functions_c_page].

(** ** The widget implements the specification *)

Lemma prefix_length (p s : string) : p <<= s -> String.length p <= String.length s.
Proof. intros [t ->]%prefix_spec. rewrite string_app_length. lia. Qed.

Lemma row_matches_prefix (a b : string) : row_matches a b = String.prefix a b.
Proof.
  unfold row_matches. destruct (String.prefix a b) eqn:E.
  - apply prefix_length, Nat.leb_le in E. now rewrite E.
  - apply andb_false_r.
Qed.

Section OnePage.
Variable p : SearchPage.
Variable q : string.

(** On a well-formed page, matching the query id against keys is
    matching the query against names. *)
Lemma search_page_names :
  search_page q (page_entries p) = filter (name_matches q) (page_entries p).
Proof.
  apply filter_ext_in. intros e Hin.
  rewrite row_matches_prefix, (page_key p e Hin). unfold query_id, name_matches.
  apply Bool.eq_iff_eq_true, search_id_prefix.
Qed.

(** A page of another letter holds no match. *)
Lemma other_page_no_match (c : ascii) (rest : string) :
  lower (trim_query q) = String c rest -> page_letter p <> c ->
  filter (name_matches q) (page_entries p) = [].
Proof.
  intros Hq Hc. apply filter_all_false. intros e Hin. unfold name_matches. rewrite Hq.
  pose proof (page_name_letter p e Hin) as H.
  destruct (lower (entry_name e)) as [|d t]; [discriminate|]. simpl in H.
  destruct (String.prefix (String c rest) (String d t)) eqn:E; [|reflexivity].
  apply prefix_cons in E as [-> _]. apply Ascii.eqb_eq in H. congruence.
Qed.
End OnePage.

Lemma index_entries_cons (p : SearchPage) (ix : list SearchPage) :
  index_entries (p :: ix) = (page_entries p ++ index_entries ix)%list.
Proof. reflexivity. Qed.

Lemma pages_no_match (ix : list SearchPage) (q : string) (c : ascii) (rest : string) :
  lower (trim_query q) = String c rest -> ~ In c (List.map page_letter ix) ->
  filter (name_matches q) (index_entries ix) = [].
Proof.
  intros Hq. induction ix as [|p ix IH]; [reflexivity|]. simpl.
  intros Hn. rewrite index_entries_cons, filter_app, (other_page_no_match p q c rest Hq) by tauto.
  apply IH. tauto.
Qed.

(** A blank query selects no page: the widget shows nothing. *)
Lemma select_page_blank (ix : list SearchPage) (q : string) :
  lower (trim_query q) = "" -> select_page ix q = None.
Proof. intros E. unfold select_page. now rewrite E. Qed.

(** The widget's result is the specification's on such an index. *)
Lemma widget_search_filter (ix : list SearchPage) (q : string) :
  NoDup (List.map page_letter ix) -> lower (trim_query q) <> "" ->
  widget_search ix q = spec_search ix q.
Proof.
  intros Hnd Hne. unfold widget_search, select_page, spec_search.
  destruct (lower (trim_query q)) as [|c rest] eqn:Hq; [contradiction|].
  induction ix as [|p ix IH]; [reflexivity|].
  simpl in Hnd. apply NoDup_cons_iff in Hnd as [Hnin Hnd].
  rewrite index_entries_cons, filter_app. cbn [find].
  destruct (Ascii.eqb_spec (page_letter p) c) as [Hc|Hc].
  - rewrite search_page_names, (pages_no_match ix q c rest Hq) by congruence.
    now rewrite app_nil_r.
  - now rewrite (other_page_no_match p q c rest Hq Hc), IH.
Qed.

(** C4: on an index of well-formed pages with distinct letters, the widget
    (which searches one page, comparing the query id with keys) finds,
    for a non-blank query, exactly the entries of the whole index whose
    lower-case name begins with the trimmed, lower-case query; for a blank
    query it finds nothing (where the specification's search would list
    the whole index). *)
Theorem widget_search_spec (ix : list SearchPage) (q : string) :
  NoDup (List.map page_letter ix) ->
  widget_search ix q = match lower (trim_query q) with "" => [] | _ => spec_search ix q end.
Proof.
  intros Hnd. destruct (lower (trim_query q)) as [|c r] eqn:E.
  - unfold widget_search. now rewrite select_page_blank.
  - apply widget_search_filter; [exact Hnd | now rewrite E].
Qed.

(** ** The member-function index *)

(** C7: an entry of a well-formed page is found by a query exactly when
    the trimmed, lower-case query begins its lower-case name. *)
Theorem search_page_spec (p : SearchPage) (q : string) (e : Entry) :
  In e (search_page q (page_entries p)) <->
  In e (page_entries p) /\ lower (trim_query q) <<= lower (entry_name e).
Proof. rewrite search_page_names, filter_In. reflexivity. Qed.

(** C17: the results of a query on a well-formed page are one block of
    consecutive entries of the page: no entry before the block or after it
    matches the query. *)
Theorem search_page_contiguous (p : SearchPage) (q : string) :
  exists pre post,
    page_entries p = (pre ++ search_page q (page_entries p) ++ post)%list /\
    Forall (fun e => row_matches (query_id q) (entry_key e) = false) pre /\
    Forall (fun e => row_matches (query_id q) (entry_key e) = false) post.
Proof.
  apply filter_contiguous with (R := fun a b => String.ltb (entry_key a) (entry_key b) = true).
  - intros a b c Ha Hc Hab Hbc. rewrite row_matches_prefix in *.
    exact (prefix_between _ _ _ _ Ha Hc Hab Hbc).
  - apply page_sorted.
Qed.

(** C11: no two links of the index point to the same anchor. *)
Theorem functions_index_hrefs_distinct : NoDup (index_hrefs functions_index).
Proof. apply (nodupb_NoDup String.eqb); [exact String.eqb_eq | vm_compute; reflexivity]. Qed.

(** ** Witnesses *)

Lemma widget_search_spec_witness :
  widget_search functions_index "bytes_per" =
  match lower (trim_query "bytes_per") with "" => [] | _ => spec_search functions_index "bytes_per" end.
Proof. apply widget_search_spec. apply (nodupb_NoDup Ascii.eqb); [exact Ascii.eqb_eq | reflexivity]. Defined.
