(* ===== verification/SearchFiles.v ===== *)
(** * The page file the search box loads

    The data files are named [src/search/<section>_<n>.js], and [<n>] is
    not the letter they hold but its position in the documentation tool's
    list of the letters that have a page ([indexSectionsWithContent]),
    written in hexadecimal: the member functions of letter [b] are in
    [functions_1.js], those of letter [r] in [functions_c.js].  The search
    box (the tool's search script, not part of the repository) strips the
    leading spaces of the query, looks its first character up, in lower
    case, in that list, and loads [<section>_<idx.toString(16)>]; a letter
    without a page loads no data.

    - [hex_string] is [Number.prototype.toString(16)] on naturals (fuel: one
      unit per digit, [S n] is enough), [index_of] is [String.indexOf] of
      one character, [results_file] the file name the box computes,
      [select_file] the page of that name among the files of an index.
    - [files_consistent] says that every file of an index is named after
      the hexadecimal position of its letter.  On such an index the box's
      choice of a file is the choice of the page of the query's letter
      that [SearchIndex.select_page] makes ([select_file_page]).  The
      list of letters is part of the tool's generated [searchdata.js],
      which the repository does not hold, so which letters [1] and [c]
      stand for is not derived here from the repository. *)

From Stdlib Require Import String Ascii List Bool Lia Arith.
From S2P Require Import Prelude SearchData SearchId SearchPage FunctionsC Functions1 SearchIndex.
Import ListNotations.
Open Scope string_scope.

(** ** Definitions *)

Fixpoint hex_string_fuel (fuel n : nat) : string :=
  match fuel with
  | O => EmptyString
  | S f =>
      if Nat.ltb n 16 then str1 (hex_digit n)
      else hex_string_fuel f (n / 16) ++ str1 (hex_digit (n mod 16))
  end.

Definition hex_string (n : nat) : string := hex_string_fuel (S n) n.

Fixpoint index_of (c : ascii) (s : string) : option nat :=
  match s with
  | EmptyString => None
  | String d s' => if Ascii.eqb c d then Some 0 else option_map S (index_of c s')
  end.

Definition results_file (section letters q : string) : option string :=
  match lower (trim_left q) with
  | String c _ => option_map (fun k => section ++ "_" ++ hex_string k) (index_of c letters)
  | EmptyString => None
  end.

(** The page loaded from the file of a name, the first file with it. *)
Fixpoint lookup_file (f : string) (files : list (string * SearchPage)) : option SearchPage :=
  match files with
  | [] => None
  | (f', p) :: files' => if String.eqb f' f then Some p else lookup_file f files'
  end.

Definition select_file (section letters : string) (files : list (string * SearchPage)) (q : string)
  : option SearchPage :=
  match results_file section letters q with
  | Some f => lookup_file f files
  | None => None
  end.

Definition files_consistent (section letters : string) (files : list (string * SearchPage)) : Prop :=
  Forall (fun fp => exists k, index_of (page_letter (snd fp)) letters = Some k /\
                              fst fp = section ++ "_" ++ hex_string k) files.

(** Reading a hexadecimal numeral, most significant digit first. *)
Fixpoint hex_acc (acc : nat) (s : string) : option nat :=
  match s with
  | EmptyString => Some acc
  | String c s' => match hex_val c with Some v => hex_acc (acc * 16 + v) s' | None => None end
  end.

(** ** Hexadecimal numerals *)

Lemma hex_fuel (f g n : nat) : n < f -> n < g -> hex_string_fuel f n = hex_string_fuel g n.
Proof.
  revert g n. induction f as [|f IH]; intros [|g] n Hf Hg; try lia. cbn [hex_string_fuel].
  destruct (Nat.ltb_spec n 16) as [_|Hn]; [reflexivity|].
  assert (n / 16 < n) by (apply Nat.div_lt; lia).
  rewrite (IH g); [reflexivity | lia | lia].
Qed.

Lemma hex_string_small (n : nat) : n < 16 -> hex_string n = str1 (hex_digit n).
Proof. intros Hn. unfold hex_string. cbn [hex_string_fuel]. now destruct (Nat.ltb_spec n 16); [|lia]. Qed.

Lemma hex_string_large (n : nat) :
  16 <= n -> hex_string n = hex_string (n / 16) ++ str1 (hex_digit (n mod 16)).
Proof.
  intros Hn. unfold hex_string at 1. cbn [hex_string_fuel]. destruct (Nat.ltb_spec n 16); [lia|].
  assert (n / 16 < n) by (apply Nat.div_lt; lia).
  unfold hex_string. now rewrite (hex_fuel n (S (n / 16))) by lia.
Qed.

Lemma hex_acc_app (acc : nat) (s : string) (d : ascii) :
  hex_acc acc (s ++ str1 d) =
  match hex_acc acc s with Some m => option_map (fun v => m * 16 + v) (hex_val d) | None => None end.
Proof.
  revert acc. induction s as [|c s IH]; intros acc; simpl.
  - now destruct (hex_val d).
  - destruct (hex_val c); [apply IH | reflexivity].
Qed.

(** Reading back the numeral [toString(16)] writes gives the number. *)
Lemma hex_acc_string (n : nat) : hex_acc 0 (hex_string n) = Some n.
Proof.
  induction n as [n IH] using lt_wf_ind.
  destruct (Nat.ltb_spec n 16) as [Hn|Hn].
  - rewrite hex_string_small by exact Hn. simpl. now rewrite hex_val_digit.
  - rewrite hex_string_large, hex_acc_app, IH by (try apply Nat.div_lt; lia).
    rewrite hex_val_digit by (apply Nat.mod_upper_bound; lia). cbn [option_map].
    f_equal. pose proof (Nat.div_mod_eq n 16). lia.
Qed.

Lemma hex_string_inj (a b : nat) : hex_string a = hex_string b -> a = b.
Proof. intros H. apply (f_equal (hex_acc 0)) in H. rewrite !hex_acc_string in H. congruence. Qed.

(** ** Positions of letters *)

Lemma index_of_inj (a b : ascii) (s : string) (k : nat) :
  index_of a s = Some k -> index_of b s = Some k -> a = b.
Proof.
  revert k. induction s as [|d s IH]; intros k; simpl; [discriminate|].
  destruct (Ascii.eqb_spec a d) as [->|_], (Ascii.eqb_spec b d) as [->|_]; [reflexivity| | |];
    destruct k as [|k]; try discriminate;
    destruct (index_of _ s) eqn:E1; try discriminate; try (destruct (index_of b s); discriminate).
  destruct (index_of b s) eqn:E2; [|discriminate]. intros [= ->] [= ->]. eauto.
Qed.

Lemma string_app_inv_l (p x y : string) : p ++ x = p ++ y -> x = y.
Proof. intros H. apply (f_equal (strip_prefix p)) in H. rewrite !strip_prefix_app in H. congruence. Qed.

Section Consistent.
Variables section letters : string.

(** On a consistent index the file name of position [k] is the file of
    the letter at [k]. *)
Lemma file_name_letter (f : string) (p : SearchPage) (c : ascii) (k : nat) :
  (exists k', index_of (page_letter p) letters = Some k' /\ f = section ++ "_" ++ hex_string k') ->
  index_of c letters = Some k ->
  String.eqb f (section ++ "_" ++ hex_string k) = Ascii.eqb (page_letter p) c.
Proof.
  intros (k' & Hk' & ->) Hk. destruct (Ascii.eqb_spec (page_letter p) c) as [E|E].
  - rewrite E, Hk in Hk'. injection Hk' as ->. apply String.eqb_refl.
  - apply String.eqb_neq. intros H. apply string_app_inv_l, string_app_inv_l, hex_string_inj in H.
    subst k'. exact (E (index_of_inj _ _ _ _ Hk' Hk)).
Qed.

Lemma lookup_file_find (files : list (string * SearchPage)) (c : ascii) (k : nat) :
  files_consistent section letters files -> index_of c letters = Some k ->
  lookup_file (section ++ "_" ++ hex_string k) files =
  find (fun p => Ascii.eqb (page_letter p) c) (List.map snd files).
Proof.
  intros Hf Hk. induction Hf as [|[f p] files Hfp Hf IH]; [reflexivity|]. cbn [lookup_file List.map snd find].
  rewrite (file_name_letter f p c k Hfp Hk). now destruct (Ascii.eqb (page_letter p) c).
Qed.

Lemma find_no_letter (files : list (string * SearchPage)) (c : ascii) :
  files_consistent section letters files -> index_of c letters = None ->
  find (fun p => Ascii.eqb (page_letter p) c) (List.map snd files) = None.
Proof.
  intros Hf Hk. induction Hf as [|[f p] files (k' & Hk' & _) Hf IH]; [reflexivity|]. cbn [List.map snd find].
  destruct (Ascii.eqb_spec (page_letter p) c) as [E|_]; [|exact IH]. cbn [snd] in Hk'. congruence.
Qed.
End Consistent.

(** ** The first character of a query *)

Lemma trim_left_cons (c : ascii) (r : string) :
  trim_left (String c r) = if Ascii.eqb c " " then trim_left r else String c r.
Proof. destruct c as [[] [] [] [] [] [] [] []]; reflexivity. Qed.

Lemma trim_left_app_last (s : string) (c : ascii) :
  Ascii.eqb c " " = false -> exists t, trim_left (s ++ str1 c) = t ++ str1 c.
Proof.
  intros Hc. induction s as [|d s IH].
  - exists "". change (trim_left (String c "") = String c ""). now rewrite trim_left_cons, Hc.
  - cbn [String.append]. rewrite trim_left_cons. destruct (Ascii.eqb d " "); [exact IH|].
    now exists (String d s).
Qed.

Lemma trim_left_head (s r : string) (c : ascii) : trim_left s = String c r -> Ascii.eqb c " " = false.
Proof.
  induction s as [|d s IH]; [discriminate|]. rewrite trim_left_cons.
  destruct (Ascii.eqb d " ") eqn:Hd; [exact IH|]. now intros [= <- _].
Qed.

Lemma string_rev_app (a b : string) : string_rev (a ++ b) = string_rev b ++ string_rev a.
Proof.
  induction a as [|c a IH]; cbn [String.append string_rev].
  - now rewrite string_app_nil_r.
  - now rewrite IH, string_app_assoc.
Qed.

(** Trimming the end of a query keeps its first character. *)
Lemma trim_query_head (q r : string) (c : ascii) :
  trim_left q = String c r -> exists r', trim_query q = String c r'.
Proof.
  intros H. unfold trim_query. rewrite H. cbn [string_rev].
  destruct (trim_left_app_last (string_rev r) c (trim_left_head q r c H)) as [t ->].
  rewrite string_rev_app. now exists (string_rev t).
Qed.

Lemma trim_query_blank (q : string) : trim_left q = "" -> trim_query q = "".
Proof. intros H. unfold trim_query. now rewrite H. Qed.

(** ** The box loads the page of the query's letter *)

(** On an index whose files are named after the hexadecimal position of
    their letter, the page the search box loads for a query, through the
    file name it computes, is the page of the query's first letter: the
    one [select_page] chooses. *)
Lemma select_file_page (section letters : string) (files : list (string * SearchPage)) (q : string) :
  files_consistent section letters files ->
  select_file section letters files q = select_page (List.map snd files) q.
Proof.
  intros Hf. unfold select_file, results_file, select_page.
  destruct (trim_left q) as [|c r] eqn:Et.
  - now rewrite (trim_query_blank q Et).
  - destruct (trim_query_head q r c Et) as [r' ->]. cbn [lower].
    destruct (index_of (lower_char c) letters) as [k|] eqn:Ek; cbn [option_map].
    + exact (lookup_file_find section letters files _ k Hf Ek).
    + symmetry. exact (find_no_letter section letters files _ Hf Ek).
Qed.
