(* ===== verification/SearchResults.v ===== *)
(** * The results page of the search

    A page [src/search/<kind>_<n>.js] is loaded into the results frame of
    the documentation site, whose script (the documentation tool's search
    script, not part of the repository) turns every item of [searchData]
    into one result row and then shows the rows that match the query.
    Modelled here, from the consumer's reading of the data:

    - [render_entry e x] is the row of the [e]-th item [x]: a row with the
      id [SR_<key>], a symbol link with the id [Item<e>] and the entry's
      name; for an entry with one link, the symbol links to it and its
      scope is shown beside it; otherwise the symbol toggles a list of
      children, one per link ([Item<e>_c<c>], its href, its scope).  A link
      opens in the parent frame when its flag is not zero ([link_target]).
    - [ResultsPage] is the state of the page: the rows with their display
      flags (shown, children open), the status lines and the match count.
      [create_results] builds it; [results_search q] shows the rows whose
      id, in lower case and without [sr_], begins with the query id;
      [results_toggle id] opens or closes the children of the row [id] and
      fails, as the script does, when no row has that id.
    - [results_step] is the page as a state machine over both operations;
      its invariant ([results_inv]) is proved for every reachable state.
    - [widget_shown] composes the widget's choice of page
      ([SearchIndex.select_page]) with the results page of that page. *)

From Stdlib Require Import String Ascii List Bool Lia Arith NArith Sorted Relations DecimalString.
From S2P Require Import Prelude JsValue SearchData SearchId SearchPage Functions1 SearchIndex.
Import ListNotations.
Open Scope string_scope.

(** ** Rendering *)

Definition dquote : ascii := "034"%char.

(** A number as JavaScript's string conversion writes it. *)
Definition decimal (n : nat) : string := NilEmpty.string_of_uint (Nat.to_uint n).

(** The [target] attribute of a link: [_parent], or none (the frame the
    link is in). *)
Inductive Target : Type := TParent | TNone.

Definition link_target (l : Link) : Target := if N.eqb (link_flag l) 0 then TNone else TParent.

Record Anchor : Type := mkAnchor {
  anchor_id : string;
  anchor_href : string;
  anchor_target : Target;
  anchor_text : string
}.

(** What follows the symbol link: the scope of the one link, or the
    children, one per link. *)
Inductive RowBody : Type :=
| SRScope (scope : string)
| SRChildren (children : list Anchor).

Record Row : Type := mkRow {
  row_id : string;
  row_symbol : Anchor;
  row_body : RowBody
}.

Definition toggle_href (key : string) : string :=
  "javascript:searchResults.Toggle(" ++ String dquote ("SR_" ++ key ++ str1 dquote) ++ ")".

Definition child_anchor (e c : nat) (l : Link) : Anchor :=
  mkAnchor ("Item" ++ decimal e ++ "_c" ++ decimal c) (link_href l) (link_target l) (link_scope l).

Fixpoint child_anchors (e c : nat) (ls : list Link) : list Anchor :=
  match ls with
  | [] => []
  | l :: ls' => child_anchor e c l :: child_anchors e (S c) ls'
  end.

Definition render_entry (e : nat) (x : Entry) : Row :=
  match entry_links x with
  | [l] =>
      mkRow ("SR_" ++ entry_key x)
            (mkAnchor ("Item" ++ decimal e) (link_href l) (link_target l) (entry_name x))
            (SRScope (link_scope l))
  | ls =>
      mkRow ("SR_" ++ entry_key x)
            (mkAnchor ("Item" ++ decimal e) (toggle_href (entry_key x)) TNone (entry_name x))
            (SRChildren (child_anchors e 0 ls))
  end.

Fixpoint render_from (e : nat) (xs : list Entry) : list Row :=
  match xs with
  | [] => []
  | x :: xs' => render_entry e x :: render_from (S e) xs'
  end.

(** The links a row offers: href, target and the scope shown. *)
Definition row_links (r : Row) : list (string * Target * string) :=
  match row_body r with
  | SRScope sc => [(anchor_href (row_symbol r), anchor_target (row_symbol r), sc)]
  | SRChildren cs => List.map (fun a => (anchor_href a, anchor_target a, anchor_text a)) cs
  end.

(** ** The state of the results page *)

Record DomRow : Type := mkDomRow {
  dom_row : Row;
  dom_shown : bool;
  dom_open : bool
}.

Record ResultsPage : Type := mkResults {
  res_rows : list DomRow;
  res_searching : bool;
  res_nomatches : bool;
  res_count : nat
}.

(** All rows hidden and closed, [Searching...] shown, [No Matches]
    hidden. *)
Definition create_results (xs : list Entry) : ResultsPage :=
  mkResults (List.map (fun r => mkDomRow r false false) (render_from 0 xs)) true false 0.

Fixpoint skip_digits (s : string) : string :=
  match s with
  | String c s' => if is_digit c then skip_digits s' else s
  | EmptyString => EmptyString
  end.

(** [name.replace(/^sr\d*_/, '')]. *)
Definition strip_sr (s : string) : string :=
  match s with
  | String "s" (String "r" r) =>
      match skip_digits r with
      | String "_" r' => r'
      | _ => s
      end
  | _ => s
  end.

Definition row_match_name (id : string) : string := strip_sr (lower id).

Definition results_search (q : string) (st : ResultsPage) : ResultsPage :=
  let rows := List.map (fun d => mkDomRow (dom_row d)
                                   (row_matches (query_id q) (row_match_name (row_id (dom_row d))))
                                   (dom_open d)) (res_rows st) in
  let n := List.length (filter dom_shown rows) in
  mkResults rows false (Nat.eqb n 0) n.

(** Opening or closing the children of a row; a row without children is
    left as it is. *)
Definition flip_row (d : DomRow) : DomRow :=
  match row_body (dom_row d) with
  | SRChildren _ => mkDomRow (dom_row d) (dom_shown d) (negb (dom_open d))
  | SRScope _ => d
  end.

(** The first row with the id, as [getElementById]; [None] when there is
    none, where the script fails on the missing element. *)
Fixpoint toggle_rows (id : string) (rows : list DomRow) : option (list DomRow) :=
  match rows with
  | [] => None
  | d :: rows' =>
      if String.eqb (row_id (dom_row d)) id then Some (flip_row d :: rows')
      else option_map (cons d) (toggle_rows id rows')
  end.

Definition results_toggle (id : string) (st : ResultsPage) : option ResultsPage :=
  match toggle_rows id (res_rows st) with
  | Some rows => Some (mkResults rows (res_searching st) (res_nomatches st) (res_count st))
  | None => None
  end.

Inductive results_step : ResultsPage -> ResultsPage -> Prop :=
| StepSearch (q : string) (st : ResultsPage) : results_step st (results_search q st)
| StepToggle (id : string) (st st' : ResultsPage) :
    results_toggle id st = Some st' -> results_step st st'.

Definition results_reachable (xs : list Entry) : ResultsPage -> Prop :=
  clos_refl_trans_1n _ results_step (create_results xs).

(** The invariant: the rows are those rendered for [xs], and once a
    search has run, [No Matches] is shown exactly when the count, the
    number of shown rows, is zero. *)
Definition results_inv (xs : list Entry) (st : ResultsPage) : Prop :=
  List.map dom_row (res_rows st) = render_from 0 xs /\
  (res_searching st = false ->
   res_count st = List.length (filter dom_shown (res_rows st)) /\
   res_nomatches st = Nat.eqb (res_count st) 0).

(** The ids of the rows the results frame shows for a query: the page of
    the query's first letter, rendered, then searched. *)
Definition widget_shown (ix : list SearchPage) (q : string) : list string :=
  match select_page ix q with
  | Some p => List.map (fun d => row_id (dom_row d))
                (filter dom_shown (res_rows (results_search q (create_results (page_entries p)))))
  | None => []
  end.

(** The invariant of a concrete state, by evaluation. *)
Ltac results_inv_eval :=
  split; [vm_compute; reflexivity | vm_compute; intros H; first [discriminate H | split; reflexivity]].

(** ** Lemmas on the rendered rows *)

Lemma id_kept_not_upper (c : ascii) : id_kept c = true -> is_upper c = false.
Proof. destruct c as [[] [] [] [] [] [] [] []]; vm_compute; congruence. Qed.

Lemma lower_char_not_upper (c : ascii) : is_upper c = false -> lower_char c = c.
Proof. unfold lower_char. now intros ->. Qed.

Lemma lower_hex_digit (n : nat) : n < 16 -> lower_char (hex_digit n) = hex_digit n.
Proof. intros H. do 16 (destruct n as [|n]; [reflexivity|]). lia. Qed.

(** Keys are in lower case already. *)
Lemma lower_convert_to_id (s : string) : lower (convert_to_id s) = convert_to_id s.
Proof.
  induction s as [|c s IH]; [reflexivity|]. simpl. rewrite lower_app, IH. f_equal.
  unfold id_char. destruct (id_kept c) eqn:Hk.
  - simpl. now rewrite lower_char_not_upper by (now apply id_kept_not_upper).
  - unfold hex2, str1. pose proof (nat_ascii_bounded c). cbn [lower].
    rewrite (lower_hex_digit (nat_of_ascii c / 16)), (lower_hex_digit (nat_of_ascii c mod 16));
      [reflexivity | apply Nat.mod_upper_bound; lia | apply Nat.Div0.div_lt_upper_bound; lia].
Qed.

Lemma page_key_lower (p : SearchPage) (x : Entry) :
  In x (page_entries p) -> lower (entry_key x) = entry_key x.
Proof. intros Hx. rewrite (page_key p x Hx). apply lower_convert_to_id. Qed.

Lemma row_id_render (e : nat) (x : Entry) : row_id (render_entry e x) = "SR_" ++ entry_key x.
Proof. unfold render_entry. now destruct (entry_links x) as [|l [|l' ls]]. Qed.

(** The name the search compares with the query is the key again. *)
Lemma row_match_name_key (k : string) : lower k = k -> row_match_name ("SR_" ++ k) = k.
Proof.
  intros H. unfold row_match_name.
  change (lower ("SR_" ++ k)) with (String "s" (String "r" (String "_" (lower k)))).
  now rewrite H.
Qed.

Lemma render_ids (rows : list DomRow) (e : nat) (xs : list Entry) :
  List.map dom_row rows = render_from e xs ->
  List.map (fun d => row_id (dom_row d)) rows = List.map (fun x => "SR_" ++ entry_key x) xs.
Proof.
  revert rows e. induction xs as [|x xs IH]; intros [|d rows] e H; simpl in H; try discriminate.
  - reflexivity.
  - injection H as Hd Hr. simpl. rewrite Hd, row_id_render. f_equal. eauto.
Qed.

(** The rows a search shows are those of the entries whose key matches. *)
Lemma shown_ids (q : string) (st : ResultsPage) (xs : list Entry) :
  List.map dom_row (res_rows st) = render_from 0 xs ->
  Forall (fun x => lower (entry_key x) = entry_key x) xs ->
  List.map (fun d => row_id (dom_row d)) (filter dom_shown (res_rows (results_search q st))) =
  List.map (fun x => "SR_" ++ entry_key x) (filter (fun x => row_matches (query_id q) (entry_key x)) xs).
Proof.
  cbn [results_search res_rows]. generalize (res_rows st) 0. clear st.
  induction xs as [|x xs IH]; intros [|d rows] e H Hl; simpl in H; try discriminate; [reflexivity|].
  injection H as Hd Hr. inversion Hl as [|? ? Hx Hxs]; subst. cbn [List.map filter].
  rewrite Hd, row_id_render, row_match_name_key by exact Hx. cbn [dom_shown].
  destruct (row_matches (query_id q) (entry_key x)); cbn [List.map dom_row];
    rewrite ?row_id_render; [f_equal|]; eauto.
Qed.

Lemma page_keys_lower (p : SearchPage) : Forall (fun x => lower (entry_key x) = entry_key x) (page_entries p).
Proof. apply Forall_forall. apply page_key_lower. Qed.

Lemma child_anchors_links (e c : nat) (ls : list Link) :
  List.map (fun a => (anchor_href a, anchor_target a, anchor_text a)) (child_anchors e c ls) =
  List.map (fun l => (link_href l, link_target l, link_scope l)) ls.
Proof. revert c. induction ls as [|l ls IH]; intros c; simpl; [reflexivity|]. now rewrite IH. Qed.

Lemma row_links_render (e : nat) (x : Entry) :
  row_links (render_entry e x) = List.map (fun l => (link_href l, link_target l, link_scope l)) (entry_links x).
Proof.
  unfold render_entry, row_links.
  destruct (entry_links x) as [|l [|l' ls]]; cbn [row_body row_symbol]; try reflexivity;
    apply child_anchors_links.
Qed.

(** ** Lemmas on toggling *)

Lemma flip_row_id (d : DomRow) : dom_row (flip_row d) = dom_row d.
Proof. unfold flip_row. now destruct (row_body (dom_row d)). Qed.

Lemma flip_row_shown (d : DomRow) : dom_shown (flip_row d) = dom_shown d.
Proof. unfold flip_row. now destruct (row_body (dom_row d)). Qed.

Lemma toggle_rows_Some (id : string) (rows rows' : list DomRow) :
  toggle_rows id rows = Some rows' ->
  exists pre d post, rows = (pre ++ d :: post)%list /\ rows' = (pre ++ flip_row d :: post)%list /\
                     ~ In id (List.map (fun d => row_id (dom_row d)) pre) /\ row_id (dom_row d) = id.
Proof.
  revert rows'. induction rows as [|d rows IH]; intros rows' H; simpl in H; [discriminate|].
  destruct (String.eqb_spec (row_id (dom_row d)) id) as [E|E].
  - injection H as <-. now exists [], d, rows.
  - destruct (toggle_rows id rows) as [r|] eqn:Er; [|discriminate]. injection H as <-.
    destruct (IH r eq_refl) as (pre & d' & post & -> & -> & Hn & Hd).
    exists (d :: pre), d', post. repeat split; auto. simpl. intuition.
Qed.

Lemma toggle_rows_app (id : string) (pre post : list DomRow) (d : DomRow) :
  ~ In id (List.map (fun d => row_id (dom_row d)) pre) -> row_id (dom_row d) = id ->
  toggle_rows id ((pre ++ d :: post)%list) = Some ((pre ++ flip_row d :: post)%list).
Proof.
  intros Hpre Hd. induction pre as [|d' pre IH]; simpl in *.
  - now rewrite Hd, String.eqb_refl.
  - destruct (String.eqb_spec (row_id (dom_row d')) id); [tauto|]. now rewrite IH by tauto.
Qed.

Lemma toggle_rows_None (id : string) (rows : list DomRow) :
  ~ In id (List.map (fun d => row_id (dom_row d)) rows) -> toggle_rows id rows = None.
Proof.
  induction rows as [|d rows IH]; intros H; simpl in *; [reflexivity|].
  destruct (String.eqb_spec (row_id (dom_row d)) id); [tauto|]. now rewrite IH by tauto.
Qed.

Lemma map_dom_row_flip (pre post : list DomRow) (d : DomRow) :
  List.map dom_row ((pre ++ flip_row d :: post)%list) = List.map dom_row ((pre ++ d :: post)%list).
Proof. now rewrite !map_app; cbn [List.map]; rewrite flip_row_id. Qed.

Lemma count_flip (pre post : list DomRow) (d : DomRow) :
  List.length (filter dom_shown ((pre ++ flip_row d :: post)%list)) =
  List.length (filter dom_shown ((pre ++ d :: post)%list)).
Proof.
  rewrite !filter_app, !length_app. cbn [filter]. rewrite flip_row_shown.
  now destruct (dom_shown d).
Qed.

Lemma render_from_app (e : nat) (xs ys : list Entry) :
  render_from e (xs ++ ys) = (render_from e xs ++ render_from (e + List.length xs) ys)%list.
Proof.
  revert e. induction xs as [|x xs IH]; intros e; simpl; [now rewrite Nat.add_0_r|].
  rewrite IH. do 3 f_equal. lia.
Qed.

Lemma sr_inj (a b : string) : "SR_" ++ a = "SR_" ++ b -> a = b.
Proof. intros H. apply (f_equal (strip_prefix "SR_")) in H. rewrite !strip_prefix_app in H. congruence. Qed.

(** No row of a page other than the entry's own has the id of its row. *)
Lemma page_row_id_notin (p : SearchPage) (x : Entry) (xs : list Entry) :
  (forall y, In y xs -> entry_key y <> entry_key x) ->
  ~ In ("SR_" ++ entry_key x) (List.map (fun x => "SR_" ++ entry_key x) xs).
Proof. intros H (y & E%sr_inj & Hy)%in_map_iff. exact (H y Hy E). Qed.

(** ** The invariant *)

Lemma results_inv_create (xs : list Entry) : results_inv xs (create_results xs).
Proof. split; [|discriminate]. unfold create_results. cbn [res_rows]. rewrite map_map. apply map_id. Qed.

Lemma results_inv_search (xs : list Entry) (q : string) (st : ResultsPage) :
  results_inv xs st -> results_inv xs (results_search q st).
Proof.
  intros [Hr _]. split.
  - cbn [results_search res_rows]. rewrite map_map. exact Hr.
  - intros _. cbn [results_search res_count res_nomatches res_rows]. split; reflexivity.
Qed.

Lemma results_inv_toggle (xs : list Entry) (id : string) (st st' : ResultsPage) :
  results_inv xs st -> results_toggle id st = Some st' -> results_inv xs st'.
Proof.
  intros [Hr Hc] H. unfold results_toggle in H.
  destruct (toggle_rows id (res_rows st)) as [rows|] eqn:E; [|discriminate]. injection H as <-.
  destruct (toggle_rows_Some _ _ _ E) as (pre & d & post & Hst & -> & _).
  rewrite Hst in Hr, Hc. split; cbn [res_rows res_searching res_count res_nomatches].
  - now rewrite map_dom_row_flip.
  - intros Hs. rewrite count_flip. auto.
Qed.

Lemma results_inv_step (xs : list Entry) (st st' : ResultsPage) :
  results_inv xs st -> results_step st st' -> results_inv xs st'.
Proof. intros Hi H. inversion H; subst; eauto using results_inv_search, results_inv_toggle. Qed.

(** C6: in every state the results page reaches from its creation by
    searches and toggles, the rows are those rendered for the items, and
    once a search has run, the match count is the number of shown rows and
    [No Matches] is shown exactly when it is zero. *)
Theorem results_reachable_inv (xs : list Entry) (st : ResultsPage) :
  results_reachable xs st -> results_inv xs st.
Proof.
  unfold results_reachable. generalize (results_inv_create xs). generalize (create_results xs).
  intros s Hs H. induction H as [|s s' s'' Hstep _ IH]; eauto using results_inv_step.
Qed.

(** ** The search over the rows *)

(** C12: on a well-formed page, in every state of the invariant, a search
    shows exactly the rows of the entries [search_page] selects, in the
    page's order: the search over the rows' ids implements the search
    over the keys. *)
Theorem results_search_shows (p : SearchPage) (q : string) (st : ResultsPage) :
  results_inv (page_entries p) st ->
  List.map (fun d => row_id (dom_row d)) (filter dom_shown (res_rows (results_search q st))) =
  List.map (fun x => "SR_" ++ entry_key x) (search_page q (page_entries p)).
Proof. intros [Hr _]. exact (shown_ids q st _ Hr (page_keys_lower p)). Qed.

(** C13: after a search on a well-formed page the count is the number of
    entries found, and [No Matches] is shown exactly when none is. *)
Theorem results_search_nomatches (p : SearchPage) (q : string) (st : ResultsPage) :
  results_inv (page_entries p) st ->
  res_count (results_search q st) = List.length (search_page q (page_entries p)) /\
  (res_nomatches (results_search q st) = true <-> search_page q (page_entries p) = []).
Proof.
  intros [Hr _]. pose proof (f_equal (@List.length string) (shown_ids q st _ Hr (page_keys_lower p))) as H.
  rewrite !length_map in H. cbn [results_search res_count res_nomatches res_rows] in *.
  split; [exact H|]. now rewrite H, Nat.eqb_eq, length_zero_iff_nil.
Qed.

(** ** Links and toggles *)

(** C16: on a well-formed page, the links the result row of an entry
    offers are the entry's links, in order, each with its href and scope
    and each opening in the parent frame. *)
Theorem page_row_links (p : SearchPage) (e : nat) (x : Entry) :
  In x (page_entries p) ->
  row_links (render_entry e x) = List.map (fun l => (link_href l, TParent, link_scope l)) (entry_links x).
Proof.
  intros Hx. rewrite row_links_render. apply map_ext_in. intros l Hl.
  unfold link_target. now rewrite (page_link_flag p x l Hx Hl).
Qed.

(** C14: on a well-formed page, in every state of the invariant, the
    toggle of an entry's row finds that row, the one rendered for the
    entry at its position, and flips its children only: the other rows,
    the status lines and the count are unchanged. *)
Theorem results_toggle_own (p : SearchPage) (st : ResultsPage) (pre post : list Entry) (x : Entry) :
  results_inv (page_entries p) st -> page_entries p = (pre ++ x :: post)%list ->
  exists dpre d dpost,
    res_rows st = (dpre ++ d :: dpost)%list /\ dom_row d = render_entry (List.length pre) x /\
    results_toggle ("SR_" ++ entry_key x) st =
      Some (mkResults (dpre ++ flip_row d :: dpost) (res_searching st) (res_nomatches st) (res_count st)).
Proof.
  intros [Hr _] Hp. pose proof (page_sorted p) as Hs. rewrite Hp in Hr, Hs.
  rewrite render_from_app in Hr. cbn [render_from] in Hr.
  apply map_eq_app in Hr as (dpre & rest & Hst & Hpre & Hrest).
  apply map_eq_cons in Hrest as (d & dpost & -> & Hd & _).
  exists dpre, d, dpost. repeat split; [exact Hst | exact Hd |].
  unfold results_toggle. rewrite Hst, toggle_rows_app; [reflexivity | |now rewrite Hd, row_id_render].
  rewrite (render_ids dpre 0 pre Hpre). apply (page_row_id_notin p).
  intros y Hy. apply string_ltb_neq.
  apply (StronglySorted_app_between _ pre (x :: post)) with (1 := Hs); [exact Hy | now left].
Qed.

(** C15: toggling an id that no row of a well-formed page has fails, as
    the script does on a missing element. *)
Theorem results_toggle_missing (p : SearchPage) (st : ResultsPage) (k : string) :
  results_inv (page_entries p) st -> (forall x, In x (page_entries p) -> entry_key x <> k) ->
  results_toggle ("SR_" ++ k) st = None.
Proof.
  intros [Hr _] Hk. unfold results_toggle. rewrite toggle_rows_None; [reflexivity|].
  rewrite (render_ids _ 0 _ Hr). intros (y & E%sr_inj & Hy)%in_map_iff. exact (Hk y Hy E).
Qed.

(** ** The widget and the results page together *)

(** C5: on an index of well-formed pages with distinct letters, the rows
    the results frame shows for a non-blank query, after the widget has
    chosen the page and the page has rendered and searched its rows, are
    exactly the rows of the entries of the whole index whose lower-case
    name begins with the trimmed, lower-case query; for a blank query no
    page is chosen and no row is shown. *)
Theorem widget_shown_spec (ix : list SearchPage) (q : string) :
  NoDup (List.map page_letter ix) ->
  widget_shown ix q =
  match lower (trim_query q) with
  | "" => []
  | _ => List.map (fun x => "SR_" ++ entry_key x) (spec_search ix q)
  end.
Proof.
  intros Hnd. destruct (lower (trim_query q)) as [|c r] eqn:E.
  - unfold widget_shown. now rewrite select_page_blank.
  - rewrite <- (widget_search_filter ix q Hnd) by (now rewrite E). unfold widget_shown, widget_search.
    destruct (select_page ix q) as [p|]; [|reflexivity].
    exact (shown_ids q _ _ (proj1 (results_inv_create _)) (page_keys_lower p)).
Qed.

(** ** Witnesses *)

Lemma results_reachable_inv_witness :
  results_inv functions_1 (results_search "bench" (create_results functions_1)).
Proof.
  apply results_reachable_inv. unfold results_reachable.
  econstructor; [apply StepSearch | constructor].
Defined.

Lemma results_search_shows_witness :
  List.map (fun d => row_id (dom_row d))
    (filter dom_shown (res_rows (results_search "Benchmark" (create_results functions_1)))) =
  List.map (fun x => "SR_" ++ entry_key x) (search_page "Benchmark" (page_entries functions_1_page)).
Proof. apply results_search_shows. results_inv_eval. Defined.

Lemma results_search_nomatches_witness :
  res_count (results_search "bytes" (create_results functions_1)) =
    List.length (search_page "bytes" (page_entries functions_1_page)) /\
  (res_nomatches (results_search "bytes" (create_results functions_1)) = true <->
   search_page "bytes" (page_entries functions_1_page) = []).
Proof. apply results_search_nomatches. results_inv_eval. Defined.

Lemma page_row_links_witness :
  row_links (render_entry 5 entry_bytes_5fper_5fsecond) =
  List.map (fun l => (link_href l, TParent, link_scope l)) (entry_links entry_bytes_5fper_5fsecond).
Proof. apply (page_row_links functions_1_page). vm_compute. find_in. Defined.

Lemma results_toggle_own_witness :
  exists dpre d dpost,
    res_rows (create_results functions_1) = (dpre ++ d :: dpost)%list /\
    dom_row d = render_entry (List.length [entry_barrier; entry_benchmark]) entry_benchmarkbase /\
    results_toggle ("SR_" ++ entry_key entry_benchmarkbase) (create_results functions_1) =
      Some (mkResults (dpre ++ flip_row d :: dpost) true false 0).
Proof.
  apply (results_toggle_own functions_1_page (create_results functions_1)
           [entry_barrier; entry_benchmark] [entry_benchmarkpc; entry_benchmarkthreads; entry_bytes_5fper_5fsecond]).
  - results_inv_eval.
  - reflexivity.
Defined.

Lemma results_toggle_missing_witness :
  results_toggle ("SR_" ++ "bench") (create_results functions_1) = None.
Proof.
  apply (results_toggle_missing functions_1_page).
  - results_inv_eval.
  - intros x Hx. simpl in Hx. repeat destruct Hx as [<-|Hx]; try (vm_compute; discriminate).
    contradiction.
Defined.

Lemma widget_shown_spec_witness :
  widget_shown functions_index "  " =
  match lower (trim_query "  ") with
  | "" => []
  | _ => List.map (fun x => "SR_" ++ entry_key x) (spec_search functions_index "  ")
  end.
Proof. apply widget_shown_spec. apply (nodupb_NoDup Ascii.eqb); [exact Ascii.eqb_eq | reflexivity]. Defined.
