(* ===== verification/SearchNav.v ===== *)
(** * Keyboard navigation over the shown rows

    With the arrow keys the results page moves the focus from one result
    row to the next or the previous one that is shown.  The script looks
    for the element [Item<index>], skips it while its row is hidden and
    gives up when there is no such element:

    - [NavNext index]: [index], [index+1], ... until a shown row or past
      the last row ([nav_next_loop]);
    - [NavPrev index]: [index], [index-1], ... until a shown row or past
      the first one ([nav_prev_loop]).

    Both are [while (1)] loops; they are modelled with fuel, the outer
    [None] standing for fuel running out.  The theorems give the fuel that
    is always enough (the loops terminate), identify the result as the
    first shown row at or after the index and the last shown row at or
    before it ([nav_next_loop_spec], [nav_prev_loop_spec]), and show that the
    focus only ever lands on a row the search shows, that is, on an entry
    the search found. *)

From Stdlib Require Import String Ascii List Bool Lia Arith.
From S2P Require Import Prelude SearchData SearchPage Functions1 SearchIndex SearchResults.
Import ListNotations.
Open Scope string_scope.

(** The row of [Item<i>]: the [i]-th row, none past the last. *)
Definition item_row (rows : list DomRow) (i : nat) : option DomRow := nth_error rows i.

Fixpoint nav_next_loop (fuel : nat) (rows : list DomRow) (i : nat) : option (option nat) :=
  match fuel with
  | O => None
  | S f =>
      match item_row rows i with
      | Some d => if dom_shown d then Some (Some i) else nav_next_loop f rows (S i)
      | None => Some None
      end
  end.

(** Below index [0] the element [Item-1] does not exist either. *)
Fixpoint nav_prev_loop (fuel : nat) (rows : list DomRow) (i : nat) : option (option nat) :=
  match fuel with
  | O => None
  | S f =>
      match item_row rows i with
      | Some d =>
          if dom_shown d then Some (Some i)
          else match i with
               | O => Some None
               | S j => nav_prev_loop f rows j
               end
      | None => Some None
      end
  end.

(** Whether [Item<j>] exists and its row is shown. *)
Definition row_shown (rows : list DomRow) (j : nat) : bool :=
  match item_row rows j with
  | Some d => dom_shown d
  | None => false
  end.

(** ** Lemmas *)

Lemma row_shown_Some (rows : list DomRow) (j : nat) (d : DomRow) :
  item_row rows j = Some d -> row_shown rows j = dom_shown d.
Proof. unfold row_shown. now intros ->. Qed.

Lemma row_shown_None (rows : list DomRow) (j : nat) : item_row rows j = None -> row_shown rows j = false.
Proof. unfold row_shown. now intros ->. Qed.

Lemma item_row_None (rows : list DomRow) (i j : nat) :
  item_row rows i = None -> i <= j -> item_row rows j = None.
Proof. unfold item_row. rewrite !nth_error_None. lia. Qed.

(** A row is hidden if it is the hidden row [i] or any other hidden one. *)
Lemma hidden_row (rows : list DomRow) (i j : nat) (d : DomRow) :
  item_row rows i = Some d -> dom_shown d = false ->
  (j <> i -> row_shown rows j = false) -> row_shown rows j = false.
Proof.
  intros E Hd H. destruct (Nat.eq_dec j i) as [->|Hj]; [now rewrite (row_shown_Some _ _ _ E) | auto].
Qed.

Lemma nav_next_shown (fuel : nat) (rows : list DomRow) (i k : nat) :
  nav_next_loop fuel rows i = Some (Some k) -> row_shown rows k = true.
Proof.
  revert i. induction fuel as [|f IH]; intros i H; simpl in H; [discriminate|].
  destruct (item_row rows i) as [d|] eqn:E; [|discriminate].
  destruct (dom_shown d) eqn:Hd; [|eauto]. injection H as <-. now rewrite (row_shown_Some _ _ _ E).
Qed.

Lemma nav_prev_shown (fuel : nat) (rows : list DomRow) (i k : nat) :
  nav_prev_loop fuel rows i = Some (Some k) -> row_shown rows k = true.
Proof.
  revert i. induction fuel as [|f IH]; intros i H; simpl in H; [discriminate|].
  destruct (item_row rows i) as [d|] eqn:E; [|discriminate].
  destruct (dom_shown d) eqn:Hd.
  - injection H as <-. now rewrite (row_shown_Some _ _ _ E).
  - destruct i as [|j]; [discriminate | eauto].
Qed.

Lemma nth_error_render_from (e k : nat) (xs : list Entry) :
  nth_error (render_from e xs) k = option_map (render_entry (e + k)) (nth_error xs k).
Proof.
  revert e k. induction xs as [|x xs IH]; intros e [|k]; simpl; auto.
  - now rewrite Nat.add_0_r.
  - now rewrite IH, Nat.add_succ_r.
Qed.

(** A row shown after a search is the row of an entry the search found. *)
Lemma shown_row_entry (p : SearchPage) (q : string) (st : ResultsPage) (k : nat) :
  results_inv (page_entries p) st -> row_shown (res_rows (results_search q st)) k = true ->
  exists x, nth_error (page_entries p) k = Some x /\ In x (search_page q (page_entries p)).
Proof.
  intros [Hr _] H. unfold row_shown, item_row in H. cbn [results_search res_rows] in H.
  rewrite nth_error_map in H. destruct (nth_error (res_rows st) k) as [d|] eqn:Ed; [|discriminate].
  cbn [option_map dom_shown] in H.
  pose proof (f_equal (fun l => nth_error l k) Hr) as Hk. cbn beta in Hk.
  rewrite nth_error_map, Ed, nth_error_render_from in Hk.
  destruct (nth_error (page_entries p) k) as [x|] eqn:Ex; [|discriminate]. injection Hk as Hd.
  exists x. split; [reflexivity|]. unfold search_page. apply filter_In.
  split; [exact (nth_error_In _ _ Ex)|].
  rewrite Hd, row_id_render, row_match_name_key in H; [exact H|].
  exact (page_key_lower p x (nth_error_In _ _ Ex)).
Qed.

(** ** Termination and what the loops find *)

(** [NavNext] returns once the fuel exceeds the number of rows from [i]
    on, with the first shown row at index [i] or after, or nothing when
    every row from [i] on is hidden. *)
Lemma nav_next_loop_spec (fuel : nat) (rows : list DomRow) (i : nat) :
  List.length rows - i < fuel ->
  exists r, nav_next_loop fuel rows i = Some r /\
    match r with
    | Some k => i <= k /\ row_shown rows k = true /\ forall j, i <= j < k -> row_shown rows j = false
    | None => forall j, i <= j -> row_shown rows j = false
    end.
Proof.
  revert i. induction fuel as [|f IH]; intros i Hf; [lia|]. simpl.
  destruct (item_row rows i) as [d|] eqn:E.
  - destruct (dom_shown d) eqn:Hd.
    + exists (Some i). split; [reflexivity|].
      repeat split; [lia | now rewrite (row_shown_Some _ _ _ E) | intros; lia].
    + assert (Hi : i < List.length rows) by (apply nth_error_Some; unfold item_row in E; congruence).
      destruct (IH (S i)) as (r & Hr & Hs); [lia|]. exists r. split; [exact Hr|].
      destruct r as [k|].
      * destruct Hs as (H1 & H2 & H3). repeat split; [lia | exact H2 |].
        intros j Hj. apply (hidden_row rows i j d E Hd). intros. apply H3. lia.
      * intros j Hj. apply (hidden_row rows i j d E Hd). intros. apply Hs. lia.
  - exists None. split; [reflexivity|]. intros j Hj. apply row_shown_None, (item_row_None _ i); auto.
Qed.

(** [NavPrev] returns once the fuel exceeds [i], with the last shown row
    at index [i] or before; nothing when [Item<i>] is missing or every row
    up to [i] is hidden. *)
Lemma nav_prev_loop_spec (fuel : nat) (rows : list DomRow) (i : nat) :
  i < fuel ->
  exists r, nav_prev_loop fuel rows i = Some r /\
    match r with
    | Some k => k <= i /\ row_shown rows k = true /\ forall j, k < j <= i -> row_shown rows j = false
    | None => item_row rows i = None \/ forall j, j <= i -> row_shown rows j = false
    end.
Proof.
  revert i. induction fuel as [|f IH]; intros i Hf; [lia|]. simpl.
  destruct (item_row rows i) as [d|] eqn:E; [|exists None; split; [reflexivity | now left]].
  destruct (dom_shown d) eqn:Hd.
  - exists (Some i). split; [reflexivity|].
    repeat split; [lia | now rewrite (row_shown_Some _ _ _ E) | intros; lia].
  - destruct i as [|i].
    + exists None. split; [reflexivity|]. right. intros j Hj.
      replace j with 0 by lia. now rewrite (row_shown_Some _ _ _ E).
    + destruct (IH i) as (r & Hr & Hs); [lia|]. exists r. split; [exact Hr|].
      destruct r as [k|].
      * destruct Hs as (H1 & H2 & H3). repeat split; [lia | exact H2 |].
        intros j Hj. apply (hidden_row rows (S i) j d E Hd). intros. apply H3. lia.
      * right. destruct Hs as [Hn|Hs].
        -- apply (item_row_None _ i (S i)) in Hn; [congruence | lia].
        -- intros j Hj. apply (hidden_row rows (S i) j d E Hd). intros. apply Hs. lia.
Qed.

Lemma render_from_length (e : nat) (xs : list Entry) : List.length (render_from e xs) = List.length xs.
Proof. revert e. induction xs as [|x xs IH]; intros e; simpl; [reflexivity | now rewrite IH]. Qed.

Lemma results_rows_length (xs : list Entry) (st : ResultsPage) :
  results_inv xs st -> List.length (res_rows st) = List.length xs.
Proof. intros [Hr _]. now rewrite <- (length_map dom_row), Hr, render_from_length. Qed.

(** C18: on the results page of a data page, [NavNext] from [i]
    terminates once the fuel exceeds the number of entries from [i] on, and
    focuses the first shown row at index [i] or after, or nothing when
    every row from [i] on is hidden. *)
Theorem nav_next_terminates (p : SearchPage) (st : ResultsPage) (fuel i : nat) :
  results_inv (page_entries p) st -> List.length (page_entries p) - i < fuel ->
  exists r, nav_next_loop fuel (res_rows st) i = Some r /\
    match r with
    | Some k => i <= k /\ row_shown (res_rows st) k = true /\
                forall j, i <= j < k -> row_shown (res_rows st) j = false
    | None => forall j, i <= j -> row_shown (res_rows st) j = false
    end.
Proof. intros Hi Hf. apply nav_next_loop_spec. now rewrite (results_rows_length _ _ Hi). Qed.

(** C19: on the results page of a data page, [NavPrev] from the index [i]
    of an existing row terminates with fuel [S i], and focuses the last
    shown row at index [i] or before, or nothing when every row up to [i]
    is hidden. *)
Theorem nav_prev_terminates (p : SearchPage) (st : ResultsPage) (i : nat) :
  results_inv (page_entries p) st -> i < List.length (page_entries p) ->
  exists r, nav_prev_loop (S i) (res_rows st) i = Some r /\
    match r with
    | Some k => k <= i /\ row_shown (res_rows st) k = true /\
                forall j, k < j <= i -> row_shown (res_rows st) j = false
    | None => forall j, j <= i -> row_shown (res_rows st) j = false
    end.
Proof.
  intros Hi Hl. destruct (nav_prev_loop_spec (S i) (res_rows st) i) as (r & Hr & Hs); [lia|].
  exists r. split; [exact Hr|]. destruct r as [k|]; [exact Hs|]. destruct Hs as [Hn|Hs]; [|exact Hs].
  unfold item_row in Hn. apply nth_error_None in Hn. rewrite (results_rows_length _ _ Hi) in Hn. lia.
Qed.

(** C20: after a search on a well-formed page, the arrow keys move the
    focus only to rows the search shows: the row of an entry the search
    found. *)
Theorem nav_focus_found (p : SearchPage) (q : string) (st : ResultsPage) (fuel i k : nat) :
  results_inv (page_entries p) st ->
  (nav_next_loop fuel (res_rows (results_search q st)) i = Some (Some k) \/
   nav_prev_loop fuel (res_rows (results_search q st)) i = Some (Some k)) ->
  exists x, nth_error (page_entries p) k = Some x /\ In x (search_page q (page_entries p)).
Proof.
  intros Hi [H|H]; apply (shown_row_entry p q st k Hi); eauto using nav_next_shown, nav_prev_shown.
Qed.

(** ** Witnesses *)

Lemma nav_next_terminates_witness :
  exists r, nav_next_loop 7 (res_rows (results_search "Benchmark" (create_results functions_1))) 0 = Some r /\
    match r with
    | Some k => 0 <= k /\ row_shown (res_rows (results_search "Benchmark" (create_results functions_1))) k = true /\
                forall j, 0 <= j < k -> row_shown (res_rows (results_search "Benchmark" (create_results functions_1))) j = false
    | None => forall j, 0 <= j -> row_shown (res_rows (results_search "Benchmark" (create_results functions_1))) j = false
    end.
Proof.
  apply (nav_next_terminates functions_1_page).
  - results_inv_eval.
  - vm_compute. lia.
Defined.

Lemma nav_prev_terminates_witness :
  exists r, nav_prev_loop 6 (res_rows (results_search "bytes" (create_results functions_1))) 5 = Some r /\
    match r with
    | Some k => k <= 5 /\ row_shown (res_rows (results_search "bytes" (create_results functions_1))) k = true /\
                forall j, k < j <= 5 -> row_shown (res_rows (results_search "bytes" (create_results functions_1))) j = false
    | None => forall j, j <= 5 -> row_shown (res_rows (results_search "bytes" (create_results functions_1))) j = false
    end.
Proof.
  apply (nav_prev_terminates functions_1_page).
  - results_inv_eval.
  - vm_compute. lia.
Defined.

Lemma nav_focus_found_witness :
  exists x, nth_error (page_entries functions_1_page) 1 = Some x /\
            In x (search_page "Benchmark" (page_entries functions_1_page)).
Proof.
  apply (nav_focus_found functions_1_page "Benchmark" (create_results functions_1) 7 0 1).
  - results_inv_eval.
  - left. vm_compute. reflexivity.
Defined.
